(** * aah: the reply builder, the static file server and the view-engine store

    A shallow embedding of [reply.go], of the static file server
    ([serveStatic], [checkGzipRequired], [getHTTPDirAndFilePath]) and of the
    view-engine store exercised by [view_test.go], followed by the properties
    the specification states about them.

    Go strings are byte strings: they are [string] here, one [ascii] per
    byte.  [int] values are [Z] (no arithmetic in this code can overflow).
    Pointers to [Reply] are locations of a store, so that "returns the same
    instance" is a statement about locations.  A run-time panic is an outcome
    of its own, never confused with a returned error value. *)

From Stdlib Require Import ZArith Lia Ascii String List Bool.
From stdpp Require Import base option list strings gmap.

Open Scope string_scope.
Open Scope Z_scope.

(** ** The Go fragments the code relies on *)

(** Indexing and slicing of Go strings.  An index outside [0, len s) panics
    in Go: [index] answers [None] there. *)
Module gostring.

Definition len (s : string) : Z := Z.of_nat (String.length s).

Definition index (s : string) (i : Z) : option ascii :=
  if (i <? 0) || (len s <=? i) then None else String.get (Z.to_nat i) s.

(** [s[i:]] *)
Definition from (i : nat) (s : string) : string :=
  String.substring i (String.length s - i) s.

(** [s[:i]] *)
Definition upto (i : nat) (s : string) : string :=
  String.substring 0 i s.

Definition isLower (c : ascii) : bool := (Ascii.leb "a" c && Ascii.leb c "z")%bool.
Definition isUpper (c : ascii) : bool := (Ascii.leb "A" c && Ascii.leb c "Z")%bool.
Definition isDigit (c : ascii) : bool := (Ascii.leb "0" c && Ascii.leb c "9")%bool.

End gostring.

(** Package [unicode/utf8]: the decoding of one rune, from the front and
    from the back of a string.  Bytes and runes are numbers. *)
Module utf8.



(** What the table [first] says of a first byte: the size of the sequence in
    the low bits, the index into [acceptRanges] in the high ones. *)
Definition xx : Z := 0xF1.   (* invalid: size 1 *)
Definition as_ : Z := 0xF0.  (* ASCII: size 1 *)
Definition s1 : Z := 0x02.
Definition s2 : Z := 0x13.
Definition s3 : Z := 0x03.
Definition s4 : Z := 0x23.
Definition s5 : Z := 0x34.
Definition s6 : Z := 0x04.
Definition s7 : Z := 0x44.


Definition first (b : Z) : Z :=
  if b <? 0x80 then as_
  else if b <? 0xC2 then xx
  else if b <? 0xE0 then s1
  else if b =? 0xE0 then s2
  else if b <? 0xED then s3
  else if b =? 0xED then s4
  else if b <? 0xF0 then s3
  else if b =? 0xF0 then s5
  else if b <? 0xF4 then s6
  else if b =? 0xF4 then s7
  else xx.







End utf8.

(** Package [unicode]. *)
Module unicode.



End unicode.

(** Package [strings]. *)
Module strings.

(** [strings.LastIndex(s, sep)] for a separator of one byte: the index of
    the last [c] in [s], or -1.  [i] is the index of the first byte of
    [s] in the whole string. *)
Fixpoint LastIndexByte_from (i : Z) (s : string) (c : ascii) : Z :=
  match s with
  | EmptyString => -1
  | String b s' =>
      let r := LastIndexByte_from (i + 1) s' c in
      if 0 <=? r then r else if Ascii.eqb b c then i else -1
  end.

Definition LastIndexByte (s : string) (c : ascii) : Z :=
  LastIndexByte_from 0 s c.











End strings.

(** Package [path]. *)
Module path.

(** The loop [for len(path) > 0 && path[len(path)-1] == '/'] of [Base]. *)
Fixpoint stripTrailingSlashes (p : string) : string :=
  match p with
  | EmptyString => EmptyString
  | String c p' =>
      match stripTrailingSlashes p' with
      | EmptyString => if Ascii.eqb c "/" then EmptyString else String c EmptyString
      | t => String c t
      end
  end.

(** [path.Base]: the last element of the path. *)
Definition Base (p : string) : string :=
  if String.eqb p "" then "."
  else
    let p1 := stripTrailingSlashes p in
    let i := strings.LastIndexByte p1 "/" in
    let p2 := if 0 <=? i then gostring.from (Z.to_nat (i + 1)) p1 else p1 in
    if String.eqb p2 "" then "/" else p2.

(** [path.Split]: [path[:i+1], path[i+1:]] for [i] the last slash. *)
Definition Split (p : string) : string * string :=
  let i := strings.LastIndexByte p "/" in
  (gostring.upto (Z.to_nat (i + 1)) p, gostring.from (Z.to_nat (i + 1)) p).

End path.

(** Package [path/filepath], with the Unix separator. *)
Module filepath.

Definition IsPathSeparator (c : ascii) : bool := Ascii.eqb c "/".

(** The loop of [Ext]; [n] is [i + 1], so that [i] runs from
    [len(path) - 1] down to [0]. *)
Fixpoint Ext_loop (p : string) (n : nat) : string :=
  match n with
  | O => ""
  | S i =>
      match String.get i p with
      | Some c =>
          if IsPathSeparator c then ""
          else if Ascii.eqb c "." then gostring.from i p
          else Ext_loop p i
      | None => ""
      end
  end.

Definition Ext (p : string) : string := Ext_loop p (String.length p).

End filepath.

(** Package [net/textproto]: the canonical form of a header key. *)
Module textproto.

(** The token bytes of RFC 7230. *)
Definition validHeaderFieldByte (c : ascii) : bool :=
  (gostring.isLower c || gostring.isUpper c || gostring.isDigit c
   || existsb (Ascii.eqb c)
        ["!"; "#"; "$"; "%"; "&"; "'"; "*"; "+"; "-"; "."; "^"; "_"; "`"; "|"; "~"]%char)%bool.

Definition toLower : N := 32.   (* 'a' - 'A' *)

(** The second loop of [canonicalMIMEHeaderKey]: upper case at the start
    and after each dash, lower case elsewhere. *)
Fixpoint canonicalize (upper : bool) (a : string) : string :=
  match a with
  | EmptyString => EmptyString
  | String c a' =>
      let c' :=
        if (upper && gostring.isLower c)%bool then ascii_of_N (N_of_ascii c - toLower)
        else if (negb upper && gostring.isUpper c)%bool then ascii_of_N (N_of_ascii c + toLower)
        else c in
      String c' (canonicalize (Ascii.eqb c' "-") a')
  end.

(** [canonicalMIMEHeaderKey]: a key holding a byte that is not a token
    byte is returned unchanged. *)
Definition canonicalMIMEHeaderKey (a : string) : string :=
  if forallb validHeaderFieldByte (list_ascii_of_string a) then canonicalize true a
  else a.

(** The quick check of [CanonicalMIMEHeaderKey]: [s] is returned as it is
    unless a byte of the wrong case is met. *)
Fixpoint quickCheck (s : string) (upper : bool) (rest : string) : string :=
  match rest with
  | EmptyString => s
  | String c rest' =>
      if negb (validHeaderFieldByte c) then s
      else if (upper && gostring.isLower c)%bool then canonicalMIMEHeaderKey s
      else if (negb upper && gostring.isUpper c)%bool then canonicalMIMEHeaderKey s
      else quickCheck s (Ascii.eqb c "-") rest'
  end.

Definition CanonicalMIMEHeaderKey (s : string) : string := quickCheck s true s.

End textproto.

(** What a Go function call leaves behind: a value, or a run-time panic. *)
Inductive Result (A : Type) : Type :=
| Value (a : A)
| Panic (msg : string).
Arguments Value {A} a.
Arguments Panic {A} msg.

Definition nilMapAssignment : string := "assignment to entry in nil map".
Definition nilDereference : string :=
  "runtime error: invalid memory address or nil pointer dereference".
Definition indexOutOfRange : string := "runtime error: index out of range".

(** Package [syscall]: some error numbers of the operating system. *)
Module syscall.
Inductive Errno := ENOENT | EACCES | EPERM | ENOTDIR | EIO | EMFILE.
End syscall.

(** Go's [error] values, as far as this code tells them apart: a
    [*os.PathError] around an error number, and what [errors.New] makes. *)
Inductive error : Type :=
| PathError (op name : string) (errno : syscall.Errno)
| errorsNew (msg : string).

(** Package [os]: the classification of errors and of file modes that
    [serveStatic] consults. *)
Module os.

Definition IsNotExist (err : error) : bool :=
  match err with
  | PathError _ _ syscall.ENOENT => true
  | _ => false
  end.

Definition IsPermission (err : error) : bool :=
  match err with
  | PathError _ _ syscall.EACCES | PathError _ _ syscall.EPERM => true
  | _ => false
  end.

(** [type FileMode uint32], with the bits that tell the type of a file. *)
Definition FileMode := Z.

Definition ModeDir : FileMode := Z.shiftl 1 31.
Definition ModeSymlink : FileMode := Z.shiftl 1 27.
Definition ModeDevice : FileMode := Z.shiftl 1 26.
Definition ModeNamedPipe : FileMode := Z.shiftl 1 25.
Definition ModeSocket : FileMode := Z.shiftl 1 24.
Definition ModeCharDevice : FileMode := Z.shiftl 1 21.
Definition ModeIrregular : FileMode := Z.shiftl 1 19.

Definition ModeType : FileMode :=
  Z.lor ModeDir (Z.lor ModeSymlink (Z.lor ModeNamedPipe
    (Z.lor ModeSocket (Z.lor ModeDevice (Z.lor ModeCharDevice ModeIrregular))))).

Definition IsDir (m : FileMode) : bool := negb (Z.land m ModeDir =? 0).
Definition IsRegular (m : FileMode) : bool := Z.land m ModeType =? 0.

Record FileInfo := { Name : string; Mode : FileMode; ModTime : Z }.

End os.

(** Package [net/http]: status codes and [Header]. *)
Module http.

Definition StatusOK : Z := 200.
Definition StatusCreated : Z := 201.
Definition StatusAccepted : Z := 202.
Definition StatusNoContent : Z := 204.
Definition StatusMovedPermanently : Z := 301.
Definition StatusFound : Z := 302.
Definition StatusTemporaryRedirect : Z := 307.
Definition StatusBadRequest : Z := 400.
Definition StatusUnauthorized : Z := 401.
Definition StatusForbidden : Z := 403.
Definition StatusNotFound : Z := 404.
Definition StatusMethodNotAllowed : Z := 405.
Definition StatusConflict : Z := 409.
Definition StatusInternalServerError : Z := 500.
Definition StatusServiceUnavailable : Z := 503.

(** [type Header map[string][]string].  A Go map is [nil] or a table;
    reading and deleting on the nil map are harmless, assigning to it
    panics. *)
Inductive Header : Type :=
| nilHeader
| table (m : gmap string (list string)).

Definition entries (h : Header) : gmap string (list string) :=
  match h with nilHeader => ∅ | table m => m end.

(** [h[key]]. *)
Definition values (h : Header) (key : string) : list string :=
  default [] (entries h !! key).

(** [Header{}]. *)
Definition empty : Header := table ∅.

Definition Header_Set (h : Header) (key value : string) : Result Header :=
  match h with
  | nilHeader => Panic nilMapAssignment
  | table m => Value (table (<[textproto.CanonicalMIMEHeaderKey key := [value]]> m))
  end.

Definition Header_Add (h : Header) (key value : string) : Result Header :=
  match h with
  | nilHeader => Panic nilMapAssignment
  | table m =>
      let k := textproto.CanonicalMIMEHeaderKey key in
      Value (table (<[k := (default [] (m !! k) ++ [value])%list]> m))
  end.

Definition Header_Del (h : Header) (key : string) : Header :=
  match h with
  | nilHeader => nilHeader
  | table m => table (delete (textproto.CanonicalMIMEHeaderKey key) m)
  end.

Definition Header_Get (h : Header) (key : string) : string :=
  match values h (textproto.CanonicalMIMEHeaderKey key) with
  | [] => ""
  | v :: _ => v
  end.

(** [type File interface]: of an open file, what [Stat] answers. *)
Record File : Type := { Stat : os.FileInfo + error }.

End http.

(** Package [ahttp] of the framework: the header names and the raw content
    types, with the values the comments of [reply.go] give. *)
Module ahttp.
Definition HeaderContentType : string := "Content-Type".
Definition HeaderContentDisposition : string := "Content-Disposition".
Definition ContentTypeJSON_Raw : string := "application/json; charset=utf-8".
Definition ContentTypeXML_Raw : string := "application/xml; charset=utf-8".
Definition ContentTypePlainText_Raw : string := "text/plain; charset=utf-8".
Definition ContentTypeHTML_Raw : string := "text/html; charset=utf-8".

(** [type Request struct]: the path of the URL and the values of the path
    parameters of the matched route. *)
Record Request : Type := { Path : string; Params : gmap string string }.

Definition PathValue (r : Request) (key : string) : string :=
  default "" (Params r !! key).
End ahttp.

(** Package [essentials] ([ess]) is a library of its own and not among these
    sources.  Its emptiness test is a parameter of the model: what is proved
    of the methods at large holds whichever strings the test accepts.
    [trimmed] is the test the library has, for which white space counts as
    empty. *)
Module ess.

Class Essentials := { IsStrEmpty : string -> bool }.

(** Modelled from the spec: [ess.IsStrEmpty] as the spec has it, "setting
    an empty value deletes the key"; [Header]'s own comment reads
    [value == ""].  It is used to run the model on concrete inputs. *)
Definition emptyOnly : Essentials := {| IsStrEmpty := fun v => String.eqb v "" |}.


End ess.

(** ** The data model of [reply.go] *)

(** The values an action hands to a renderer ([interface{}]); the reply
    builder stores them and never looks inside. *)
Inductive any : Type :=
| nilValue
| boolValue (b : bool)
| intValue (n : Z)
| stringValue (s : string).

(** [type Data map[string]interface{}]. *)
Definition Data : Type := gmap string any.

(** The renderers, with the fields [reply.go] fills in; what a struct
    literal leaves out is zero. *)
Module render.
Inductive Render : Type :=
| JSON (Data : any) (IsJSONP : bool) (Callback : string)
| XML (Data : any)
| Text (Format : string) (Values : list any)
| Binary (Reader : option string) (Path : string)
| HTML (Layout Filename : string) (ViewArgs : Data).
End render.

(** [*http.Cookie]: cookies are held by reference. *)
Definition CookieRef := positive.

(** [type Reply struct].  [Rdr], [body] and [cookies] may be [nil]:
    [None]; a slice that is not nil is [Some] of its elements. *)
Record Reply : Type := {
  Code : Z;
  ContType : string;
  Hdr : http.Header;
  Rdr : option render.Render;
  body : option string;
  cookies : option (list CookieRef);
  redirect : bool;
  path : string;
  done : bool;
  gzip : bool
}.

(** Assignments to one field. *)
Definition set_Code (v : Z) (x : Reply) : Reply :=
  {| Code := v; ContType := ContType x; Hdr := Hdr x; Rdr := Rdr x; body := body x;
     cookies := cookies x; redirect := redirect x; path := path x; done := done x;
     gzip := gzip x |}.
Definition set_ContType (v : string) (x : Reply) : Reply :=
  {| Code := Code x; ContType := v; Hdr := Hdr x; Rdr := Rdr x; body := body x;
     cookies := cookies x; redirect := redirect x; path := path x; done := done x;
     gzip := gzip x |}.
Definition set_Hdr (v : http.Header) (x : Reply) : Reply :=
  {| Code := Code x; ContType := ContType x; Hdr := v; Rdr := Rdr x; body := body x;
     cookies := cookies x; redirect := redirect x; path := path x; done := done x;
     gzip := gzip x |}.
Definition set_Rdr (v : option render.Render) (x : Reply) : Reply :=
  {| Code := Code x; ContType := ContType x; Hdr := Hdr x; Rdr := v; body := body x;
     cookies := cookies x; redirect := redirect x; path := path x; done := done x;
     gzip := gzip x |}.
Definition set_body (v : option string) (x : Reply) : Reply :=
  {| Code := Code x; ContType := ContType x; Hdr := Hdr x; Rdr := Rdr x; body := v;
     cookies := cookies x; redirect := redirect x; path := path x; done := done x;
     gzip := gzip x |}.
Definition set_cookies (v : option (list CookieRef)) (x : Reply) : Reply :=
  {| Code := Code x; ContType := ContType x; Hdr := Hdr x; Rdr := Rdr x; body := body x;
     cookies := v; redirect := redirect x; path := path x; done := done x;
     gzip := gzip x |}.
Definition set_redirect (v : bool) (x : Reply) : Reply :=
  {| Code := Code x; ContType := ContType x; Hdr := Hdr x; Rdr := Rdr x; body := body x;
     cookies := cookies x; redirect := v; path := path x; done := done x;
     gzip := gzip x |}.
Definition set_path (v : string) (x : Reply) : Reply :=
  {| Code := Code x; ContType := ContType x; Hdr := Hdr x; Rdr := Rdr x; body := body x;
     cookies := cookies x; redirect := redirect x; path := v; done := done x;
     gzip := gzip x |}.
Definition set_done (v : bool) (x : Reply) : Reply :=
  {| Code := Code x; ContType := ContType x; Hdr := Hdr x; Rdr := Rdr x; body := body x;
     cookies := cookies x; redirect := redirect x; path := path x; done := v;
     gzip := gzip x |}.
Definition set_gzip (v : bool) (x : Reply) : Reply :=
  {| Code := Code x; ContType := ContType x; Hdr := Hdr x; Rdr := Rdr x; body := body x;
     cookies := cookies x; redirect := redirect x; path := path x; done := done x;
     gzip := v |}.

(** ** Running Go code: the store of replies, the wire, panics *)

Inductive LogLevel := LevelTrace | LevelDebug | LevelWarn | LevelError.

(** What a handler does to the response, the log and the extension points,
    in the order it does it. *)
Inductive Event : Type :=
| LogEvent (level : LogLevel) (msg : string)
| ResWriteHeader (code : Z)                      (* res.WriteHeader(code) *)
| ResWrite (text : string)                       (* fmt.Fprintf(res, text) *)
| HttpRedirect (url : string) (code : Z)         (* http.Redirect(res, req, url, code) *)
| HttpServeContent (name : string) (modtime : Z) (* http.ServeContent(...) *)
| DirectoryListing                               (* directoryList(res, req, f) *)
| WrapGzipWriter                                 (* e.wrapGzipWriter(ctx) *)
| WriteHeaders                                   (* e.writeHeaders(ctx) *)
| PublishOnPreReplyEvent
| PublishOnAfterReplyEvent
| CloseQuietly.                                  (* ess.CloseQuietly(f) *)

(** [*Reply]: a location of the store; a location that is not allocated
    stands for the nil pointer. *)
Definition ReplyPtr := positive.

Record State : Type := {
  replies : gmap ReplyPtr Reply;
  events : list Event
}.

Inductive Outcome (A : Type) : Type :=
| Returns (a : A) (s : State)
| Panics (msg : string) (s : State).
Arguments Returns {A} a s.
Arguments Panics {A} msg s.

Definition Go (A : Type) : Type := State -> Outcome A.

#[global] Instance Go_ret : MRet Go := fun A a s => Returns a s.
#[global] Instance Go_bind : MBind Go := fun A B f m s =>
  match m s with
  | Returns a s' => f a s'
  | Panics msg s' => Panics msg s'
  end.

Definition panic {A} (msg : string) : Go A := fun s => Panics msg s.

Definition lift {A} (r : Result A) : Go A :=
  match r with Value a => mret a | Panic msg => panic msg end.

(** The state in which the struct at [r] is [x]. *)
Definition upd (r : ReplyPtr) (x : Reply) (s : State) : State :=
  {| replies := <[r := x]> (replies s); events := events s |}.

Definition emptyState : State := {| replies := ∅; events := [] |}.

(** [*r]. *)
Definition load (r : ReplyPtr) : Go Reply := fun s =>
  match replies s !! r with
  | Some x => Returns x s
  | None => Panics nilDereference s
  end.

(** [r.field = v], as a function on the struct. *)
Definition assign (r : ReplyPtr) (f : Reply -> Reply) : Go unit := fun s =>
  match replies s !! r with
  | Some x => Returns tt (upd r (f x) s)
  | None => Panics nilDereference s
  end.

(** [&Reply{...}]. *)
Definition alloc (x : Reply) : Go ReplyPtr := fun s =>
  let r := fresh (dom (replies s)) in
  Returns r (upd r x s).

Definition emit (e : Event) : Go unit := fun s =>
  Returns tt {| replies := replies s; events := (events s ++ [e])%list |}.

(** [defer d] around [body]: [d] runs when [body] returns and when it
    panics. *)
Definition defer {A} (d : Go unit) (body : Go A) : Go A := fun s =>
  match body s with
  | Returns a s' => (d ;; mret a) s'
  | Panics msg s' =>
      match d s' with
      | Returns _ s'' => Panics msg s''
      | Panics msg' s'' => Panics msg' s''
      end
  end.

(** ** [reply.go] *)

(** [NewReply]: the fields the literal leaves out are zero. *)
Definition newReply : Reply :=
  {| Code := http.StatusOK; ContType := ""; Hdr := http.empty; Rdr := None; body := None;
     cookies := None; redirect := false; path := ""; done := false; gzip := true |}.

Definition NewReply : Go ReplyPtr := alloc newReply.

(** The methods of [*Reply].  A Go map is shared by reference; no method
    here lets [Hdr] escape, so [r.Hdr.Set(...)] is the assignment of the
    updated table to the field. *)
Module Reply.

Definition Status (r : ReplyPtr) (code : Z) : Go ReplyPtr :=
  assign r (set_Code code) ;; mret r.

Definition Ok (r : ReplyPtr) : Go ReplyPtr := Status r http.StatusOK.
Definition Created (r : ReplyPtr) : Go ReplyPtr := Status r http.StatusCreated.
Definition Accepted (r : ReplyPtr) : Go ReplyPtr := Status r http.StatusAccepted.
Definition NoContent (r : ReplyPtr) : Go ReplyPtr := Status r http.StatusNoContent.
Definition MovedPermanently (r : ReplyPtr) : Go ReplyPtr :=
  Status r http.StatusMovedPermanently.
Definition Found (r : ReplyPtr) : Go ReplyPtr := Status r http.StatusFound.
Definition TemporaryRedirect (r : ReplyPtr) : Go ReplyPtr :=
  Status r http.StatusTemporaryRedirect.
Definition BadRequest (r : ReplyPtr) : Go ReplyPtr := Status r http.StatusBadRequest.
Definition Unauthorized (r : ReplyPtr) : Go ReplyPtr := Status r http.StatusUnauthorized.
Definition Forbidden (r : ReplyPtr) : Go ReplyPtr := Status r http.StatusForbidden.
Definition NotFound (r : ReplyPtr) : Go ReplyPtr := Status r http.StatusNotFound.
Definition MethodNotAllowed (r : ReplyPtr) : Go ReplyPtr :=
  Status r http.StatusMethodNotAllowed.
Definition Conflict (r : ReplyPtr) : Go ReplyPtr := Status r http.StatusConflict.
Definition InternalServerError (r : ReplyPtr) : Go ReplyPtr :=
  Status r http.StatusInternalServerError.
Definition ServiceUnavailable (r : ReplyPtr) : Go ReplyPtr :=
  Status r http.StatusServiceUnavailable.

Definition ContentType (r : ReplyPtr) (contentType : string) : Go ReplyPtr :=
  assign r (set_ContType contentType) ;; mret r.

Definition JSON (r : ReplyPtr) (data : any) : Go ReplyPtr :=
  assign r (set_Rdr (Some (render.JSON data false ""))) ;;
  ContentType r ahttp.ContentTypeJSON_Raw ;;
  mret r.

Definition JSONP (r : ReplyPtr) (data : any) (callback : string) : Go ReplyPtr :=
  assign r (set_Rdr (Some (render.JSON data true callback))) ;;
  ContentType r ahttp.ContentTypeJSON_Raw ;;
  mret r.

Definition XML (r : ReplyPtr) (data : any) : Go ReplyPtr :=
  assign r (set_Rdr (Some (render.XML data))) ;;
  ContentType r ahttp.ContentTypeXML_Raw ;;
  mret r.

Definition Text (r : ReplyPtr) (format : string) (values : list any) : Go ReplyPtr :=
  assign r (set_Rdr (Some (render.Text format values))) ;;
  ContentType r ahttp.ContentTypePlainText_Raw ;;
  mret r.

Definition Readfrom (r : ReplyPtr) (reader : string) : Go ReplyPtr :=
  assign r (set_Rdr (Some (render.Binary (Some reader) ""))) ;; mret r.

Definition Binary (r : ReplyPtr) (b : string) : Go ReplyPtr := Readfrom r b.

Definition File (r : ReplyPtr) (file : string) : Go ReplyPtr :=
  assign r (set_Rdr (Some (render.Binary None file))) ;; mret r.

Definition HTMLlf (r : ReplyPtr) (layout filename : string) (data : Data) : Go ReplyPtr :=
  assign r (set_Rdr (Some (render.HTML layout filename data))) ;;
  ContentType r ahttp.ContentTypeHTML_Raw ;;
  mret r.

Definition HTML (r : ReplyPtr) (data : Data) : Go ReplyPtr := HTMLlf r "" "" data.
Definition HTMLl (r : ReplyPtr) (layout : string) (data : Data) : Go ReplyPtr :=
  HTMLlf r layout "" data.
Definition HTMLf (r : ReplyPtr) (filename : string) (data : Data) : Go ReplyPtr :=
  HTMLlf r "" filename data.

Definition RedirectSts (r : ReplyPtr) (redirectURL : string) (code : Z) : Go ReplyPtr :=
  assign r (set_redirect true) ;;
  Status r code ;;
  assign r (set_path redirectURL) ;;
  mret r.

Definition Redirect (r : ReplyPtr) (redirectURL : string) : Go ReplyPtr :=
  RedirectSts r redirectURL http.StatusFound.

Definition Header `{ess.Essentials} (r : ReplyPtr) (key value : string) : Go ReplyPtr :=
  if ess.IsStrEmpty value then
    if String.eqb key ahttp.HeaderContentType then ContentType r ""
    else
      x ← load r;
      assign r (set_Hdr (http.Header_Del (Hdr x) key)) ;;
      mret r
  else
    if String.eqb key ahttp.HeaderContentType then ContentType r value
    else
      x ← load r;
      h ← lift (http.Header_Set (Hdr x) key value);
      assign r (set_Hdr h) ;;
      mret r.

Definition HeaderAppend (r : ReplyPtr) (key value : string) : Go ReplyPtr :=
  if String.eqb key ahttp.HeaderContentType then ContentType r value
  else
    x ← load r;
    h ← lift (http.Header_Add (Hdr x) key value);
    assign r (set_Hdr h) ;;
    mret r.

Definition FileDownload `{ess.Essentials} (r : ReplyPtr) (file targetName : string)
  : Go ReplyPtr :=
  Header r ahttp.HeaderContentDisposition ("attachment; filename=" ++ targetName) ;;
  File r file.

Definition FileInline `{ess.Essentials} (r : ReplyPtr) (file targetName : string)
  : Go ReplyPtr :=
  Header r ahttp.HeaderContentDisposition ("inline; filename=" ++ targetName) ;;
  File r file.

Definition Done (r : ReplyPtr) : Go ReplyPtr :=
  assign r (set_done true) ;; mret r.

Definition Cookie (r : ReplyPtr) (cookie : CookieRef) : Go ReplyPtr :=
  x ← load r;
  (if cookies x is None then assign r (set_cookies (Some [])) else mret tt) ;;
  x ← load r;
  assign r (set_cookies (Some (default [] (cookies x) ++ [cookie])%list)) ;;
  mret r.

Definition DisableGzip (r : ReplyPtr) : Go ReplyPtr :=
  assign r (set_gzip false) ;; mret r.



Definition Reset (r : ReplyPtr) : Go unit :=
  assign r (set_Code http.StatusOK) ;;
  assign r (set_ContType "") ;;
  assign r (set_Hdr http.empty) ;;
  assign r (set_Rdr None) ;;
  assign r (set_body None) ;;
  assign r (set_cookies (Some [])) ;;
  assign r (set_redirect false) ;;
  assign r (set_path "") ;;
  assign r (set_done false) ;;
  assign r (set_gzip true).

End Reply.

(** ** The static file server *)

(** The route of the request, as the routes configuration gives it;
    [IsFile] stands for the answer of the method [IsFile()]. *)
Module router.
Record Route : Type := {
  IsFile : bool;
  File : string;
  Dir : string;
  ListDir : bool
}.
End router.

(** [type Context struct]: the request, its route and the reply.  The
    response writer [ctx.Res] is the wire of the [State]. *)
Record Context : Type := {
  Req : ahttp.Request;
  route : router.Route;
  reply : ReplyPtr
}.

(** What the host provides: the base directory of the application,
    [filepath.Join], and the file system behind [http.Dir(dir).Open(name)]. *)
Class Host : Type := {
  AppBaseDir : string;
  filepath_Join : string -> string -> string;
  http_Dir_Open : string -> string -> http.File + error
}.

Definition dirStatic : string := "static".

(** Modelled from the spec: the package variable [errFileNotFound] is
    declared outside these sources; it is the value that signals the
    "file not found" condition to the caller. *)
Definition errFileNotFound : error := errorsNew "file not found".

Definition checkGzipRequired (file : string) : bool :=
  match filepath.Ext file with
  | ".css" | ".js" | ".html" | ".htm" | ".json" | ".xml"
  | ".txt" | ".csv" | ".ttf" | ".otf" | ".eot" => true
  | _ => false
  end.

Definition getHTTPDirAndFilePath `{Host} (ctx : Context) : string * string :=
  if router.IsFile (route ctx) then
    (filepath_Join AppBaseDir dirStatic, router.File (route ctx))
  else
    (filepath_Join AppBaseDir (router.Dir (route ctx)),
     ahttp.PathValue (Req ctx) "filepath").

(** [serveStatic] returns an [error] that may be nil: [None]. *)
Definition serveStatic `{Host} (ctx : Context) : Go (option error) :=
  let '(httpDir, filePath) := getHTTPDirAndFilePath ctx in
  emit (LogEvent LevelTrace ("Dir: " ++ httpDir ++ ", Filepath: " ++ filePath)) ;;
  let req := Req ctx in
  match http_Dir_Open httpDir filePath with
  | inr err =>
      if os.IsNotExist err then
        emit (LogEvent LevelError ("file not found: " ++ ahttp.Path req)) ;;
        mret (Some errFileNotFound)
      else
        (if os.IsPermission err then
           emit (LogEvent LevelWarn ("permission issue: " ++ ahttp.Path req)) ;;
           emit (ResWriteHeader http.StatusForbidden) ;;
           emit (ResWrite "403 Forbidden")
         else
           emit (ResWriteHeader http.StatusInternalServerError) ;;
           emit (ResWrite "500 Internal Server Error")) ;;
        mret None
  | inl f =>
      defer (emit CloseQuietly)
        match http.Stat f with
        | inr err =>
            emit (ResWriteHeader http.StatusInternalServerError) ;;
            emit (ResWrite "500 Internal Server Error") ;;
            mret None
        | inl fi =>
            assign (reply ctx) (set_gzip (checkGzipRequired filePath)) ;;
            emit WrapGzipWriter ;;
            emit WriteHeaders ;;
            if os.IsRegular (os.Mode fi) then
              emit PublishOnPreReplyEvent ;;
              emit (HttpServeContent (path.Base filePath) (os.ModTime fi)) ;;
              emit PublishOnAfterReplyEvent ;;
              mret None
            else if (os.IsDir (os.Mode fi) && router.ListDir (route ctx))%bool then
              match gostring.index (ahttp.Path req) (gostring.len (ahttp.Path req) - 1) with
              | None => panic indexOutOfRange
              | Some c =>
                  if negb (Ascii.eqb c "/") then
                    emit (LogEvent LevelDebug ("redirecting to dir: " ++ ahttp.Path req ++ "/")) ;;
                    emit (HttpRedirect (path.Base (ahttp.Path req) ++ "/") http.StatusFound) ;;
                    mret None
                  else
                    emit PublishOnPreReplyEvent ;;
                    emit DirectoryListing ;;
                    emit PublishOnAfterReplyEvent ;;
                    mret None
              end
            else
              emit (LogEvent LevelWarn ("directory listing not allowed: " ++ ahttp.Path req)) ;;
              emit (ResWriteHeader http.StatusForbidden) ;;
              emit (ResWrite "403 Directory listing not allowed") ;;
              mret None
        end
  end.

(** What a run wrote on the response: the status codes, in order, and
    whether anything at all reached the response writer. *)
Definition statusOf (e : Event) : option Z :=
  match e with
  | ResWriteHeader code => Some code
  | HttpRedirect _ code => Some code
  | _ => None
  end.

Definition statuses (l : list Event) : list Z := omap statusOf l.

Definition onResponse (e : Event) : bool :=
  match e with
  | ResWriteHeader _ | ResWrite _ | HttpRedirect _ _ | HttpServeContent _ _
  | DirectoryListing | WriteHeaders => true
  | _ => false
  end.

Definition redirects (l : list Event) : list (string * Z) :=
  omap (fun e => if e is HttpRedirect url code then Some (url, code) else None) l.

(** ** The view-engine store *)

Module view.

(** An engine, known by the name of its implementation. *)
Definition Enginer : Type := string.

Definition GoViewEngine : Enginer := "GoViewEngine".

Definition errNilEngine : error := errorsNew "view: engine value is nil".

Definition errAlreadyAdded (name : string) : error :=
  errorsNew ("view: engine name '" ++ name ++ "' is already added, skip it").

(** The engines registered when the package is loaded: [TestViewStore]
    finds ["go"] taken. *)
Definition initialEngines : gmap string Enginer := {[ "go" := GoViewEngine ]}.

(** Modelled from the spec: [view.GetEngine] belongs to the view package,
    which is not among these sources; it answers the engine registered
    under the name and whether there is one, as [TestViewStore] uses it. *)
Definition GetEngine (name : string) (engines : gmap string Enginer)
    : option Enginer * bool :=
  match engines !! name with
  | Some e => (Some e, true)
  | None => (None, false)
  end.

End view.

(** Modelled from the spec: [AddViewEngine] and the store behind it are not
    among these sources.  "Registering a view engine under a name that
    already exists returns a descriptive duplicate-registration error and
    leaves the existing registration unchanged; registering a nil engine
    returns a distinct error."  The messages are those [TestViewStore]
    expects; [None] is the nil engine. *)
Definition AddViewEngine (name : string) (engine : option view.Enginer)
    (engines : gmap string view.Enginer) : option error * gmap string view.Enginer :=
  match engine with
  | None => (Some view.errNilEngine, engines)
  | Some e =>
      match engines !! name with
      | Some _ => (Some (view.errAlreadyAdded name), engines)
      | None => (None, <[name := e]> engines)
      end
  end.

(** ** Vocabulary of the properties *)

(** The cookies of a reply as [len] and [range] see them: the nil slice
    and the empty slice both hold none. *)
Definition cookieList (x : Reply) : list CookieRef := default [] (cookies x).

(** Two replies that no reader of the fields can tell apart. *)
Definition sameReply (a b : Reply) : Prop :=
  Code a = Code b /\ ContType a = ContType b /\ Hdr a = Hdr b /\ Rdr a = Rdr b /\
  body a = body b /\ cookieList a = cookieList b /\ redirect a = redirect b /\
  path a = path b /\ done a = done b /\ gzip a = gzip b.

(** The allow-list of extensions, as the specification enumerates it. *)
Definition gzipExtensions : list string :=
  [".css"; ".js"; ".html"; ".htm"; ".json"; ".xml"; ".txt"; ".csv"; ".ttf"; ".otf"; ".eot"].

(** The last byte of a string, if it has one. *)
Fixpoint lastByte (p : string) : option ascii :=
  match p with
  | EmptyString => None
  | String c EmptyString => Some c
  | String _ p' => lastByte p'
  end.

(** A byte that [filepath.Ext] walks over: neither a dot nor a path
    separator. *)
Definition plainByte (c : ascii) : bool :=
  (negb (filepath.IsPathSeparator c) && negb (Ascii.eqb c "."))%bool.


(** The state after more events. *)
Definition emitted (l : list Event) (s : State) : State :=
  {| replies := replies s; events := (events s ++ l)%list |}.

(** ** A host to run the server on *)

(** A file system with a directory [css], a file [app.js], an entry
    [secret] that may not be opened, an entry [broken] whose [Stat] fails,
    and nothing else. *)
Definition demoOpen (dir name : string) : http.File + error :=
  if String.eqb name "css" then
    inl {| http.Stat := inl {| os.Name := "css"; os.Mode := Z.lor os.ModeDir 493;
                               os.ModTime := 0 |} |}
  else if String.eqb name "app.js" then
    inl {| http.Stat := inl {| os.Name := "app.js"; os.Mode := 420; os.ModTime := 0 |} |}
  else if String.eqb name "secret" then inr (PathError "open" name syscall.EACCES)
  else if String.eqb name "broken" then
    inl {| http.Stat := inr (PathError "stat" name syscall.EIO) |}
  else if String.eqb name "full" then inr (PathError "open" name syscall.EMFILE)
  else inr (PathError "open" name syscall.ENOENT).

Definition demoHost : Host :=
  {| AppBaseDir := "/srv/app";
     filepath_Join := fun a b => a ++ "/" ++ b;
     http_Dir_Open := demoOpen |}.

(** A request for [urlPath] on a directory route with listing enabled,
    whose path parameter is [name]. *)
Definition demoContext (urlPath name : string) : Context :=
  {| Req := {| ahttp.Path := urlPath; ahttp.Params := {[ "filepath" := name ]} |};
     route := {| router.IsFile := false; router.File := ""; router.Dir := "static";
                 router.ListDir := true |};
     reply := 1%positive |}.

Definition demoState : State := upd 1%positive newReply emptyState.

(** ** Chains of builder calls *)

(** A call of one of the chaining methods of [*Reply], with its
    arguments. *)
Inductive Call : Type :=
| CallStatus (code : Z)
| CallOk
| CallCreated
| CallAccepted
| CallNoContent
| CallMovedPermanently
| CallFound
| CallTemporaryRedirect
| CallBadRequest
| CallUnauthorized
| CallForbidden
| CallNotFound
| CallMethodNotAllowed
| CallConflict
| CallInternalServerError
| CallServiceUnavailable
| CallContentType (contentType : string)
| CallJSON (data : any)
| CallJSONP (data : any) (callback : string)
| CallXML (data : any)
| CallText (format : string) (values : list any)
| CallBinary (b : string)
| CallReadfrom (reader : string)
| CallFile (file : string)
| CallFileDownload (file targetName : string)
| CallFileInline (file targetName : string)
| CallHTML (data : Data)
| CallHTMLl (layout : string) (data : Data)
| CallHTMLf (filename : string) (data : Data)
| CallHTMLlf (layout filename : string) (data : Data)
| CallRedirect (redirectURL : string)
| CallRedirectSts (redirectURL : string) (code : Z)
| CallHeader (key value : string)
| CallHeaderAppend (key value : string)
| CallDone
| CallCookie (cookie : CookieRef)
| CallDisableGzip.

(** The method a call stands for. *)
Definition call `{ess.Essentials} (c : Call) (r : ReplyPtr) : Go ReplyPtr :=
  match c with
  | CallStatus code => Reply.Status r code
  | CallOk => Reply.Ok r
  | CallCreated => Reply.Created r
  | CallAccepted => Reply.Accepted r
  | CallNoContent => Reply.NoContent r
  | CallMovedPermanently => Reply.MovedPermanently r
  | CallFound => Reply.Found r
  | CallTemporaryRedirect => Reply.TemporaryRedirect r
  | CallBadRequest => Reply.BadRequest r
  | CallUnauthorized => Reply.Unauthorized r
  | CallForbidden => Reply.Forbidden r
  | CallNotFound => Reply.NotFound r
  | CallMethodNotAllowed => Reply.MethodNotAllowed r
  | CallConflict => Reply.Conflict r
  | CallInternalServerError => Reply.InternalServerError r
  | CallServiceUnavailable => Reply.ServiceUnavailable r
  | CallContentType contentType => Reply.ContentType r contentType
  | CallJSON data => Reply.JSON r data
  | CallJSONP data callback => Reply.JSONP r data callback
  | CallXML data => Reply.XML r data
  | CallText format values => Reply.Text r format values
  | CallBinary b => Reply.Binary r b
  | CallReadfrom reader => Reply.Readfrom r reader
  | CallFile file => Reply.File r file
  | CallFileDownload file targetName => Reply.FileDownload r file targetName
  | CallFileInline file targetName => Reply.FileInline r file targetName
  | CallHTML data => Reply.HTML r data
  | CallHTMLl layout data => Reply.HTMLl r layout data
  | CallHTMLf filename data => Reply.HTMLf r filename data
  | CallHTMLlf layout filename data => Reply.HTMLlf r layout filename data
  | CallRedirect redirectURL => Reply.Redirect r redirectURL
  | CallRedirectSts redirectURL code => Reply.RedirectSts r redirectURL code
  | CallHeader key value => Reply.Header r key value
  | CallHeaderAppend key value => Reply.HeaderAppend r key value
  | CallDone => Reply.Done r
  | CallCookie cookie => Reply.Cookie r cookie
  | CallDisableGzip => Reply.DisableGzip r
  end.

(** [r.A().B()...]: each call is made on what the call before returned. *)
Fixpoint chain `{ess.Essentials} (cs : list Call) (r : ReplyPtr) : Go ReplyPtr :=
  match cs with
  | [] => mret r
  | c :: cs' => r' ← call c r; chain cs' r'
  end.

(** What the calls leave in the struct, when its header table is not nil:
    the runs of [call] and [chain] are proved to end there. *)
Definition afterHeader `{ess.Essentials} (key value : string) (x : Reply) : Reply :=
  if ess.IsStrEmpty value then
    if String.eqb key ahttp.HeaderContentType then set_ContType "" x
    else set_Hdr (http.Header_Del (Hdr x) key) x
  else
    if String.eqb key ahttp.HeaderContentType then set_ContType value x
    else
      set_Hdr (http.table (<[textproto.CanonicalMIMEHeaderKey key := [value]]>
                             (http.entries (Hdr x)))) x.

Definition afterHeaderAppend (key value : string) (x : Reply) : Reply :=
  if String.eqb key ahttp.HeaderContentType then set_ContType value x
  else
    let k := textproto.CanonicalMIMEHeaderKey key in
    set_Hdr (http.table (<[k := (http.values (Hdr x) k ++ [value])%list]>
                           (http.entries (Hdr x)))) x.

Definition after `{ess.Essentials} (c : Call) (x : Reply) : Reply :=
  match c with
  | CallStatus code => set_Code code x
  | CallOk => set_Code 200 x
  | CallCreated => set_Code 201 x
  | CallAccepted => set_Code 202 x
  | CallNoContent => set_Code 204 x
  | CallMovedPermanently => set_Code 301 x
  | CallFound => set_Code 302 x
  | CallTemporaryRedirect => set_Code 307 x
  | CallBadRequest => set_Code 400 x
  | CallUnauthorized => set_Code 401 x
  | CallForbidden => set_Code 403 x
  | CallNotFound => set_Code 404 x
  | CallMethodNotAllowed => set_Code 405 x
  | CallConflict => set_Code 409 x
  | CallInternalServerError => set_Code 500 x
  | CallServiceUnavailable => set_Code 503 x
  | CallContentType contentType => set_ContType contentType x
  | CallJSON data =>
      set_ContType ahttp.ContentTypeJSON_Raw (set_Rdr (Some (render.JSON data false "")) x)
  | CallJSONP data callback =>
      set_ContType ahttp.ContentTypeJSON_Raw
        (set_Rdr (Some (render.JSON data true callback)) x)
  | CallXML data =>
      set_ContType ahttp.ContentTypeXML_Raw (set_Rdr (Some (render.XML data)) x)
  | CallText format values =>
      set_ContType ahttp.ContentTypePlainText_Raw
        (set_Rdr (Some (render.Text format values)) x)
  | CallBinary b => set_Rdr (Some (render.Binary (Some b) "")) x
  | CallReadfrom reader => set_Rdr (Some (render.Binary (Some reader) "")) x
  | CallFile file => set_Rdr (Some (render.Binary None file)) x
  | CallFileDownload file targetName =>
      set_Rdr (Some (render.Binary None file))
        (afterHeader ahttp.HeaderContentDisposition ("attachment; filename=" ++ targetName) x)
  | CallFileInline file targetName =>
      set_Rdr (Some (render.Binary None file))
        (afterHeader ahttp.HeaderContentDisposition ("inline; filename=" ++ targetName) x)
  | CallHTML data =>
      set_ContType ahttp.ContentTypeHTML_Raw (set_Rdr (Some (render.HTML "" "" data)) x)
  | CallHTMLl layout data =>
      set_ContType ahttp.ContentTypeHTML_Raw (set_Rdr (Some (render.HTML layout "" data)) x)
  | CallHTMLf filename data =>
      set_ContType ahttp.ContentTypeHTML_Raw
        (set_Rdr (Some (render.HTML "" filename data)) x)
  | CallHTMLlf layout filename data =>
      set_ContType ahttp.ContentTypeHTML_Raw
        (set_Rdr (Some (render.HTML layout filename data)) x)
  | CallRedirect redirectURL =>
      set_path redirectURL (set_Code 302 (set_redirect true x))
  | CallRedirectSts redirectURL code =>
      set_path redirectURL (set_Code code (set_redirect true x))
  | CallHeader key value => afterHeader key value x
  | CallHeaderAppend key value => afterHeaderAppend key value x
  | CallDone => set_done true x
  | CallCookie cookie => set_cookies (Some (cookieList x ++ [cookie])%list) x
  | CallDisableGzip => set_gzip false x
  end.

Definition afterAll `{ess.Essentials} (cs : list Call) (x : Reply) : Reply :=
  fold_left (fun y c => after c y) cs x.

(** The cookies a chain adds, in the order of the calls. *)
Definition cookiesOf (cs : list Call) : list CookieRef :=
  omap (fun c => if c is CallCookie cookie then Some cookie else None) cs.

(** A header table that is not nil. *)
Definition isTable (h : http.Header) : Prop := h <> http.nilHeader.

(** Every key of the table is in canonical form. *)
Definition keysCanonical (h : http.Header) : Prop :=
  forall k, is_Some (http.entries h !! k) -> textproto.CanonicalMIMEHeaderKey k = k.

(** The status code a call sets, and the redirect target it sets, if it
    sets one. *)
Definition codeOf (c : Call) : option Z :=
  match c with
  | CallStatus code => Some code
  | CallOk => Some 200
  | CallCreated => Some 201
  | CallAccepted => Some 202
  | CallNoContent => Some 204
  | CallMovedPermanently => Some 301
  | CallFound => Some 302
  | CallTemporaryRedirect => Some 307
  | CallBadRequest => Some 400
  | CallUnauthorized => Some 401
  | CallForbidden => Some 403
  | CallNotFound => Some 404
  | CallMethodNotAllowed => Some 405
  | CallConflict => Some 409
  | CallInternalServerError => Some 500
  | CallServiceUnavailable => Some 503
  | CallRedirect _ => Some 302
  | CallRedirectSts _ code => Some code
  | _ => None
  end.

Definition targetOf (c : Call) : option string :=
  match c with
  | CallRedirect redirectURL => Some redirectURL
  | CallRedirectSts redirectURL _ => Some redirectURL
  | _ => None
  end.

(** The renderer a call attaches, and the content type it leaves in
    [ContType], if it does. *)
Definition rendererOf (c : Call) : option render.Render :=
  match c with
  | CallJSON data => Some (render.JSON data false "")
  | CallJSONP data callback => Some (render.JSON data true callback)
  | CallXML data => Some (render.XML data)
  | CallText format values => Some (render.Text format values)
  | CallBinary b => Some (render.Binary (Some b) "")
  | CallReadfrom reader => Some (render.Binary (Some reader) "")
  | CallFile file => Some (render.Binary None file)
  | CallFileDownload file _ => Some (render.Binary None file)
  | CallFileInline file _ => Some (render.Binary None file)
  | CallHTML data => Some (render.HTML "" "" data)
  | CallHTMLl layout data => Some (render.HTML layout "" data)
  | CallHTMLf filename data => Some (render.HTML "" filename data)
  | CallHTMLlf layout filename data => Some (render.HTML layout filename data)
  | _ => None
  end.

Definition contTypeOf `{ess.Essentials} (c : Call) : option string :=
  match c with
  | CallContentType contentType => Some contentType
  | CallJSON _ => Some "application/json; charset=utf-8"
  | CallJSONP _ _ => Some "application/json; charset=utf-8"
  | CallXML _ => Some "application/xml; charset=utf-8"
  | CallText _ _ => Some "text/plain; charset=utf-8"
  | CallHTML _ => Some "text/html; charset=utf-8"
  | CallHTMLl _ _ => Some "text/html; charset=utf-8"
  | CallHTMLf _ _ => Some "text/html; charset=utf-8"
  | CallHTMLlf _ _ _ => Some "text/html; charset=utf-8"
  | CallHeader key value =>
      if String.eqb key "Content-Type"
      then Some (if ess.IsStrEmpty value then "" else value) else None
  | CallHeaderAppend key value =>
      if String.eqb key "Content-Type" then Some value else None
  | _ => None
  end.

(** The case a byte gets in [canonicalize], by the [upper] flag. *)
Definition canonicalByte (upper : bool) (c : ascii) : ascii :=
  if (upper && gostring.isLower c)%bool then ascii_of_N (N_of_ascii c - textproto.toLower)
  else if (negb upper && gostring.isUpper c)%bool
       then ascii_of_N (N_of_ascii c + textproto.toLower)
       else c.

(** The state a run ends in, returned or panicked. *)
Definition finalState {A} (o : Outcome A) : State :=
  match o with
  | Returns _ s => s
  | Panics _ s => s
  end.

(** ** The directory listing *)

(** [type byName []os.FileInfo], with the three methods of
    [sort.Interface].  An index out of range panics. *)
Module byName.

Definition elem (s : list os.FileInfo) (i : Z) : Result os.FileInfo :=
  if i <? 0 then Panic indexOutOfRange
  else match s !! Z.to_nat i with
       | Some d => Value d
       | None => Panic indexOutOfRange
       end.

Definition Len (s : list os.FileInfo) : Z := Z.of_nat (length s).

(** [s[i].Name() < s[j].Name()]: Go compares strings byte by byte. *)
Definition Less (s : list os.FileInfo) (i j : Z) : Result bool :=
  match elem s i with
  | Panic msg => Panic msg
  | Value a =>
      match elem s j with
      | Panic msg => Panic msg
      | Value b => Value (String.ltb (os.Name a) (os.Name b))
      end
  end.

(** [s[i], s[j] = s[j], s[i]]: both elements are read, then both are
    written. *)
Definition Swap (s : list os.FileInfo) (i j : Z) : Result (list os.FileInfo) :=
  match elem s i with
  | Panic msg => Panic msg
  | Value a =>
      match elem s j with
      | Panic msg => Panic msg
      | Value b => Value (<[Z.to_nat j := a]> (<[Z.to_nat i := b]> s))
      end
  end.

(** [sort.IsSorted]: no element is less than the one before it. *)
Definition IsSorted (s : list os.FileInfo) : Prop :=
  forall i, 0 < i < Len s -> Less s i (i - 1) = Value false.

End byName.

(** What [directoryList] takes from libraries: the escaping of a name as a
    URL ([url.URL{Path: name}.String()]) and as HTML text, the formatting of
    a time with the format of the application, and [sort.Sort]. *)
Class Rendering : Type := {
  url_String : string -> string;
  HTMLEscapeString : string -> string;
  ModTime_Format : Z -> string;
  sort_Sort : list os.FileInfo -> list os.FileInfo
}.

Definition newline : string := String "010"%char EmptyString.
Definition quote : string := String "034"%char EmptyString.

(** The name a row shows: a directory gets a slash. *)
Definition listedName (d : os.FileInfo) : string :=
  if os.IsDir (os.Mode d) then os.Name d ++ "/" else os.Name d.

(** The row of one entry. *)
Definition listingRow `{Rendering} (d : os.FileInfo) : Event :=
  let name := listedName d in
  ResWrite ("<tr><td><a href=" ++ quote ++ url_String name ++ quote ++ ">"
            ++ HTMLEscapeString name
            ++ "</a></td><td width=" ++ quote ++ "200px" ++ quote
            ++ " align=" ++ quote ++ "right" ++ quote ++ ">"
            ++ ModTime_Format (os.ModTime d) ++ "</td></tr>" ++ newline).

Definition listingHead (reqPath : string) : list Event :=
  [ ResWrite ("<html>" ++ newline);
    ResWrite ("<head><title>Listing of " ++ reqPath ++ "</title></head>" ++ newline);
    ResWrite ("<body bgcolor=" ++ quote ++ "white" ++ quote ++ ">" ++ newline);
    ResWrite ("<h1>Listing of " ++ reqPath ++ "</h1><hr>" ++ newline);
    ResWrite ("<pre><table border=" ++ quote ++ "0" ++ quote ++ ">" ++ newline);
    ResWrite ("<tr><td collapse=" ++ quote ++ "2" ++ quote ++ "><a href=" ++ quote ++ "../"
              ++ quote ++ ">../</a></td></tr>" ++ newline) ].

Definition listingFoot : list Event :=
  [ ResWrite ("</table></pre>" ++ newline);
    ResWrite ("<hr></body>" ++ newline);
    ResWrite ("</html>" ++ newline) ].

(** [directoryList(res, req, f)]: [resHeader] is [res.Header()], [reqPath]
    is [req.URL.Path] and [readdir] what [f.Readdir(-1)] answers.  The
    result is the header of the response and what was written to it. *)
Definition directoryList `{Rendering} (resHeader : http.Header) (reqPath : string)
    (readdir : list os.FileInfo + error) : Result (http.Header * list Event) :=
  match readdir with
  | inr err =>
      Value (resHeader,
             [ResWriteHeader http.StatusInternalServerError;
              ResWrite "Error reading directory"])
  | inl dirs =>
      let dirs := sort_Sort dirs in
      match http.Header_Set resHeader ahttp.HeaderContentType ahttp.ContentTypeHTML_Raw with
      | Panic msg => Panic msg
      | Value h =>
          Value (h, (listingHead reqPath ++ map listingRow dirs ++ listingFoot)%list)
      end
  end.

(** Renderers to run [directoryList] with: names are written as they are,
    and the entries are sorted by insertion on their names. *)
Fixpoint insertByName (d : os.FileInfo) (l : list os.FileInfo) : list os.FileInfo :=
  match l with
  | [] => [d]
  | x :: l' =>
      if String.ltb (os.Name d) (os.Name x) then d :: x :: l' else x :: insertByName d l'
  end.

Definition demoRendering : Rendering :=
  {| url_String := fun name => name;
     HTMLEscapeString := fun name => name;
     ModTime_Format := fun _ => "2017-04-06 10:00:00";
     sort_Sort := foldr insertByName [] |}.

(** * Properties *)

(** ** Running Go code *)

Lemma lookup_upd (r : ReplyPtr) (x : Reply) (s : State) :
  replies (upd r x s) !! r = Some x.
Proof. unfold upd; cbn. apply lookup_insert_eq. Qed.

Lemma lookup_upd_ne (r r' : ReplyPtr) (x : Reply) (s : State) :
  r ≠ r' -> replies (upd r x s) !! r' = replies s !! r'.
Proof. intros Hne. unfold upd; cbn. by apply lookup_insert_ne. Qed.

Lemma events_upd (r : ReplyPtr) (x : Reply) (s : State) :
  events (upd r x s) = events s.
Proof. reflexivity. Qed.

Lemma upd_upd (r : ReplyPtr) (x y : Reply) (s : State) :
  upd r y (upd r x s) = upd r y s.
Proof. unfold upd; cbn. by rewrite insert_insert_eq. Qed.

Lemma bind_returns {A B} (m : Go A) (k : A -> Go B) (s s' : State) (a : A) :
  m s = Returns a s' -> (m ≫= k) s = k a s'.
Proof. intros Hm. unfold mbind, Go_bind. by rewrite Hm. Qed.

Lemma bind_panics {A B} (m : Go A) (k : A -> Go B) (s s' : State) (msg : string) :
  m s = Panics msg s' -> (m ≫= k) s = Panics msg s'.
Proof. intros Hm. unfold mbind, Go_bind. by rewrite Hm. Qed.

Lemma load_run (r : ReplyPtr) (s : State) (x : Reply) :
  replies s !! r = Some x -> load r s = Returns x s.
Proof. intros Hx. unfold load. by rewrite Hx. Qed.

Lemma assign_run (r : ReplyPtr) (f : Reply -> Reply) (s : State) (x : Reply) :
  replies s !! r = Some x -> assign r f s = Returns tt (upd r (f x) s).
Proof. intros Hx. unfold assign. by rewrite Hx. Qed.

Lemma load_nil (r : ReplyPtr) (s : State) :
  replies s !! r = None -> load r s = Panics nilDereference s.
Proof. intros Hx. unfold load. by rewrite Hx. Qed.

Lemma assign_nil (r : ReplyPtr) (f : Reply -> Reply) (s : State) :
  replies s !! r = None -> assign r f s = Panics nilDereference s.
Proof. intros Hx. unfold assign. by rewrite Hx. Qed.

(** One step of a run: the next [load] or [assign] on an allocated reply. *)
Ltac go_step :=
  first
    [ erewrite (bind_returns (assign _ _)) by (apply assign_run; first [eassumption | apply lookup_upd])
    | erewrite (bind_returns (load _)) by (apply load_run; first [eassumption | apply lookup_upd])
    | erewrite assign_run by first [eassumption | apply lookup_upd]
    | erewrite load_run by first [eassumption | apply lookup_upd] ].

Ltac go_run := repeat (go_step; rewrite ?upd_upd); cbn [mret Go_ret].

(** ** The status methods *)

Lemma Status_run (r : ReplyPtr) (code : Z) (s : State) (x : Reply) :
  replies s !! r = Some x ->
  Reply.Status r code s = Returns r (upd r (set_Code code x) s).
Proof. intros Hx. unfold Reply.Status. by go_run. Qed.

Lemma ContentType_run (r : ReplyPtr) (ct : string) (s : State) (x : Reply) :
  replies s !! r = Some x ->
  Reply.ContentType r ct s = Returns r (upd r (set_ContType ct x) s).
Proof. intros Hx. unfold Reply.ContentType. by go_run. Qed.

(** C7. Each status-convenience method ([Ok], [Created], [Accepted],
    [NoContent], [MovedPermanently], [Found], [TemporaryRedirect],
    [BadRequest], [Unauthorized], [Forbidden], [NotFound],
    [MethodNotAllowed], [Conflict], [InternalServerError],
    [ServiceUnavailable]) sets [Code] to its documented value (200, 201,
    202, 204, 301, 302, 307, 400, 401, 403, 404, 405, 409, 500, 503), leaves
    every other field of the reply as it was, and returns the pointer it
    was called on. *)
Theorem status_methods_set_Code_and_chain (r : ReplyPtr) (s : State) (x : Reply) :
  replies s !! r = Some x ->
  let sets (code : Z) (method : ReplyPtr -> Go ReplyPtr) :=
    method r s =
      Returns r (upd r {| Code := code; ContType := ContType x; Hdr := Hdr x; Rdr := Rdr x;
                          body := body x; cookies := cookies x; redirect := redirect x;
                          path := path x; done := done x; gzip := gzip x |} s) in
  sets 200 Reply.Ok /\ sets 201 Reply.Created /\ sets 202 Reply.Accepted /\
  sets 204 Reply.NoContent /\ sets 301 Reply.MovedPermanently /\ sets 302 Reply.Found /\
  sets 307 Reply.TemporaryRedirect /\ sets 400 Reply.BadRequest /\
  sets 401 Reply.Unauthorized /\ sets 403 Reply.Forbidden /\ sets 404 Reply.NotFound /\
  sets 405 Reply.MethodNotAllowed /\ sets 409 Reply.Conflict /\
  sets 500 Reply.InternalServerError /\ sets 503 Reply.ServiceUnavailable.
Proof.
  intros Hx sets. unfold sets.
  repeat split; apply (Status_run r _ s x Hx).
Qed.

Lemma status_methods_set_Code_and_chain_witness :
  let s := upd 1%positive newReply emptyState in
  replies s !! 1%positive = Some newReply /\
  Reply.NotFound 1%positive s = Returns 1%positive (upd 1%positive (set_Code 404 newReply) s).
Proof.
  intros s.
  assert (Hx : replies s !! 1%positive = Some newReply) by reflexivity.
  split; [exact Hx|].
  destruct (status_methods_set_Code_and_chain 1%positive s newReply Hx)
    as (_ & _ & _ & _ & _ & _ & _ & _ & _ & _ & HNotFound & _).
  exact HNotFound.
Defined.

(** ** [Reset] *)

Lemma NewReply_run (s : State) :
  NewReply s = Returns (fresh (dom (replies s))) (upd (fresh (dom (replies s))) newReply s).
Proof. reflexivity. Qed.

Lemma NewReply_is_fresh (s : State) :
  replies s !! fresh (dom (replies s)) = None.
Proof. apply not_elem_of_dom, is_fresh. Qed.

(** C6. Whatever the state of a reply, [Reset] leaves it with [Code] 200,
    an empty [ContType], a header table that is not nil and has no entry, no
    renderer, no body, an empty cookie list, [redirect] false, an empty
    [path], [done] false and [gzip] true: the state of a reply that
    [NewReply] has just made, as far as the fields can be read. *)
Theorem Reset_restores_initial_state (r : ReplyPtr) (s : State) (x : Reply) :
  replies s !! r = Some x ->
  let initial :=
    {| Code := 200; ContType := ""; Hdr := http.table ∅; Rdr := None; body := None;
       cookies := Some []; redirect := false; path := ""; done := false; gzip := true |} in
  Reply.Reset r s = Returns tt (upd r initial s) /\
  Hdr initial <> http.nilHeader /\
  cookieList initial = [] /\
  sameReply initial newReply.
Proof.
  intros Hx initial. split; [|split; [|split]].
  - unfold Reply.Reset. by go_run.
  - discriminate.
  - reflexivity.
  - by repeat split.
Qed.

Lemma Reset_restores_initial_state_witness :
  let x := set_gzip false (set_Code 404 (set_ContType "text/plain" newReply)) in
  let s := upd 1%positive x emptyState in
  replies s !! 1%positive = Some x /\
  Reply.Reset 1%positive s = Returns tt (upd 1%positive (set_cookies (Some []) newReply) s).
Proof.
  intros x s.
  assert (Hx : replies s !! 1%positive = Some x) by reflexivity.
  split; [exact Hx|].
  exact (proj1 (Reset_restores_initial_state 1%positive s x Hx)).
Defined.

(** [Reset] leaves the empty slice where [NewReply] leaves the nil slice;
    [Cookie] treats the two alike. *)
Remark Reset_cookies_empty_not_nil (r : ReplyPtr) (cookie : CookieRef) (s : State) (x : Reply) :
  replies s !! r = Some x -> cookieList x = [] ->
  exists x', Reply.Cookie r cookie s = Returns r (upd r x' s) /\ cookies x' = Some [cookie].
Proof.
  intros Hx Hnone. unfold Reply.Cookie. go_step.
  unfold cookieList in Hnone.
  destruct (cookies x) as [l|] eqn:Hcookies; cbn in Hnone; subst.
  - erewrite (bind_returns (mret tt)) by reflexivity. go_run.
    eexists; split; [reflexivity|]. cbn. by rewrite Hcookies.
  - go_run. eexists; split; [reflexivity|]. reflexivity.
Qed.

(** ** [Header] and [HeaderAppend] *)

Lemma Header_run `{ess.Essentials} (r : ReplyPtr) (key value : string) (s : State) (x : Reply) :
  replies s !! r = Some x ->
  Reply.Header r key value s =
    if ess.IsStrEmpty value then
      if String.eqb key ahttp.HeaderContentType
      then Returns r (upd r (set_ContType "" x) s)
      else Returns r (upd r (set_Hdr (http.Header_Del (Hdr x) key) x) s)
    else
      if String.eqb key ahttp.HeaderContentType
      then Returns r (upd r (set_ContType value x) s)
      else
        match http.Header_Set (Hdr x) key value with
        | Value h => Returns r (upd r (set_Hdr h x) s)
        | Panic msg => Panics msg s
        end.
Proof.
  intros Hx. unfold Reply.Header.
  destruct (ess.IsStrEmpty value), (String.eqb key ahttp.HeaderContentType);
    try (by apply ContentType_run).
  - by go_run.
  - go_step. destruct (http.Header_Set (Hdr x) key value) as [h|msg]; cbn [lift].
    + erewrite (bind_returns (mret h)) by reflexivity. by go_run.
    + reflexivity.
Qed.

Lemma HeaderAppend_run (r : ReplyPtr) (key value : string) (s : State) (x : Reply) :
  replies s !! r = Some x ->
  Reply.HeaderAppend r key value s =
    if String.eqb key ahttp.HeaderContentType
    then Returns r (upd r (set_ContType value x) s)
    else
      match http.Header_Add (Hdr x) key value with
      | Value h => Returns r (upd r (set_Hdr h x) s)
      | Panic msg => Panics msg s
      end.
Proof.
  intros Hx. unfold Reply.HeaderAppend.
  destruct (String.eqb key ahttp.HeaderContentType); [by apply ContentType_run|].
  go_step. destruct (http.Header_Add (Hdr x) key value) as [h|msg]; cbn [lift].
  - erewrite (bind_returns (mret h)) by reflexivity. by go_run.
  - reflexivity.
Qed.

(** With the key spelled ["Content-Type"] the generic setters are the
    dedicated one, also on the nil pointer. *)
Lemma Header_ContentType_eq `{ess.Essentials} (r : ReplyPtr) (value : string) (s : State) :
  Reply.Header r ahttp.HeaderContentType value s =
  Reply.ContentType r (if ess.IsStrEmpty value then "" else value) s.
Proof. unfold Reply.Header. by destruct (ess.IsStrEmpty value). Qed.

Lemma HeaderAppend_ContentType_eq (r : ReplyPtr) (value : string) (s : State) :
  Reply.HeaderAppend r ahttp.HeaderContentType value s = Reply.ContentType r value s.
Proof. reflexivity. Qed.

Lemma entries_Header_Del (h : http.Header) (key k : string) :
  textproto.CanonicalMIMEHeaderKey key <> k ->
  http.entries (http.Header_Del h key) !! k = http.entries h !! k.
Proof. intros Hne. destruct h as [|m]; cbn; [done|]. by rewrite lookup_delete_ne. Qed.

Lemma entries_Header_Set (h h' : http.Header) (key value k : string) :
  textproto.CanonicalMIMEHeaderKey key <> k ->
  http.Header_Set h key value = Value h' ->
  http.entries h' !! k = http.entries h !! k.
Proof.
  intros Hne Hset. destruct h as [|m]; cbn in Hset; [discriminate|].
  injection Hset as <-. cbn. by rewrite lookup_insert_ne.
Qed.

Lemma entries_Header_Add (h h' : http.Header) (key value k : string) :
  textproto.CanonicalMIMEHeaderKey key <> k ->
  http.Header_Add h key value = Value h' ->
  http.entries h' !! k = http.entries h !! k.
Proof.
  intros Hne Hadd. destruct h as [|m]; cbn in Hadd; [discriminate|].
  injection Hadd as <-. cbn. by rewrite lookup_insert_ne.
Qed.

(** A call of [Header] whose key is ["Content-Type"] itself, or has another
    canonical form, leaves the ["Content-Type"] entry of [Hdr] alone. *)
Lemma Header_keeps_ContentType_entry `{ess.Essentials}
    (r r' : ReplyPtr) (key value : string) (s s' : State) (x : Reply) :
  replies s !! r = Some x ->
  key = ahttp.HeaderContentType \/
    textproto.CanonicalMIMEHeaderKey key <> ahttp.HeaderContentType ->
  Reply.Header r key value s = Returns r' s' ->
  exists x', replies s' !! r = Some x' /\
    http.entries (Hdr x') !! ahttp.HeaderContentType =
    http.entries (Hdr x) !! ahttp.HeaderContentType.
Proof.
  intros Hx Hkey. rewrite (Header_run r key value s x Hx).
  destruct (String.eqb_spec key ahttp.HeaderContentType) as [->|Hne].
  - destruct (ess.IsStrEmpty value); intros [= <- <-];
      eexists; (split; [apply lookup_upd|reflexivity]).
  - destruct Hkey as [?|Hcanon]; [done|].
    destruct (ess.IsStrEmpty value).
    + intros [= <- <-]. eexists; split; [apply lookup_upd|].
      by apply entries_Header_Del.
    + destruct (http.Header_Set (Hdr x) key value) as [h|msg] eqn:Hset; [|discriminate].
      intros [= <- <-]. eexists; split; [apply lookup_upd|].
      by apply (entries_Header_Set _ _ key value).
Qed.

Lemma HeaderAppend_keeps_ContentType_entry
    (r r' : ReplyPtr) (key value : string) (s s' : State) (x : Reply) :
  replies s !! r = Some x ->
  key = ahttp.HeaderContentType \/
    textproto.CanonicalMIMEHeaderKey key <> ahttp.HeaderContentType ->
  Reply.HeaderAppend r key value s = Returns r' s' ->
  exists x', replies s' !! r = Some x' /\
    http.entries (Hdr x') !! ahttp.HeaderContentType =
    http.entries (Hdr x) !! ahttp.HeaderContentType.
Proof.
  intros Hx Hkey. rewrite (HeaderAppend_run r key value s x Hx).
  destruct (String.eqb_spec key ahttp.HeaderContentType) as [->|Hne].
  - intros [= <- <-]. eexists; (split; [apply lookup_upd|reflexivity]).
  - destruct Hkey as [?|Hcanon]; [done|].
    destruct (http.Header_Add (Hdr x) key value) as [h|msg] eqn:Hadd; [|discriminate].
    intros [= <- <-]. eexists; split; [apply lookup_upd|].
    by apply (entries_Header_Add _ _ key value).
Qed.

(** The path of the exact spelling.  With the key spelled exactly
    ["Content-Type"], [Header] with value [v] leaves the reply in the state
    [ContentType] leaves it in -- called with [v], or with the empty string
    when [ess.IsStrEmpty] accepts [v] -- and [HeaderAppend] in the state
    [ContentType(v)] leaves it in; only [ContType] changes.  A call of
    [Header] or [HeaderAppend] whose key is ["Content-Type"], or whose
    canonical form is another header, leaves the ["Content-Type"] entry of
    [Hdr] as it was. *)
Theorem Header_ContentType_goes_to_ContType `{ess.Essentials}
    (r : ReplyPtr) (key value : string) (s : State) (x : Reply) :
  replies s !! r = Some x ->
  key = ahttp.HeaderContentType \/
    textproto.CanonicalMIMEHeaderKey key <> ahttp.HeaderContentType ->
  (Reply.Header r "Content-Type" value s =
     Reply.ContentType r (if ess.IsStrEmpty value then "" else value) s /\
   ((ess.IsStrEmpty value = true -> value = "") ->
    Reply.Header r "Content-Type" value s = Reply.ContentType r value s) /\
   Reply.HeaderAppend r "Content-Type" value s = Reply.ContentType r value s /\
   Reply.ContentType r value s = Returns r (upd r (set_ContType value x) s) /\
   Hdr (set_ContType value x) = Hdr x) /\
  (forall r' s',
     Reply.Header r key value s = Returns r' s' \/
     Reply.HeaderAppend r key value s = Returns r' s' ->
     exists x', replies s' !! r = Some x' /\
       http.entries (Hdr x') !! "Content-Type" = http.entries (Hdr x) !! "Content-Type").
Proof.
  intros Hx Hkey. split; [repeat split|].
  - apply Header_ContentType_eq.
  - intros Hempty. rewrite Header_ContentType_eq.
    destruct (ess.IsStrEmpty value); [by rewrite Hempty|done].
  - by apply ContentType_run.
  - intros r' s' [Hrun|Hrun].
    + by apply (Header_keeps_ContentType_entry r r' key value s s' x).
    + by apply (HeaderAppend_keeps_ContentType_entry r r' key value s s' x).
Qed.

(** C1.  The claim does not hold of the code at the key ["content-type"]:
    both generic setters store the value in [Hdr], under the canonical key
    ["Content-Type"], and leave [ContType] empty, where the claim has the
    state of [ContentType] and no such entry in [Hdr].  With the key spelled
    ["Content-Type"] the same value reaches [ContType] and [Hdr] stays
    empty. *)
Lemma lowercase_content_type_reaches_Hdr :
  let stored :=
    upd 1%positive (set_Hdr (http.table {[ "Content-Type" := ["text/plain"] ]}) newReply)
      emptyState in
  (r ← NewReply; Reply.HeaderAppend r "content-type" "text/plain") emptyState
    = Returns 1%positive stored /\
  (r ← NewReply; @Reply.Header ess.emptyOnly r "content-type" "text/plain") emptyState
    = Returns 1%positive stored /\
  http.entries (Hdr newReply) !! "Content-Type" = None /\
  (exists x, replies stored !! 1%positive = Some x /\
     http.entries (Hdr x) !! "Content-Type" = Some ["text/plain"] /\ ContType x = "") /\
  (exists y,
     (r ← NewReply; @Reply.Header ess.emptyOnly r "Content-Type" "text/plain") emptyState
       = Returns 1%positive (upd 1%positive y emptyState) /\
     (r ← NewReply; Reply.ContentType r "text/plain") emptyState
       = Returns 1%positive (upd 1%positive y emptyState) /\
     http.entries (Hdr y) !! "Content-Type" = None /\ ContType y = "text/plain").
Proof.
  intros stored. repeat split.
  - exists (set_Hdr (http.table {[ "Content-Type" := ["text/plain"] ]}) newReply).
    repeat split.
  - exists (set_ContType "text/plain" newReply). repeat split.
Qed.

Lemma values_Header_Del (h : http.Header) (key : string) :
  http.values (http.Header_Del h key) (textproto.CanonicalMIMEHeaderKey key) = [].
Proof.
  destruct h as [|m]; unfold http.values; cbn; [done|].
  by rewrite lookup_delete_eq.
Qed.

Lemma Get_Header_Del (h : http.Header) (key : string) :
  http.Header_Get (http.Header_Del h key) key = "".
Proof. unfold http.Header_Get. by rewrite values_Header_Del. Qed.


Lemma forallb_get (f : ascii -> bool) (b : string) (j : nat) (c : ascii) :
  forallb f (list_ascii_of_string b) = true -> String.get j b = Some c -> f c = true.
Proof.
  revert j. induction b as [|a b IH]; intros j Hall Hget; [done|].
  cbn in Hall. apply andb_true_iff in Hall as [Ha Hb].
  destruct j as [|j]; cbn in Hget; [by injection Hget as <-|]. by apply (IH j).
Qed.

(** ** What [ess.IsStrEmpty] answers on ASCII *)











(** A value set and then erased through the same key is gone, also after
    [HeaderAppend] has added to it. *)
Lemma Header_set_then_erase `{ess.Essentials}
    (r : ReplyPtr) (key v1 v2 v0 : string) (s : State) (x : Reply)
    (m : gmap string (list string)) :
  replies s !! r = Some x -> Hdr x = http.table m ->
  key <> "Content-Type" ->
  ess.IsStrEmpty v1 = false -> ess.IsStrEmpty v0 = true ->
  exists x',
    (Reply.Header r key v1 ;; Reply.HeaderAppend r key v2 ;; Reply.Header r key v0) s
      = Returns r (upd r x' s) /\
    http.Header_Get (Hdr x') key = "" /\
    http.entries (Hdr x') !! textproto.CanonicalMIMEHeaderKey key = None.
Proof.
  intros Hx Hm Hne Hv1 Hv0.
  assert (Heqb : String.eqb key ahttp.HeaderContentType = false)
    by (by apply String.eqb_neq).
  erewrite bind_returns; last first.
  { rewrite (Header_run r key v1 s x Hx), Hv1, Heqb, Hm. reflexivity. }
  erewrite bind_returns; last first.
  { erewrite HeaderAppend_run by apply lookup_upd. rewrite Heqb. reflexivity. }
  erewrite Header_run by apply lookup_upd. rewrite Hv0, Heqb, !upd_upd.
  eexists. split; [reflexivity|]. cbn [Hdr set_Hdr]. split.
  - apply Get_Header_Del.
  - cbn. apply lookup_delete_eq.
Qed.

(** ** Go strings *)

Lemma app_nil_l (s : string) : "" ++ s = s.
Proof. reflexivity. Qed.

Lemma app_cons (c : ascii) (s t : string) : String c s ++ t = String c (s ++ t).
Proof. reflexivity. Qed.

Lemma from_0 (p : string) : gostring.from 0 p = p.
Proof.
  unfold gostring.from. rewrite Nat.sub_0_r.
  induction p as [|c p IH]; cbn; [done|]. by rewrite IH.
Qed.

Lemma from_cons (c : ascii) (p : string) (n : nat) :
  gostring.from (S n) (String c p) = gostring.from n p.
Proof. reflexivity. Qed.

Lemma upto_from (p : string) (n : nat) :
  gostring.upto n p ++ gostring.from n p = p.
Proof.
  revert n. induction p as [|c p IH]; intros [|n]; try reflexivity.
  - change (gostring.upto 0 (String c p)) with "". rewrite app_nil_l. apply from_0.
  - change (gostring.upto (S n) (String c p)) with (String c (gostring.upto n p)).
    rewrite from_cons, app_cons. f_equal. apply IH.
Qed.

Lemma from_app (p q : string) : gostring.from (String.length p) (p ++ q) = q.
Proof.
  induction p as [|c p IH]; cbn [String.length].
  - apply from_0.
  - by rewrite app_cons, from_cons.
Qed.

Lemma get_app_r (p q : string) (n : nat) :
  String.get (String.length p + n) (p ++ q) = String.get n q.
Proof. induction p as [|c p IH]; [done|]. rewrite app_cons. apply IH. Qed.

Lemma length_app (p q : string) :
  String.length (p ++ q) = (String.length p + String.length q)%nat.
Proof. induction p as [|c p IH]; [done|]. rewrite app_cons. cbn. by rewrite IH. Qed.

Lemma get_lastByte (p : string) :
  String.get (String.length p - 1) p = lastByte p.
Proof.
  induction p as [|c p IH]; [done|].
  destruct p as [|c' p]; [done|].
  change (lastByte (String c (String c' p))) with (lastByte (String c' p)).
  rewrite <- IH. cbn. by rewrite Nat.sub_0_r.
Qed.

Lemma index_last (p : string) :
  gostring.index p (gostring.len p - 1) = lastByte p.
Proof.
  unfold gostring.index, gostring.len.
  destruct p as [|c p]; [done|].
  rewrite <- get_lastByte.
  cbn [String.length].
  rewrite (proj2 (Z.ltb_ge _ _)) by lia.
  rewrite (proj2 (Z.leb_gt _ _)) by lia.
  cbn [orb]. f_equal. lia.
Qed.

Lemma lastByte_None (p : string) : lastByte p = None <-> p = "".
Proof.
  split; [|by intros ->].
  induction p as [|c p IH]; [done|].
  destruct p as [|c' p]; [done|]. intros H. by apply IH in H.
Qed.

Lemma index_None (p : string) :
  gostring.index p (gostring.len p - 1) = None <-> p = "".
Proof. rewrite index_last. apply lastByte_None. Qed.

(** ** [path.Base] and [path.Split] *)

Lemma stripTrailingSlashes_id (p : string) (c : ascii) :
  lastByte p = Some c -> c <> "/"%char -> path.stripTrailingSlashes p = p.
Proof.
  intros Hlast Hc. induction p as [|a p IH]; [done|].
  destruct p as [|a' p].
  - injection Hlast as ->. cbn. by rewrite (proj2 (Ascii.eqb_neq _ _) Hc).
  - change (lastByte (String a (String a' p))) with (lastByte (String a' p)) in Hlast.
    cbn [path.stripTrailingSlashes]. cbn [path.stripTrailingSlashes] in IH.
    by rewrite (IH Hlast).
Qed.

(** The last slash lies inside the string, and before its last byte when
    that byte is not a slash. *)
Lemma LastIndexByte_from_range (p : string) (k : Z) (c : ascii) :
  let i := strings.LastIndexByte_from k p c in
  i = -1 \/ (k <= i < k + gostring.len p).
Proof.
  revert k. induction p as [|b p IH]; intros k; cbn; [by left|].
  specialize (IH (k + 1)). cbn in IH. unfold gostring.len in *. cbn [String.length].
  destruct (Z.leb_spec 0 (strings.LastIndexByte_from (k + 1) p c)).
  - destruct IH as [?|?]; [lia|]. right. lia.
  - destruct (Ascii.eqb b c); [right; lia|by left].
Qed.

Lemma LastIndexByte_from_before_last (p : string) (k : Z) (c l : ascii) :
  0 <= k -> lastByte p = Some l -> l <> c ->
  strings.LastIndexByte_from k p c + 1 < k + gostring.len p.
Proof.
  revert k. induction p as [|b p IH]; intros k Hk Hlast Hl; [done|].
  unfold gostring.len in *. cbn [String.length strings.LastIndexByte_from].
  destruct p as [|b' p].
  - injection Hlast as ->. cbn. rewrite (proj2 (Ascii.eqb_neq _ _) Hl). lia.
  - change (lastByte (String b (String b' p))) with (lastByte (String b' p)) in Hlast.
    specialize (IH (k + 1) ltac:(lia) Hlast Hl).
    destruct (Z.leb_spec 0 (strings.LastIndexByte_from (k + 1) (String b' p) c)).
    + cbn [String.length] in *. lia.
    + destruct (Ascii.eqb b c); cbn [String.length]; lia.
Qed.

Lemma from_nonempty (p : string) (n : nat) :
  (n < String.length p)%nat -> gostring.from n p <> "".
Proof.
  revert n. induction p as [|b p IH]; intros n Hn; cbn in Hn; [lia|].
  destruct n as [|n]; [by rewrite from_0|].
  rewrite from_cons. apply IH. lia.
Qed.

(** For a path that is not empty and does not end in a slash, [Base] is the
    file part of [Split]: the directory of the path followed by [Base] is
    the path. *)
Lemma Split_Base (p : string) (c : ascii) :
  lastByte p = Some c -> c <> "/"%char ->
  (path.Split p).1 ++ path.Base p = p.
Proof.
  intros Hlast Hc.
  assert (Hne : p <> "") by (intros ->; discriminate).
  unfold path.Base, path.Split. cbn [fst].
  rewrite (proj2 (String.eqb_neq _ _) Hne).
  rewrite (stripTrailingSlashes_id p c Hlast Hc).
  unfold strings.LastIndexByte.
  pose proof (LastIndexByte_from_range p 0 "/") as Hrange. cbn in Hrange.
  pose proof (LastIndexByte_from_before_last p 0 "/" c ltac:(lia) Hlast Hc) as Hbefore.
  set (i := strings.LastIndexByte_from 0 p "/") in *.
  assert (Hp2 : (if 0 <=? i then gostring.from (Z.to_nat (i + 1)) p else p)
                = gostring.from (Z.to_nat (i + 1)) p).
  { destruct (Z.leb_spec 0 i); [done|].
    replace i with (-1) by lia. cbn. by rewrite from_0. }
  rewrite Hp2.
  assert (Hnonempty : gostring.from (Z.to_nat (i + 1)) p <> "").
  { apply from_nonempty. unfold gostring.len in *. lia. }
  rewrite (proj2 (String.eqb_neq _ _) Hnonempty).
  apply upto_from.
Qed.

(** ** [filepath.Ext] and [checkGzipRequired] *)

Lemma get_is_Some (s : string) (n : nat) :
  (n < String.length s)%nat -> is_Some (String.get n s).
Proof.
  revert n. induction s as [|c s IH]; intros n Hn; cbn in Hn; [lia|].
  destruct n as [|n]; [by eexists|]. apply IH. lia.
Qed.

Lemma Ext_loop_suffix (p b : string) (k : nat) :
  (k <= String.length b)%nat ->
  (forall j c, (j < k)%nat -> String.get j b = Some c -> plainByte c = true) ->
  filepath.Ext_loop (p ++ String "." b) (String.length p + 1 + k) = String "." b.
Proof.
  intros Hk Hplain. induction k as [|k IH].
  - rewrite Nat.add_0_r, Nat.add_1_r. cbn [filepath.Ext_loop].
    rewrite <- (Nat.add_0_r (String.length p)) at 1.
    rewrite get_app_r. cbn [String.get]. cbn [filepath.IsPathSeparator Ascii.eqb].
    cbn. apply from_app.
  - replace (String.length p + 1 + S k)%nat with (S (String.length p + 1 + k)) by lia.
    cbn [filepath.Ext_loop].
    replace (String.length p + 1 + k)%nat with (String.length p + S k)%nat at 1 by lia.
    rewrite get_app_r. cbn [String.get].
    destruct (get_is_Some b k ltac:(lia)) as [c Hget]. rewrite Hget.
    pose proof (Hplain k c ltac:(lia) Hget) as Hc. unfold plainByte in Hc.
    apply andb_true_iff in Hc as [Hsep Hdot].
    apply negb_true_iff in Hsep, Hdot. rewrite Hsep, Hdot.
    apply IH; [lia|]. intros j c' Hj. apply Hplain. lia.
Qed.

(** The extension of a path that ends in a dot followed by plain bytes is
    that suffix, whatever precedes it. *)
Lemma Ext_suffix (p b : string) :
  forallb plainByte (list_ascii_of_string b) = true ->
  filepath.Ext (p ++ String "." b) = String "." b.
Proof.
  intros Hplain. unfold filepath.Ext.
  rewrite length_app. cbn [String.length].
  replace (String.length p + S (String.length b))%nat
    with (String.length p + 1 + String.length b)%nat by lia.
  apply Ext_loop_suffix; [lia|].
  intros j c _. by apply forallb_get.
Qed.

Lemma gzip_switch_inv : forall e : string,
  match e with
  | ".css" | ".js" | ".html" | ".htm" | ".json" | ".xml"
  | ".txt" | ".csv" | ".ttf" | ".otf" | ".eot" => true
  | _ => false
  end = true -> In e gzipExtensions.
Proof.
  do 6 (let e := fresh "e" in
        intros e;
        destruct e as [|[b0 b1 b2 b3 b4 b5 b6 b7] e];
        [ first [discriminate | intros _; cbn; tauto]
        | destruct b0; try discriminate; destruct b1; try discriminate;
          destruct b2; try discriminate; destruct b3; try discriminate;
          destruct b4; try discriminate; destruct b5; try discriminate;
          destruct b6; try discriminate; destruct b7; try discriminate; revert e ]).
Qed.

Lemma checkGzipRequired_iff (file : string) :
  checkGzipRequired file = true <-> In (filepath.Ext file) gzipExtensions.
Proof.
  unfold checkGzipRequired. split; [apply gzip_switch_inv|].
  cbn [In gzipExtensions]. intros H.
  repeat (destruct H as [<-|H]; [reflexivity|]). destruct H.
Qed.

Lemma checkGzipRequired_suffix (p e : string) :
  In e gzipExtensions -> checkGzipRequired (p ++ e) = true.
Proof.
  intros He. apply checkGzipRequired_iff.
  cbn [In gzipExtensions] in He.
  repeat (destruct He as [<-|He]; [rewrite Ext_suffix by reflexivity; cbn; tauto|]).
  destruct He.
Qed.

(** C5. [checkGzipRequired] answers true exactly when the extension of the
    path, as [filepath.Ext] gives it, is one of [.css], [.js], [.html],
    [.htm], [.json], [.xml], [.txt], [.csv], [.ttf], [.otf], [.eot].  So it
    is true for every path that ends in one of these, in particular in
    [.css], [.js] or [.json], and false for every path that ends in [.png].
    The path is all it is given: the content of the file plays no part. *)
Theorem checkGzipRequired_allow_list :
  (forall file, checkGzipRequired file = true <-> In (filepath.Ext file) gzipExtensions) /\
  (forall p e, In e gzipExtensions -> checkGzipRequired (p ++ e) = true) /\
  (forall p, checkGzipRequired (p ++ ".css") = true /\
             checkGzipRequired (p ++ ".js") = true /\
             checkGzipRequired (p ++ ".json") = true /\
             checkGzipRequired (p ++ ".png") = false).
Proof.
  split; [apply checkGzipRequired_iff|]. split; [apply checkGzipRequired_suffix|].
  intros p. repeat split; try (apply checkGzipRequired_suffix; cbn; tauto).
  unfold checkGzipRequired. by rewrite Ext_suffix by reflexivity.
Qed.

(** ** [serveStatic] *)

Lemma emit_run (e : Event) (s : State) : emit e s = Returns tt (emitted [e] s).
Proof. reflexivity. Qed.

Lemma emitted_emitted (l1 l2 : list Event) (s : State) :
  emitted l2 (emitted l1 s) = emitted (l1 ++ l2) s.
Proof. unfold emitted; cbn. by rewrite app_assoc. Qed.

Lemma emitted_upd (l : list Event) (r : ReplyPtr) (x : Reply) (s : State) :
  emitted l (upd r x s) = upd r x (emitted l s).
Proof. reflexivity. Qed.

Lemma statuses_app (l1 l2 : list Event) :
  statuses (l1 ++ l2) = (statuses l1 ++ statuses l2)%list.
Proof. apply omap_app. Qed.

Lemma IsPermission_not_IsNotExist (err : error) :
  os.IsPermission err = true -> os.IsNotExist err = false.
Proof. by destruct err as [op name []|msg]. Qed.

(** A directory is not a regular file: the directory bit is one of the
    type bits. *)
Lemma IsDir_not_IsRegular (m : os.FileMode) :
  os.IsDir m = true -> os.IsRegular m = false.
Proof.
  unfold os.IsDir, os.IsRegular. intros Hdir.
  apply negb_true_iff, Z.eqb_neq in Hdir. apply Z.eqb_neq. intros Hreg.
  apply Hdir.
  replace os.ModeDir with (Z.land os.ModeType os.ModeDir) by reflexivity.
  by rewrite Z.land_assoc, Hreg.
Qed.

Lemma bind_emit {B} (e : Event) (k : unit -> Go B) (s : State) :
  (emit e ≫= k) s = k tt (emitted [e] s).
Proof. reflexivity. Qed.

Lemma bind_assign {B} (r : ReplyPtr) (f : Reply -> Reply) (k : unit -> Go B)
    (s : State) (x : Reply) :
  replies s !! r = Some x -> (assign r f ≫= k) s = k tt (upd r (f x) s).
Proof. intros Hx. apply bind_returns. by apply assign_run. Qed.

Lemma ret_run {A} (a : A) (s : State) : (mret a : Go A) s = Returns a s.
Proof. reflexivity. Qed.

Lemma defer_emit_returns {A} (e : Event) (body : Go A) (s s' : State) (a : A) :
  body s = Returns a s' -> defer (emit e) body s = Returns a (emitted [e] s').
Proof. intros Hbody. unfold defer. by rewrite Hbody. Qed.

Lemma defer_emit_panics {A} (e : Event) (body : Go A) (s s' : State) (msg : string) :
  body s = Panics msg s' -> defer (emit e) body s = Panics msg (emitted [e] s').
Proof. intros Hbody. unfold defer. by rewrite Hbody. Qed.

Lemma bind_assoc {A B C} (m : Go A) (f : A -> Go B) (g : B -> Go C) (s : State) :
  ((m ≫= f) ≫= g) s = (m ≫= λ a, f a ≫= g) s.
Proof. unfold mbind, Go_bind. by destruct (m s). Qed.

(** Rewriting a run into the events it adds. *)
Ltac serve_steps :=
  repeat first
    [ rewrite bind_assoc
    | rewrite bind_emit
    | rewrite emit_run
    | rewrite ret_run
    | rewrite emitted_emitted ];
  cbn [app].

(** C2. When opening the resolved path fails because the path does not
    exist, [serveStatic] returns [errFileNotFound] to its caller and only
    logs: no status is written (neither 500 nor 403, nor any other), nothing
    reaches the response writer, and no reply is touched. *)
Theorem serveStatic_not_found `{Host} (ctx : Context) (s : State)
    (httpDir filePath : string) (err : error) :
  getHTTPDirAndFilePath ctx = (httpDir, filePath) ->
  http_Dir_Open httpDir filePath = inr err ->
  os.IsNotExist err = true ->
  let s' :=
    emitted [LogEvent LevelTrace ("Dir: " ++ httpDir ++ ", Filepath: " ++ filePath);
             LogEvent LevelError ("file not found: " ++ ahttp.Path (Req ctx))] s in
  serveStatic ctx s = Returns (Some errFileNotFound) s' /\
  statuses (events s') = statuses (events s) /\
  List.filter onResponse (events s') = List.filter onResponse (events s) /\
  replies s' = replies s.
Proof.
  intros Hpath Hopen Hnot s'. split; [|split; [|split]].
  - unfold serveStatic. rewrite Hpath, Hopen, Hnot. by serve_steps.
  - unfold s', emitted; cbn [events]. rewrite statuses_app. cbn. by rewrite app_nil_r.
  - unfold s', emitted; cbn [events]. rewrite List.filter_app. cbn. by rewrite app_nil_r.
  - reflexivity.
Qed.

Lemma string_app_assoc (a b c : string) : (a ++ b) ++ c = a ++ (b ++ c).
Proof.
  induction a as [|x a IH]; [reflexivity|].
  change ((String x a ++ b) ++ c) with (String x ((a ++ b) ++ c)).
  change (String x a ++ (b ++ c)) with (String x (a ++ (b ++ c))).
  by rewrite IH.
Qed.

(** The run of [serveStatic] up to the branch on the kind of file. *)
Lemma serveStatic_opened `{Host} (ctx : Context) (s : State)
    (httpDir filePath : string) (f : http.File) (fi : os.FileInfo) (x : Reply)
  :
  getHTTPDirAndFilePath ctx = (httpDir, filePath) ->
  http_Dir_Open httpDir filePath = inl f ->
  http.Stat f = inl fi ->
  os.IsDir (os.Mode fi) = true ->
  router.ListDir (route ctx) = true ->
  replies s !! reply ctx = Some x ->
  serveStatic ctx s =
    defer (emit CloseQuietly)
      (match gostring.index (ahttp.Path (Req ctx)) (gostring.len (ahttp.Path (Req ctx)) - 1) with
       | None => panic indexOutOfRange
       | Some c =>
           if negb (Ascii.eqb c "/") then
             emit (LogEvent LevelDebug ("redirecting to dir: " ++ ahttp.Path (Req ctx) ++ "/")) ;;
             emit (HttpRedirect (path.Base (ahttp.Path (Req ctx)) ++ "/") http.StatusFound) ;;
             mret None
           else
             emit PublishOnPreReplyEvent ;;
             emit DirectoryListing ;;
             emit PublishOnAfterReplyEvent ;;
             mret None
       end)
      (emitted [LogEvent LevelTrace ("Dir: " ++ httpDir ++ ", Filepath: " ++ filePath);
                WrapGzipWriter; WriteHeaders]
         (upd (reply ctx) (set_gzip (checkGzipRequired filePath) x) s)).
Proof.
  intros Hpath Hopen Hstat Hdir Hlist Hx.
  unfold serveStatic. rewrite Hpath, Hopen, Hstat, Hdir, Hlist.
  rewrite (IsDir_not_IsRegular _ Hdir). cbn [andb].
  rewrite bind_emit. unfold defer.
  erewrite bind_assign by exact Hx.
  rewrite !bind_emit, <- !emitted_upd, !emitted_emitted. reflexivity.
Qed.

(** C3. When opening the resolved path fails with a permission error,
    [serveStatic] writes status 403 -- the first thing that reaches the
    response -- and returns no error; when opening fails with any other
    error, or opening succeeds and [Stat] fails, it writes status 500 in the
    same way and returns no error. *)
Theorem serveStatic_permission_and_io_errors `{Host} (ctx : Context) (s : State)
    (httpDir filePath : string) :
  getHTTPDirAndFilePath ctx = (httpDir, filePath) ->
  let trace := LogEvent LevelTrace ("Dir: " ++ httpDir ++ ", Filepath: " ++ filePath) in
  let responds (code : Z) (l : list Event) :=
    serveStatic ctx s = Returns None (emitted l s) /\
    statuses l = [code] /\
    head (List.filter onResponse l) = Some (ResWriteHeader code) in
  (forall err,
     http_Dir_Open httpDir filePath = inr err -> os.IsPermission err = true ->
     responds 403
       [trace; LogEvent LevelWarn ("permission issue: " ++ ahttp.Path (Req ctx));
        ResWriteHeader 403; ResWrite "403 Forbidden"]) /\
  (forall err,
     http_Dir_Open httpDir filePath = inr err ->
     os.IsNotExist err = false -> os.IsPermission err = false ->
     responds 500 [trace; ResWriteHeader 500; ResWrite "500 Internal Server Error"]) /\
  (forall f err,
     http_Dir_Open httpDir filePath = inl f -> http.Stat f = inr err ->
     responds 500
       [trace; ResWriteHeader 500; ResWrite "500 Internal Server Error"; CloseQuietly]).
Proof.
  intros Hpath trace responds. unfold responds.
  split; [|split].
  - intros err Hopen Hperm. split; [|by split].
    unfold serveStatic.
    rewrite Hpath, Hopen, (IsPermission_not_IsNotExist err Hperm), Hperm.
    by serve_steps.
  - intros err Hopen Hnot Hperm. split; [|by split].
    unfold serveStatic. rewrite Hpath, Hopen, Hnot, Hperm. by serve_steps.
  - intros f err Hopen Hstat. split; [|by split].
    unfold serveStatic. rewrite Hpath, Hopen, Hstat. rewrite bind_emit.
    erewrite defer_emit_returns; [|by serve_steps].
    by rewrite emitted_emitted.
Qed.

(** C4. For a request that resolves to a directory, with listing enabled
    and a path that is not empty and does not end in a slash, [serveStatic]
    issues one redirect and no other status: it has status 302, its target
    is the last element of the path followed by a slash, which read against
    the directory of the request path is the request path followed by a
    slash; no directory listing is written. *)
Theorem serveStatic_directory_redirects_once `{Host} (ctx : Context) (s : State)
    (httpDir filePath : string) (f : http.File) (fi : os.FileInfo) (x : Reply) (c : ascii) :
  getHTTPDirAndFilePath ctx = (httpDir, filePath) ->
  http_Dir_Open httpDir filePath = inl f ->
  http.Stat f = inl fi ->
  os.IsDir (os.Mode fi) = true ->
  router.ListDir (route ctx) = true ->
  replies s !! reply ctx = Some x ->
  let p := ahttp.Path (Req ctx) in
  gostring.index p (gostring.len p - 1) = Some c ->
  c <> "/"%char ->
  let target := path.Base p ++ "/" in
  let l := [LogEvent LevelTrace ("Dir: " ++ httpDir ++ ", Filepath: " ++ filePath);
            WrapGzipWriter; WriteHeaders;
            LogEvent LevelDebug ("redirecting to dir: " ++ p ++ "/");
            HttpRedirect target 302; CloseQuietly] in
  serveStatic ctx s =
    Returns None (emitted l (upd (reply ctx) (set_gzip (checkGzipRequired filePath) x) s)) /\
  redirects l = [(target, 302)] /\
  statuses l = [302] /\
  ~ In DirectoryListing l /\
  (path.Split p).1 ++ target = p ++ "/".
Proof.
  intros Hpath Hopen Hstat Hdir Hlist Hx p Hlast Hc target l.
  split; [|split; [|split; [|split]]]; try reflexivity.
  - rewrite (serveStatic_opened ctx s httpDir filePath f fi x) by assumption.
    fold p. rewrite Hlast, (proj2 (Ascii.eqb_neq _ _) Hc). cbn [negb].
    erewrite defer_emit_returns; [|by serve_steps].
    by rewrite emitted_emitted.
  - cbn. intros Hin. repeat (destruct Hin as [Hin|Hin]; [discriminate|]). destruct Hin.
  - unfold target. rewrite <- string_app_assoc. f_equal.
    rewrite index_last in Hlast. by apply (Split_Base p c).
Qed.

(** C10. On a directory route with listing enabled [serveStatic] reads
    the byte at [len(req.Path) - 1] without a check: the read is in range
    exactly when the path is not empty, and [serveStatic] panics (index out
    of range) exactly when the path is empty; with a path that is not empty
    it returns. *)
Theorem serveStatic_trailing_slash_index `{Host} (ctx : Context) (s : State)
    (httpDir filePath : string) (f : http.File) (fi : os.FileInfo) (x : Reply) :
  getHTTPDirAndFilePath ctx = (httpDir, filePath) ->
  http_Dir_Open httpDir filePath = inl f ->
  http.Stat f = inl fi ->
  os.IsDir (os.Mode fi) = true ->
  router.ListDir (route ctx) = true ->
  replies s !! reply ctx = Some x ->
  let p := ahttp.Path (Req ctx) in
  let s0 := upd (reply ctx) (set_gzip (checkGzipRequired filePath) x) s in
  let trace := LogEvent LevelTrace ("Dir: " ++ httpDir ++ ", Filepath: " ++ filePath) in
  (gostring.index p (gostring.len p - 1) = None <-> p = "") /\
  (p = "" ->
     serveStatic ctx s =
       Panics indexOutOfRange (emitted [trace; WrapGzipWriter; WriteHeaders; CloseQuietly] s0)) /\
  (p <> "" -> exists s', serveStatic ctx s = Returns None s') /\
  ((exists msg s', serveStatic ctx s = Panics msg s') <-> p = "").
Proof.
  intros Hpath Hopen Hstat Hdir Hlist Hx p s0 trace.
  pose proof (serveStatic_opened ctx s httpDir filePath f fi x
                Hpath Hopen Hstat Hdir Hlist Hx) as Hrun.
  fold p in Hrun.
  assert (Hempty : p = "" ->
    serveStatic ctx s =
      Panics indexOutOfRange (emitted [trace; WrapGzipWriter; WriteHeaders; CloseQuietly] s0)).
  { intros Hp. rewrite Hrun, (proj2 (index_None p) Hp).
    erewrite defer_emit_panics; [|reflexivity]. by rewrite emitted_emitted. }
  assert (Hfull : p <> "" -> exists s', serveStatic ctx s = Returns None s').
  { intros Hp. rewrite Hrun.
    destruct (gostring.index p (gostring.len p - 1)) as [c|] eqn:Hlast;
      [|by apply index_None in Hlast].
    destruct (negb (Ascii.eqb c "/"));
      (eexists; erewrite defer_emit_returns; [reflexivity|by serve_steps]). }
  split; [apply index_None|]. split; [exact Hempty|]. split; [exact Hfull|].
  split.
  - intros (msg & s' & Hpanic). destruct (String.eqb_spec p "") as [Hp|Hp]; [done|].
    destruct (Hfull Hp) as [s'' Hret]. congruence.
  - intros Hp. eauto.
Qed.

Lemma serveStatic_not_found_witness :
  let ctx := demoContext "/assets/logo.png" "logo.png" in
  let err := PathError "open" "logo.png" syscall.ENOENT in
  @getHTTPDirAndFilePath demoHost ctx = ("/srv/app/static", "logo.png") /\
  @http_Dir_Open demoHost "/srv/app/static" "logo.png" = inr err /\
  os.IsNotExist err = true /\
  @serveStatic demoHost ctx demoState =
    Returns (Some errFileNotFound)
      (emitted [LogEvent LevelTrace "Dir: /srv/app/static, Filepath: logo.png";
                LogEvent LevelError "file not found: /assets/logo.png"] demoState).
Proof.
  intros ctx err.
  assert (Hpath : @getHTTPDirAndFilePath demoHost ctx = ("/srv/app/static", "logo.png"))
    by reflexivity.
  assert (Hopen : @http_Dir_Open demoHost "/srv/app/static" "logo.png" = inr err)
    by reflexivity.
  assert (Hnot : os.IsNotExist err = true) by reflexivity.
  split; [exact Hpath|]. split; [exact Hopen|]. split; [exact Hnot|].
  destruct (@serveStatic_not_found demoHost ctx demoState _ _ err Hpath Hopen Hnot)
    as [Hrun _].
  exact Hrun.
Defined.

Lemma serveStatic_permission_and_io_errors_witness :
  let ctx := demoContext "/assets/secret" "secret" in
  let err := PathError "open" "secret" syscall.EACCES in
  @getHTTPDirAndFilePath demoHost ctx = ("/srv/app/static", "secret") /\
  @http_Dir_Open demoHost "/srv/app/static" "secret" = inr err /\
  os.IsPermission err = true /\
  @serveStatic demoHost ctx demoState =
    Returns None
      (emitted [LogEvent LevelTrace "Dir: /srv/app/static, Filepath: secret";
                LogEvent LevelWarn "permission issue: /assets/secret";
                ResWriteHeader 403; ResWrite "403 Forbidden"] demoState).
Proof.
  intros ctx err.
  assert (Hpath : @getHTTPDirAndFilePath demoHost ctx = ("/srv/app/static", "secret"))
    by reflexivity.
  assert (Hopen : @http_Dir_Open demoHost "/srv/app/static" "secret" = inr err)
    by reflexivity.
  assert (Hperm : os.IsPermission err = true) by reflexivity.
  split; [exact Hpath|]. split; [exact Hopen|]. split; [exact Hperm|].
  destruct (@serveStatic_permission_and_io_errors demoHost ctx demoState _ _ Hpath)
    as [Hforbidden _].
  destruct (Hforbidden err Hopen Hperm) as [Hrun _].
  exact Hrun.
Defined.

Lemma serveStatic_directory_redirects_once_witness :
  let ctx := demoContext "/assets/css" "css" in
  let fi := {| os.Name := "css"; os.Mode := Z.lor os.ModeDir 493; os.ModTime := 0 |} in
  let f := {| http.Stat := inl fi |} in
  @getHTTPDirAndFilePath demoHost ctx = ("/srv/app/static", "css") /\
  @http_Dir_Open demoHost "/srv/app/static" "css" = inl f /\
  os.IsDir (os.Mode fi) = true /\
  gostring.index "/assets/css" (gostring.len "/assets/css" - 1) = Some "s"%char /\
  @serveStatic demoHost ctx demoState =
    Returns None
      (emitted [LogEvent LevelTrace "Dir: /srv/app/static, Filepath: css";
                WrapGzipWriter; WriteHeaders;
                LogEvent LevelDebug "redirecting to dir: /assets/css/";
                HttpRedirect "css/" 302; CloseQuietly]
         (upd 1%positive (set_gzip false newReply) demoState)).
Proof.
  intros ctx fi f.
  assert (Hpath : @getHTTPDirAndFilePath demoHost ctx = ("/srv/app/static", "css"))
    by reflexivity.
  assert (Hopen : @http_Dir_Open demoHost "/srv/app/static" "css" = inl f) by reflexivity.
  assert (Hstat : http.Stat f = inl fi) by reflexivity.
  assert (Hdir : os.IsDir (os.Mode fi) = true) by reflexivity.
  assert (Hlist : router.ListDir (route ctx) = true) by reflexivity.
  assert (Hx : replies demoState !! reply ctx = Some newReply) by reflexivity.
  assert (Hlast : gostring.index (ahttp.Path (Req ctx))
                    (gostring.len (ahttp.Path (Req ctx)) - 1) = Some "s"%char)
    by reflexivity.
  assert (Hc : "s"%char <> "/"%char) by discriminate.
  split; [exact Hpath|]. split; [exact Hopen|]. split; [exact Hdir|]. split; [exact Hlast|].
  destruct (@serveStatic_directory_redirects_once demoHost ctx demoState _ _ f fi newReply
              "s"%char Hpath Hopen Hstat Hdir Hlist Hx Hlast Hc) as [Hrun _].
  exact Hrun.
Defined.

Lemma serveStatic_trailing_slash_index_witness :
  let ctx := demoContext "" "css" in
  let fi := {| os.Name := "css"; os.Mode := Z.lor os.ModeDir 493; os.ModTime := 0 |} in
  let f := {| http.Stat := inl fi |} in
  @getHTTPDirAndFilePath demoHost ctx = ("/srv/app/static", "css") /\
  @http_Dir_Open demoHost "/srv/app/static" "css" = inl f /\
  os.IsDir (os.Mode fi) = true /\
  @serveStatic demoHost ctx demoState =
    Panics indexOutOfRange
      (emitted [LogEvent LevelTrace "Dir: /srv/app/static, Filepath: css";
                WrapGzipWriter; WriteHeaders; CloseQuietly]
         (upd 1%positive (set_gzip false newReply) demoState)).
Proof.
  intros ctx fi f.
  assert (Hpath : @getHTTPDirAndFilePath demoHost ctx = ("/srv/app/static", "css"))
    by reflexivity.
  assert (Hopen : @http_Dir_Open demoHost "/srv/app/static" "css" = inl f) by reflexivity.
  assert (Hstat : http.Stat f = inl fi) by reflexivity.
  assert (Hdir : os.IsDir (os.Mode fi) = true) by reflexivity.
  assert (Hlist : router.ListDir (route ctx) = true) by reflexivity.
  assert (Hx : replies demoState !! reply ctx = Some newReply) by reflexivity.
  split; [exact Hpath|]. split; [exact Hopen|]. split; [exact Hdir|].
  destruct (@serveStatic_trailing_slash_index demoHost ctx demoState _ _ f fi newReply
              Hpath Hopen Hstat Hdir Hlist Hx) as (_ & Hempty & _).
  exact (Hempty eq_refl).
Defined.

(** ** The view-engine store *)

Lemma errAlreadyAdded_not_errNilEngine (name : string) :
  view.errAlreadyAdded name <> view.errNilEngine.
Proof. unfold view.errAlreadyAdded, view.errNilEngine. intros [=]. Qed.

(** C9. Registering an engine under a name that is taken returns the
    duplicate-registration error, which names the engine, and leaves the
    store as it was: the engine registered before is still the one found
    under that name.  Registering the nil engine returns another error, and
    leaves the store as it was too.  Both are error values that
    [AddViewEngine] returns. *)
Theorem AddViewEngine_duplicate_and_nil (name : string) (engine old : view.Enginer)
    (engines : gmap string view.Enginer) :
  engines !! name = Some old ->
  AddViewEngine name (Some engine) engines = (Some (view.errAlreadyAdded name), engines) /\
  view.GetEngine name (AddViewEngine name (Some engine) engines).2 = (Some old, true) /\
  (forall name', AddViewEngine name' None engines = (Some view.errNilEngine, engines)) /\
  view.errAlreadyAdded name <> view.errNilEngine.
Proof.
  intros Hold. unfold AddViewEngine, view.GetEngine. rewrite Hold. cbn.
  rewrite Hold. repeat split. apply errAlreadyAdded_not_errNilEngine.
Qed.

Lemma AddViewEngine_duplicate_and_nil_witness :
  view.initialEngines !! "go" = Some view.GoViewEngine /\
  AddViewEngine "go" (Some view.GoViewEngine) view.initialEngines =
    (Some (errorsNew "view: engine name 'go' is already added, skip it"),
     view.initialEngines) /\
  AddViewEngine "custom" None view.initialEngines =
    (Some (errorsNew "view: engine value is nil"), view.initialEngines).
Proof.
  assert (Hgo : view.initialEngines !! "go" = Some view.GoViewEngine) by reflexivity.
  split; [exact Hgo|].
  destruct (AddViewEngine_duplicate_and_nil "go" view.GoViewEngine view.GoViewEngine
              view.initialEngines Hgo) as (Hdup & _ & Hnil & _).
  split; [exact Hdup|exact (Hnil "custom")].
Defined.

(** ** The canonical form of header keys, on examples *)

Example CanonicalMIMEHeaderKey_examples :
  textproto.CanonicalMIMEHeaderKey "content-type" = "Content-Type" /\
  textproto.CanonicalMIMEHeaderKey "Content-Type" = "Content-Type" /\
  textproto.CanonicalMIMEHeaderKey "x-request-ID" = "X-Request-Id" /\
  textproto.CanonicalMIMEHeaderKey "not a token" = "not a token".
Proof. by repeat split. Qed.

Example path_examples :
  path.Base "/assets/css" = "css" /\ path.Base "/assets/css/" = "css" /\
  path.Base "/" = "/" /\ path.Base "" = "." /\
  path.Split "/assets/css" = ("/assets/", "css").
Proof. by repeat split. Qed.

Example Ext_examples :
  filepath.Ext "/static/js/app.min.js" = ".js" /\ filepath.Ext "/static.d/readme" = "" /\
  filepath.Ext ".css" = ".css" /\ filepath.Ext "logo.PNG" = ".PNG".
Proof. by repeat split. Qed.

(** The header table of a reply that [NewReply] made stays a table: the
    setters never make it nil. *)
Lemma Header_keeps_table `{ess.Essentials}
    (r r' : ReplyPtr) (key value : string) (s s' : State) (x : Reply)
    (m : gmap string (list string)) :
  replies s !! r = Some x -> Hdr x = http.table m ->
  Reply.Header r key value s = Returns r' s' ->
  exists x' m', replies s' !! r = Some x' /\ Hdr x' = http.table m'.
Proof.
  intros Hx Hm. rewrite (Header_run r key value s x Hx), Hm. cbn [http.Header_Set].
  destruct (ess.IsStrEmpty value), (String.eqb key ahttp.HeaderContentType);
    intros [= <- <-]; eexists _, _; (split; [apply lookup_upd|]); cbn; try exact Hm;
    reflexivity.
Qed.

Lemma HeaderAppend_keeps_table
    (r r' : ReplyPtr) (key value : string) (s s' : State) (x : Reply)
    (m : gmap string (list string)) :
  replies s !! r = Some x -> Hdr x = http.table m ->
  Reply.HeaderAppend r key value s = Returns r' s' ->
  exists x' m', replies s' !! r = Some x' /\ Hdr x' = http.table m'.
Proof.
  intros Hx Hm. rewrite (HeaderAppend_run r key value s x Hx), Hm. cbn [http.Header_Add].
  destruct (String.eqb key ahttp.HeaderContentType);
    intros [= <- <-]; eexists _, _; (split; [apply lookup_upd|]); cbn; try exact Hm;
    reflexivity.
Qed.

(** On the zero value of [Reply], whose [Hdr] is nil, setting a header
    panics. *)
Example Header_on_nil_map :
  let zero := set_Hdr http.nilHeader (set_gzip false (set_Code 0 newReply)) in
  @Reply.Header ess.emptyOnly 1%positive "X-Request-Id" "abc" (upd 1%positive zero emptyState)
    = Panics nilMapAssignment (upd 1%positive zero emptyState).
Proof. reflexivity. Qed.

(** * Further properties of the code *)

(** ** Chains of builder calls *)

Lemma upd_same (r : ReplyPtr) (x : Reply) (s : State) :
  replies s !! r = Some x -> upd r x s = s.
Proof. intros Hx. destruct s as [rs es]. unfold upd; cbn in *. by rewrite insert_id. Qed.

Lemma isTable_inv (h : http.Header) : isTable h -> exists m, h = http.table m.
Proof. destruct h as [|m]; [done|]. by exists m. Qed.

Lemma isTable_afterHeader `{ess.Essentials} (key value : string) (x : Reply) :
  isTable (Hdr x) -> isTable (Hdr (afterHeader key value x)).
Proof.
  intros [m Hm]%isTable_inv. unfold afterHeader, isTable.
  destruct (ess.IsStrEmpty value), (String.eqb key ahttp.HeaderContentType);
    cbn; rewrite ?Hm; done.
Qed.

Lemma isTable_after `{ess.Essentials} (c : Call) (x : Reply) :
  isTable (Hdr x) -> isTable (Hdr (after c x)).
Proof.
  intros Ht. destruct c; try exact Ht; cbn [after];
    try (by apply isTable_afterHeader).
  unfold afterHeaderAppend. by destruct (String.eqb key ahttp.HeaderContentType).
Qed.

Lemma Header_after `{ess.Essentials} (r : ReplyPtr) (key value : string) (s : State) (x : Reply) :
  replies s !! r = Some x -> isTable (Hdr x) ->
  Reply.Header r key value s = Returns r (upd r (afterHeader key value x) s).
Proof.
  intros Hx [m Hm]%isTable_inv. rewrite (Header_run r key value s x Hx).
  unfold afterHeader. rewrite Hm. cbn [http.Header_Set http.entries].
  by destruct (ess.IsStrEmpty value), (String.eqb key ahttp.HeaderContentType).
Qed.

Lemma HeaderAppend_after (r : ReplyPtr) (key value : string) (s : State) (x : Reply) :
  replies s !! r = Some x -> isTable (Hdr x) ->
  Reply.HeaderAppend r key value s = Returns r (upd r (afterHeaderAppend key value x) s).
Proof.
  intros Hx [m Hm]%isTable_inv. rewrite (HeaderAppend_run r key value s x Hx).
  unfold afterHeaderAppend. rewrite Hm. cbn [http.Header_Add http.entries].
  by destruct (String.eqb key ahttp.HeaderContentType).
Qed.

Lemma Cookie_after (r : ReplyPtr) (cookie : CookieRef) (s : State) (x : Reply) :
  replies s !! r = Some x ->
  Reply.Cookie r cookie s =
    Returns r (upd r (set_cookies (Some (cookieList x ++ [cookie])%list) x) s).
Proof.
  intros Hx. unfold Reply.Cookie, cookieList. go_step.
  destruct (cookies x) as [l|] eqn:Hcookies.
  - erewrite (bind_returns (mret tt)) by reflexivity. go_run. by rewrite Hcookies.
  - by go_run.
Qed.

Lemma bind_ret {A B} (a : A) (k : A -> Go B) (s : State) :
  ((mret a : Go A) ≫= k) s = k a s.
Proof. reflexivity. Qed.

Ltac method_run :=
  repeat first
    [ go_step | rewrite bind_assoc | rewrite bind_ret | rewrite upd_upd | rewrite ret_run ].

(** The run of one call on a reply whose header table is not nil. *)
Lemma call_run `{ess.Essentials} (c : Call) (r : ReplyPtr) (s : State) (x : Reply) :
  replies s !! r = Some x -> isTable (Hdr x) ->
  call c r s = Returns r (upd r (after c x) s).
Proof.
  intros Hx Ht.
  destruct c; cbn [call after];
    try (by apply Status_run);
    try (by apply ContentType_run);
    try (by apply Header_after);
    try (by apply HeaderAppend_after);
    try (by apply Cookie_after).
  all: try (unfold Reply.JSON, Reply.JSONP, Reply.XML, Reply.Text, Reply.Binary,
              Reply.Readfrom, Reply.File, Reply.HTML, Reply.HTMLl, Reply.HTMLf,
              Reply.HTMLlf, Reply.Redirect, Reply.RedirectSts, Reply.Done,
              Reply.DisableGzip, Reply.ContentType, Reply.Status;
            by method_run).
  - unfold Reply.FileDownload. erewrite bind_returns by (by apply Header_after).
    unfold Reply.File. by method_run.
  - unfold Reply.FileInline. erewrite bind_returns by (by apply Header_after).
    unfold Reply.File. by method_run.
Qed.

Lemma body_after `{ess.Essentials} (c : Call) (x : Reply) : body (after c x) = body x.
Proof.
  destruct c; try reflexivity; cbn [after];
    unfold afterHeader, afterHeaderAppend;
    repeat match goal with |- context [if ?b then _ else _] => destruct b end;
    reflexivity.
Qed.

Lemma isTable_afterAll `{ess.Essentials} (cs : list Call) (x : Reply) :
  isTable (Hdr x) -> isTable (Hdr (afterAll cs x)).
Proof.
  revert x. induction cs as [|c cs IH]; intros x Ht; [exact Ht|].
  apply IH. by apply isTable_after.
Qed.

Lemma body_afterAll `{ess.Essentials} (cs : list Call) (x : Reply) :
  body (afterAll cs x) = body x.
Proof.
  revert x. induction cs as [|c cs IH]; intros x; [reflexivity|].
  cbn. unfold afterAll in IH. by rewrite IH, body_after.
Qed.

Lemma chain_run `{ess.Essentials} (cs : list Call) (r : ReplyPtr) (s : State) (x : Reply) :
  replies s !! r = Some x -> isTable (Hdr x) ->
  chain cs r s = Returns r (upd r (afterAll cs x) s).
Proof.
  revert s x. induction cs as [|c cs IH]; intros s x Hx Ht.
  - cbn. by rewrite upd_same.
  - cbn [chain]. erewrite bind_returns by (by apply call_run).
    rewrite (IH _ (after c x)); [|apply lookup_upd|by apply isTable_after].
    by rewrite upd_upd.
Qed.

(** X1. Any chain of builder calls on a reply whose header table is not nil
    returns the pointer it started from and does not panic; the header
    table is still not nil, the body is what it was, and no other reply and
    no event is touched. *)
Theorem chain_returns_receiver `{ess.Essentials}
    (cs : list Call) (r : ReplyPtr) (s : State) (x : Reply) :
  replies s !! r = Some x -> isTable (Hdr x) ->
  exists x',
    chain cs r s = Returns r (upd r x' s) /\
    isTable (Hdr x') /\ body x' = body x /\
    (forall r', r' <> r -> replies (upd r x' s) !! r' = replies s !! r') /\
    events (upd r x' s) = events s.
Proof.
  intros Hx Ht. exists (afterAll cs x).
  split; [by apply chain_run|]. split; [by apply isTable_afterAll|].
  split; [apply body_afterAll|]. split; [|reflexivity].
  intros r' Hne. by apply lookup_upd_ne.
Qed.

Lemma chain_returns_receiver_witness :
  let cs := [CallNotFound; CallHeader "X-Request-Id" "abc"; CallJSON (stringValue "gone");
             CallCookie 7%positive; CallDisableGzip] in
  replies demoState !! 1%positive = Some newReply /\
  isTable (Hdr newReply) /\
  exists x', @chain ess.emptyOnly cs 1%positive demoState
               = Returns 1%positive (upd 1%positive x' demoState) /\ body x' = None.
Proof.
  intros cs.
  assert (Hx : replies demoState !! 1%positive = Some newReply) by reflexivity.
  assert (Ht : isTable (Hdr newReply)) by discriminate.
  split; [exact Hx|]. split; [exact Ht|].
  destruct (@chain_returns_receiver ess.emptyOnly cs 1%positive demoState newReply Hx Ht)
    as (x' & Hrun & _ & Hbody & _).
  exists x'. split; [exact Hrun|exact Hbody].
Defined.

(** ** A reset reply and a new one *)

Lemma sameReply_after `{ess.Essentials} (c : Call) (a b : Reply) :
  sameReply a b -> sameReply (after c a) (after c b).
Proof.
  unfold sameReply, cookieList.
  intros (HCode & HCT & HHdr & HRdr & Hbody & Hcookies & Hredirect & Hpath & Hdone & Hgzip).
  destruct c; cbn [after]; unfold afterHeader, afterHeaderAppend, cookieList;
    repeat match goal with |- context [if ?b then _ else _] => destruct b end;
    cbn; rewrite ?HHdr, ?Hcookies; repeat split; assumption.
Qed.

Lemma sameReply_afterAll `{ess.Essentials} (cs : list Call) (a b : Reply) :
  sameReply a b -> sameReply (afterAll cs a) (afterAll cs b).
Proof.
  revert a b. induction cs as [|c cs IH]; intros a b Hab; [exact Hab|].
  apply IH. by apply sameReply_after.
Qed.

Lemma Reset_run (r : ReplyPtr) (s : State) (x : Reply) :
  replies s !! r = Some x ->
  Reply.Reset r s = Returns tt (upd r (set_cookies (Some []) newReply) s).
Proof. intros Hx. unfold Reply.Reset. by go_run. Qed.

(** X2. A reply that was reset and a reply that [NewReply] has just made
    cannot be told apart after the same chain of calls: the fields agree,
    the cookies as a sequence. *)
Theorem Reset_then_chain_as_NewReply `{ess.Essentials}
    (cs : list Call) (r : ReplyPtr) (s : State) (x : Reply) :
  replies s !! r = Some x ->
  let reused := afterAll cs (set_cookies (Some []) newReply) in
  let made := afterAll cs newReply in
  (Reply.Reset r ;; chain cs r) s = Returns r (upd r reused s) /\
  (r' ← NewReply; chain cs r') s =
    Returns (fresh (dom (replies s))) (upd (fresh (dom (replies s))) made s) /\
  sameReply reused made.
Proof.
  intros Hx reused made.
  pose proof (Reset_run r s x Hx) as Hreset.
  split; [|split].
  - erewrite bind_returns by exact Hreset.
    rewrite (chain_run cs r _ _ (lookup_upd _ _ _)) by discriminate.
    by rewrite upd_upd.
  - erewrite bind_returns by apply NewReply_run.
    rewrite (chain_run cs _ _ _ (lookup_upd _ _ _)) by discriminate.
    by rewrite upd_upd.
  - apply sameReply_afterAll. by repeat split.
Qed.

Lemma Reset_then_chain_as_NewReply_witness :
  let cs := [CallCookie 7%positive; CallText "hello" []; CallCreated] in
  let used := set_done true (set_Code 500 newReply) in
  let s := upd 1%positive used emptyState in
  replies s !! 1%positive = Some used /\
  sameReply (@afterAll ess.emptyOnly cs (set_cookies (Some []) newReply))
            (@afterAll ess.emptyOnly cs newReply).
Proof.
  intros cs used s.
  assert (Hx : replies s !! 1%positive = Some used) by reflexivity.
  split; [exact Hx|].
  destruct (@Reset_then_chain_as_NewReply ess.emptyOnly cs 1%positive s used Hx)
    as (_ & _ & Hsame).
  exact Hsame.
Defined.

(** ** What a chain does to the flags and the cookies *)

Lemma flags_after `{ess.Essentials} (c : Call) (x : Reply) :
  (done x = true -> done (after c x) = true) /\
  (redirect x = true -> redirect (after c x) = true) /\
  (gzip x = false -> gzip (after c x) = false).
Proof.
  destruct c; cbn [after]; unfold afterHeader, afterHeaderAppend;
    repeat match goal with |- context [if ?b then _ else _] => destruct b end;
    cbn; auto.
Qed.

Lemma cookieList_after `{ess.Essentials} (c : Call) (x : Reply) :
  cookieList (after c x) = (cookieList x ++ cookiesOf [c])%list.
Proof.
  destruct c; cbn [after cookiesOf omap]; unfold afterHeader, afterHeaderAppend;
    repeat match goal with |- context [if ?b then _ else _] => destruct b end;
    unfold cookieList; cbn; by rewrite ?app_nil_r.
Qed.

Lemma flags_after_all `{ess.Essentials} (cs : list Call) (x : Reply) :
  (done x = true -> done (afterAll cs x) = true) /\
  (redirect x = true -> redirect (afterAll cs x) = true) /\
  (gzip x = false -> gzip (afterAll cs x) = false).
Proof.
  revert x. induction cs as [|c cs IH]; intros x; [done|].
  destruct (flags_after c x) as (Hd & Hr & Hg).
  destruct (IH (after c x)) as (Hd' & Hr' & Hg'). cbn. auto.
Qed.

(** X3. No builder call takes back [Done], a redirect or [DisableGzip]:
    through any chain of calls [done] and [redirect] stay true once true and
    [gzip] stays false once false. *)
Theorem chain_flags_one_way `{ess.Essentials}
    (cs : list Call) (r : ReplyPtr) (s : State) (x : Reply) :
  replies s !! r = Some x -> isTable (Hdr x) ->
  exists x',
    chain cs r s = Returns r (upd r x' s) /\
    (done x = true -> done x' = true) /\
    (redirect x = true -> redirect x' = true) /\
    (gzip x = false -> gzip x' = false).
Proof.
  intros Hx Ht. exists (afterAll cs x). split; [by apply chain_run|].
  apply flags_after_all.
Qed.

Lemma chain_flags_one_way_witness :
  let cs := [CallOk; CallHeader "X-Request-Id" "abc"; CallHTML ∅] in
  let x := set_gzip false (set_done true newReply) in
  let s := upd 1%positive x emptyState in
  replies s !! 1%positive = Some x /\ isTable (Hdr x) /\
  exists x', @chain ess.emptyOnly cs 1%positive s = Returns 1%positive (upd 1%positive x' s) /\
             done x' = true /\ gzip x' = false.
Proof.
  intros cs x s.
  assert (Hx : replies s !! 1%positive = Some x) by reflexivity.
  assert (Ht : isTable (Hdr x)) by discriminate.
  split; [exact Hx|]. split; [exact Ht|].
  destruct (@chain_flags_one_way ess.emptyOnly cs 1%positive s x Hx Ht)
    as (x' & Hrun & Hd & _ & Hg).
  exists x'. split; [exact Hrun|]. split; [exact (Hd eq_refl)|exact (Hg eq_refl)].
Defined.

(** X4. After a chain of calls the cookies of the reply are those it had,
    followed by the cookies of the [Cookie] calls in the order of the calls;
    no other call touches them. *)
Theorem chain_cookies_in_call_order `{ess.Essentials}
    (cs : list Call) (r : ReplyPtr) (s : State) (x : Reply) :
  replies s !! r = Some x -> isTable (Hdr x) ->
  exists x',
    chain cs r s = Returns r (upd r x' s) /\
    cookieList x' = (cookieList x ++ cookiesOf cs)%list.
Proof.
  intros Hx Ht. exists (afterAll cs x). split; [by apply chain_run|].
  clear Hx Ht. revert x. induction cs as [|c cs IH]; intros x.
  - cbn. by rewrite app_nil_r.
  - cbn [afterAll fold_left]. unfold afterAll in IH. rewrite IH, cookieList_after.
    rewrite <- app_assoc. f_equal. unfold cookiesOf. cbn [omap].
    by destruct c.
Qed.

Lemma chain_cookies_in_call_order_witness :
  let cs := [CallCookie 3%positive; CallNoContent; CallCookie 5%positive] in
  replies demoState !! 1%positive = Some newReply /\ isTable (Hdr newReply) /\
  exists x', @chain ess.emptyOnly cs 1%positive demoState
               = Returns 1%positive (upd 1%positive x' demoState) /\
             cookieList x' = [3%positive; 5%positive].
Proof.
  intros cs.
  assert (Hx : replies demoState !! 1%positive = Some newReply) by reflexivity.
  assert (Ht : isTable (Hdr newReply)) by discriminate.
  split; [exact Hx|]. split; [exact Ht|].
  destruct (@chain_cookies_in_call_order ess.emptyOnly cs 1%positive demoState newReply Hx Ht)
    as (x' & Hrun & Hcookies).
  exists x'. split; [exact Hrun|exact Hcookies].
Defined.

(** ** Renderers and the content type *)

(** ** The last status and the last redirect win *)

Lemma Code_after `{ess.Essentials} (c : Call) (x : Reply) :
  Code (after c x) = default (Code x) (codeOf c).
Proof.
  destruct c; try reflexivity; cbn [after codeOf default];
    unfold afterHeader, afterHeaderAppend;
    repeat match goal with |- context [if ?b then _ else _] => destruct b end;
    reflexivity.
Qed.

Lemma path_after `{ess.Essentials} (c : Call) (x : Reply) :
  path (after c x) = default (path x) (targetOf c) /\
  (is_Some (targetOf c) -> redirect (after c x) = true).
Proof.
  destruct c; cbn [after targetOf default];
    unfold afterHeader, afterHeaderAppend;
    repeat match goal with |- context [if ?b then _ else _] => destruct b end;
    (split; [reflexivity|]); first [by intros [? [=]] | reflexivity | done].
Qed.

Lemma last_omap_cons {A B} (f : A -> option B) (c : A) (cs : list A) (d : B) :
  default d (last (omap f (c :: cs))) = default (default d (f c)) (last (omap f cs)).
Proof.
  change (omap f (c :: cs))
    with (match f c with Some y => y :: omap f cs | None => omap f cs end).
  destruct (f c) as [b|]; cbn [default]; [|done].
  destruct (omap f cs) as [|b' l]; [done|].
  rewrite last_cons_cons, last_cons. by destruct (last l).
Qed.

(** X6. After a chain of calls [Code] is the code of the last call that sets
    a status (a status method or a redirect), [path] is the target of the
    last redirect, and [redirect] is true if there was a redirect; without
    such a call the field is what it was. *)
Theorem chain_last_status_and_redirect_win `{ess.Essentials}
    (cs : list Call) (r : ReplyPtr) (s : State) (x : Reply) :
  replies s !! r = Some x -> isTable (Hdr x) ->
  exists x',
    chain cs r s = Returns r (upd r x' s) /\
    Code x' = default (Code x) (last (omap codeOf cs)) /\
    path x' = default (path x) (last (omap targetOf cs)) /\
    (omap targetOf cs <> [] -> redirect x' = true).
Proof.
  intros Hx Ht. exists (afterAll cs x). split; [by apply chain_run|].
  clear Hx Ht. revert x. induction cs as [|c cs IH]; intros x; [done|].
  destruct (IH (after c x)) as (HCode & Hpath & Hredirect).
  destruct (path_after c x) as [Hp Hr].
  cbn [afterAll fold_left]. unfold afterAll in *.
  rewrite HCode, Hpath, Code_after, Hp, !last_omap_cons. split; [done|]. split; [done|].
  intros Hsome. destruct (omap targetOf cs) as [|t l] eqn:Hts.
  - destruct (flags_after_all cs (after c x)) as (_ & Hkeep & _).
    apply Hkeep, Hr.
    change (omap targetOf (c :: cs))
      with (match targetOf c with Some y => y :: omap targetOf cs | None => omap targetOf cs end)
      in Hsome.
    rewrite Hts in Hsome. destruct (targetOf c); [by eexists|done].
  - by apply Hredirect.
Qed.

Lemma chain_last_status_and_redirect_win_witness :
  let cs := [CallRedirect "/login"; CallHeader "X-Reason" "expired"; CallTemporaryRedirect] in
  replies demoState !! 1%positive = Some newReply /\ isTable (Hdr newReply) /\
  exists x', @chain ess.emptyOnly cs 1%positive demoState
               = Returns 1%positive (upd 1%positive x' demoState) /\
             Code x' = 307 /\ path x' = "/login" /\ redirect x' = true.
Proof.
  intros cs.
  assert (Hx : replies demoState !! 1%positive = Some newReply) by reflexivity.
  assert (Ht : isTable (Hdr newReply)) by discriminate.
  split; [exact Hx|]. split; [exact Ht|].
  destruct (@chain_last_status_and_redirect_win ess.emptyOnly cs 1%positive demoState
              newReply Hx Ht) as (x' & Hrun & HCode & Hpath & Hredirect).
  exists x'. split; [exact Hrun|]. split; [exact HCode|]. split; [exact Hpath|].
  apply Hredirect. discriminate.
Defined.

(** ** The last renderer and the last content type win *)

Lemma Rdr_after `{ess.Essentials} (c : Call) (x : Reply) :
  Rdr (after c x) = from_option Some (Rdr x) (rendererOf c).
Proof.
  destruct c; try reflexivity; cbn [after rendererOf from_option];
    unfold afterHeader, afterHeaderAppend;
    repeat match goal with |- context [if ?b then _ else _] => destruct b end;
    reflexivity.
Qed.

Lemma ContType_after `{ess.Essentials} (c : Call) (x : Reply) :
  ContType (after c x) = default (ContType x) (contTypeOf c).
Proof.
  destruct c; try reflexivity; cbn [after contTypeOf];
    unfold afterHeader, afterHeaderAppend, ahttp.HeaderContentType;
    first [ by destruct (ess.IsStrEmpty _)
          | repeat match goal with |- context [if ?b then _ else _] => destruct b end;
            reflexivity ].
Qed.

Lemma last_omap_cons_from_option {A B C} (g : B -> C) (f : A -> option B)
    (c : A) (cs : list A) (d : C) :
  from_option g d (last (omap f (c :: cs))) =
    from_option g (from_option g d (f c)) (last (omap f cs)).
Proof.
  change (omap f (c :: cs))
    with (match f c with Some y => y :: omap f cs | None => omap f cs end).
  destruct (f c) as [b|]; cbn [from_option]; [|done].
  destruct (omap f cs) as [|b' l]; [done|].
  rewrite last_cons_cons, last_cons. by destruct (last l).
Qed.

(** X5. After a chain of calls [Rdr] is the renderer of the last call that
    attaches one ([JSON], [JSONP], [XML], [Text], [Binary], [Readfrom],
    [File], [FileDownload], [FileInline] and the four HTML methods), and
    [ContType] is what the last call that writes it left there:
    [ContentType], [Header] or [HeaderAppend] with the key ["Content-Type"],
    or [JSON], [JSONP], [XML], [Text] and the HTML methods, which impose
    their own content type on whatever was set before.  [Binary],
    [Readfrom] and the file methods never change [ContType].  Without such
    a call the field is what it was. *)
Theorem renderers_and_ContType `{ess.Essentials}
    (cs : list Call) (r : ReplyPtr) (s : State) (x : Reply) :
  replies s !! r = Some x -> isTable (Hdr x) ->
  exists x',
    chain cs r s = Returns r (upd r x' s) /\
    Rdr x' = from_option Some (Rdr x) (last (omap rendererOf cs)) /\
    ContType x' = default (ContType x) (last (omap contTypeOf cs)).
Proof.
  intros Hx Ht. exists (afterAll cs x). split; [by apply chain_run|].
  clear Hx Ht. revert x. induction cs as [|c cs IH]; intros x; [done|].
  destruct (IH (after c x)) as [HRdr HContType].
  cbn [afterAll fold_left]. unfold afterAll in *.
  by rewrite HRdr, HContType, Rdr_after, ContType_after, last_omap_cons,
    last_omap_cons_from_option.
Qed.

Lemma renderers_and_ContType_witness :
  let cs := [CallContentType "text/csv"; CallJSON (intValue 1); CallNotFound;
             CallFileInline "/tmp/r17.pdf" "report.pdf"] in
  replies demoState !! 1%positive = Some newReply /\ isTable (Hdr newReply) /\
  exists x', @chain ess.emptyOnly cs 1%positive demoState
               = Returns 1%positive (upd 1%positive x' demoState) /\
             Rdr x' = Some (render.Binary None "/tmp/r17.pdf") /\
             ContType x' = "application/json; charset=utf-8".
Proof.
  intros cs.
  assert (Hx : replies demoState !! 1%positive = Some newReply) by reflexivity.
  assert (Ht : isTable (Hdr newReply)) by discriminate.
  split; [exact Hx|]. split; [exact Ht|].
  destruct (@renderers_and_ContType ess.emptyOnly cs 1%positive demoState newReply Hx Ht)
    as (x' & Hrun & HRdr & HContType).
  exists x'. split; [exact Hrun|]. split; [exact HRdr|exact HContType].
Defined.

(** ** Canonical header keys *)

Lemma canonicalize_cons (upper : bool) (c : ascii) (a : string) :
  textproto.canonicalize upper (String c a) =
  String (canonicalByte upper c)
    (textproto.canonicalize (Ascii.eqb (canonicalByte upper c) "-") a).
Proof. reflexivity. Qed.

Lemma canonicalByte_idem (upper : bool) (c : ascii) :
  canonicalByte upper (canonicalByte upper c) = canonicalByte upper c.
Proof.
  destruct c as [b0 b1 b2 b3 b4 b5 b6 b7].
  destruct upper, b0, b1, b2, b3, b4, b5, b6, b7; reflexivity.
Qed.

Lemma canonicalize_idem (upper : bool) (a : string) :
  textproto.canonicalize upper (textproto.canonicalize upper a) =
  textproto.canonicalize upper a.
Proof.
  revert upper. induction a as [|c a IH]; intros upper; [reflexivity|].
  rewrite !canonicalize_cons, canonicalByte_idem. f_equal. apply IH.
Qed.

Lemma canonicalMIMEHeaderKey_idem (a : string) :
  textproto.canonicalMIMEHeaderKey (textproto.canonicalMIMEHeaderKey a) =
  textproto.canonicalMIMEHeaderKey a.
Proof.
  unfold textproto.canonicalMIMEHeaderKey.
  destruct (forallb textproto.validHeaderFieldByte (list_ascii_of_string a)) eqn:Hvalid.
  - destruct (forallb _ (list_ascii_of_string (textproto.canonicalize true a)));
      [apply canonicalize_idem|reflexivity].
  - by rewrite Hvalid.
Qed.

(** The quick check answers the key itself or its canonical form. *)
Lemma quickCheck_cases (s : string) (upper : bool) (rest : string) :
  textproto.quickCheck s upper rest = s \/
  textproto.quickCheck s upper rest = textproto.canonicalMIMEHeaderKey s.
Proof.
  revert upper. induction rest as [|c rest IH]; intros upper; cbn [textproto.quickCheck];
    [by left|].
  destruct (negb (textproto.validHeaderFieldByte c)); [by left|].
  destruct (upper && gostring.isLower c)%bool; [by right|].
  destruct (negb upper && gostring.isUpper c)%bool; [by right|].
  apply IH.
Qed.

(** Canonical keys are fixed points of the canonical form. *)
Lemma CanonicalMIMEHeaderKey_idempotent (s : string) :
  textproto.CanonicalMIMEHeaderKey (textproto.CanonicalMIMEHeaderKey s) =
  textproto.CanonicalMIMEHeaderKey s.
Proof.
  assert (Hs : textproto.CanonicalMIMEHeaderKey s = s \/
               textproto.CanonicalMIMEHeaderKey s = textproto.canonicalMIMEHeaderKey s)
    by apply quickCheck_cases.
  destruct Hs as [Hs|Hs]; rewrite Hs; [exact Hs|].
  assert (Ht : textproto.CanonicalMIMEHeaderKey (textproto.canonicalMIMEHeaderKey s)
                 = textproto.canonicalMIMEHeaderKey s \/
               textproto.CanonicalMIMEHeaderKey (textproto.canonicalMIMEHeaderKey s)
                 = textproto.canonicalMIMEHeaderKey (textproto.canonicalMIMEHeaderKey s))
    by apply quickCheck_cases.
  destruct Ht as [Ht|Ht]; [exact Ht|]. rewrite Ht. apply canonicalMIMEHeaderKey_idem.
Qed.

Lemma keysCanonical_afterHeader `{ess.Essentials} (key value : string) (x : Reply) :
  keysCanonical (Hdr x) -> keysCanonical (Hdr (afterHeader key value x)).
Proof.
  intros Hcanon. unfold afterHeader.
  destruct (ess.IsStrEmpty value), (String.eqb key ahttp.HeaderContentType);
    try exact Hcanon; cbn [Hdr set_Hdr]; intros k Hk.
  - apply Hcanon. destruct (Hdr x) as [|m]; cbn in *; [done|].
    destruct (decide (textproto.CanonicalMIMEHeaderKey key = k)) as [<-|Hne].
    + by rewrite lookup_delete_eq in Hk; destruct Hk.
    + by rewrite lookup_delete_ne in Hk.
  - cbn in Hk.
    destruct (decide (textproto.CanonicalMIMEHeaderKey key = k)) as [<-|Hne].
    + apply CanonicalMIMEHeaderKey_idempotent.
    + rewrite lookup_insert_ne in Hk by done. by apply Hcanon.
Qed.

Lemma keysCanonical_afterHeaderAppend (key value : string) (x : Reply) :
  keysCanonical (Hdr x) -> keysCanonical (Hdr (afterHeaderAppend key value x)).
Proof.
  intros Hcanon. unfold afterHeaderAppend.
  destruct (String.eqb key ahttp.HeaderContentType); [exact Hcanon|].
  cbn [Hdr set_Hdr]; intros k Hk. cbn in Hk.
  destruct (decide (textproto.CanonicalMIMEHeaderKey key = k)) as [<-|Hne].
  - apply CanonicalMIMEHeaderKey_idempotent.
  - rewrite lookup_insert_ne in Hk by done. by apply Hcanon.
Qed.

Lemma keysCanonical_after `{ess.Essentials} (c : Call) (x : Reply) :
  keysCanonical (Hdr x) -> keysCanonical (Hdr (after c x)).
Proof.
  intros Hcanon. destruct c; try exact Hcanon; cbn [after Hdr set_Rdr];
    first [by apply keysCanonical_afterHeader | by apply keysCanonical_afterHeaderAppend].
Qed.

Lemma Header_Get_canonical (h : http.Header) (k : string) :
  keysCanonical h -> is_Some (http.entries h !! k) ->
  http.Header_Get h k = hd "" (http.values h k).
Proof.
  intros Hcanon Hk. unfold http.Header_Get. rewrite (Hcanon k Hk).
  by destruct (http.values h k).
Qed.

(** X7. The keys of [Hdr] stay in canonical form through any chain of calls,
    so that [Get], which canonicalizes the key it is asked for, finds every
    entry under the key it is stored at. *)
Theorem chain_keeps_keys_canonical `{ess.Essentials}
    (cs : list Call) (r : ReplyPtr) (s : State) (x : Reply) :
  replies s !! r = Some x -> isTable (Hdr x) -> keysCanonical (Hdr x) ->
  exists x',
    chain cs r s = Returns r (upd r x' s) /\
    keysCanonical (Hdr x') /\
    (forall k, is_Some (http.entries (Hdr x') !! k) ->
       http.Header_Get (Hdr x') k = hd "" (http.values (Hdr x') k)).
Proof.
  intros Hx Ht Hcanon. exists (afterAll cs x). split; [by apply chain_run|].
  assert (Hall : keysCanonical (Hdr (afterAll cs x))).
  { clear Hx Ht. revert x Hcanon. induction cs as [|c cs IH]; intros x Hcanon; [done|].
    apply IH. by apply keysCanonical_after. }
  split; [exact Hall|]. intros k Hk. by apply Header_Get_canonical.
Qed.

Lemma keysCanonical_empty : keysCanonical http.empty.
Proof. intros k [v Hv]. cbn in Hv. by rewrite lookup_empty in Hv. Qed.

Lemma chain_keeps_keys_canonical_witness :
  let cs := [CallHeader "x-request-id" "abc"; CallHeaderAppend "CACHE-control" "no-store"] in
  replies demoState !! 1%positive = Some newReply /\ isTable (Hdr newReply) /\
  keysCanonical (Hdr newReply) /\
  exists x', @chain ess.emptyOnly cs 1%positive demoState
               = Returns 1%positive (upd 1%positive x' demoState) /\
             keysCanonical (Hdr x').
Proof.
  intros cs.
  assert (Hx : replies demoState !! 1%positive = Some newReply) by reflexivity.
  assert (Ht : isTable (Hdr newReply)) by discriminate.
  pose proof keysCanonical_empty as Hcanon.
  split; [exact Hx|]. split; [exact Ht|]. split; [exact Hcanon|].
  destruct (@chain_keeps_keys_canonical ess.emptyOnly cs 1%positive demoState newReply
              Hx Ht Hcanon) as (x' & Hrun & Hkeys & _).
  exists x'. split; [exact Hrun|exact Hkeys].
Defined.

(** ** Spellings of a key, appended values, content disposition *)



(** X9. [HeaderAppend] with a key other than ["Content-Type"] adds the value
    after those the key already has, also when the value is empty; [Get]
    still answers the first value, other keys and the content type are
    untouched. *)
Theorem HeaderAppend_accumulates (r : ReplyPtr) (key value : string) (s : State) (x : Reply) :
  replies s !! r = Some x -> isTable (Hdr x) -> key <> "Content-Type" ->
  let k := textproto.CanonicalMIMEHeaderKey key in
  exists x',
    Reply.HeaderAppend r key value s = Returns r (upd r x' s) /\
    http.values (Hdr x') k = (http.values (Hdr x) k ++ [value])%list /\
    (forall k', k' <> k -> http.entries (Hdr x') !! k' = http.entries (Hdr x) !! k') /\
    http.Header_Get (Hdr x') key = hd value (http.values (Hdr x) k) /\
    ContType x' = ContType x.
Proof.
  intros Hx Ht Hne k.
  assert (Hk : String.eqb key ahttp.HeaderContentType = false) by (by apply String.eqb_neq).
  exists (afterHeaderAppend key value x). split; [by apply HeaderAppend_after|].
  unfold afterHeaderAppend. rewrite Hk. cbn [Hdr set_Hdr ContType]. fold k.
  assert (Hvalues : http.values
            (http.table (<[k := (http.values (Hdr x) k ++ [value])%list]> (http.entries (Hdr x)))) k
            = (http.values (Hdr x) k ++ [value])%list).
  { unfold http.values at 1. cbn. by rewrite lookup_insert_eq. }
  split; [exact Hvalues|]. split; [|split; [|reflexivity]].
  - intros k' Hk'. cbn. by rewrite lookup_insert_ne.
  - unfold http.Header_Get. fold k. rewrite Hvalues.
    by destruct (http.values (Hdr x) k).
Qed.

Lemma HeaderAppend_accumulates_witness :
  let x := set_Hdr (http.table {[ "Vary" := ["Accept"] ]}) newReply in
  let s := upd 1%positive x emptyState in
  replies s !! 1%positive = Some x /\ isTable (Hdr x) /\ "vary" <> "Content-Type" /\
  exists x', Reply.HeaderAppend 1%positive "vary" "" s = Returns 1%positive (upd 1%positive x' s) /\
             http.values (Hdr x') "Vary" = ["Accept"; ""].
Proof.
  intros x s.
  assert (Hx : replies s !! 1%positive = Some x) by reflexivity.
  assert (Ht : isTable (Hdr x)) by discriminate.
  assert (Hk : "vary" <> "Content-Type") by discriminate.
  split; [exact Hx|]. split; [exact Ht|]. split; [exact Hk|].
  destruct (HeaderAppend_accumulates 1%positive "vary" "" s x Hx Ht Hk)
    as (x' & Hrun & Hvalues & _).
  exists x'. split; [exact Hrun|exact Hvalues].
Defined.

(** X10. [FileDownload] and [FileInline] leave exactly one
    ["Content-Disposition"] value, ["attachment; filename="] respectively
    ["inline; filename="] followed by the target name, attach the renderer
    of the file, and leave the other headers, the content type and the
    status as they were. *)
Theorem FileDownload_and_FileInline `{ess.Essentials}
    (r : ReplyPtr) (file targetName : string) (s : State) (x : Reply) :
  replies s !! r = Some x -> isTable (Hdr x) ->
  ess.IsStrEmpty ("attachment; filename=" ++ targetName) = false ->
  ess.IsStrEmpty ("inline; filename=" ++ targetName) = false ->
  let sends (disposition : string) (m : Go ReplyPtr) :=
    exists x',
      m s = Returns r (upd r x' s) /\
      http.values (Hdr x') "Content-Disposition" = [disposition ++ targetName] /\
      (forall k, k <> "Content-Disposition" ->
         http.entries (Hdr x') !! k = http.entries (Hdr x) !! k) /\
      Rdr x' = Some (render.Binary None file) /\
      ContType x' = ContType x /\ Code x' = Code x in
  sends "attachment; filename=" (Reply.FileDownload r file targetName) /\
  sends "inline; filename=" (Reply.FileInline r file targetName).
Proof.
  intros Hx Ht Hattachment Hinline sends. unfold sends.
  split.
  - exists (after (CallFileDownload file targetName) x).
    split; [exact (call_run (CallFileDownload file targetName) r s x Hx Ht)|].
    cbn [after]. unfold afterHeader. rewrite Hattachment. cbn.
    repeat split. unfold http.values; cbn.
    + by rewrite lookup_insert_eq.
    + intros k Hk. by rewrite lookup_insert_ne.
  - exists (after (CallFileInline file targetName) x).
    split; [exact (call_run (CallFileInline file targetName) r s x Hx Ht)|].
    cbn [after]. unfold afterHeader. rewrite Hinline. cbn.
    repeat split. unfold http.values; cbn.
    + by rewrite lookup_insert_eq.
    + intros k Hk. by rewrite lookup_insert_ne.
Qed.

Lemma FileDownload_and_FileInline_witness :
  replies demoState !! 1%positive = Some newReply /\ isTable (Hdr newReply) /\
  @ess.IsStrEmpty ess.emptyOnly ("attachment; filename=" ++ "report.pdf") = false /\
  @ess.IsStrEmpty ess.emptyOnly ("inline; filename=" ++ "report.pdf") = false /\
  exists x',
    @Reply.FileDownload ess.emptyOnly 1%positive "/tmp/r17.pdf" "report.pdf" demoState
      = Returns 1%positive (upd 1%positive x' demoState) /\
    http.values (Hdr x') "Content-Disposition" = ["attachment; filename=report.pdf"] /\
    Rdr x' = Some (render.Binary None "/tmp/r17.pdf").
Proof.
  assert (Hx : replies demoState !! 1%positive = Some newReply) by reflexivity.
  assert (Ht : isTable (Hdr newReply)) by discriminate.
  assert (Ha : @ess.IsStrEmpty ess.emptyOnly ("attachment; filename=" ++ "report.pdf") = false)
    by reflexivity.
  assert (Hi : @ess.IsStrEmpty ess.emptyOnly ("inline; filename=" ++ "report.pdf") = false)
    by reflexivity.
  repeat (split; [assumption|]).
  destruct (@FileDownload_and_FileInline ess.emptyOnly 1%positive "/tmp/r17.pdf" "report.pdf"
              demoState newReply Hx Ht Ha Hi) as [(x' & Hrun & Hvalues & _ & HRdr & _) _].
  exists x'. split; [exact Hrun|]. split; [exact Hvalues|exact HRdr].
Defined.

(** ** [IsContentTypeSet] and [Body] *)



(** ** Replies are independent *)

(** X12. [NewReply] returns a pointer that was not allocated, two calls
    return different pointers, and a chain of calls on one reply leaves the
    other as [NewReply] made it and every older reply as it was. *)
Theorem NewReply_is_independent `{ess.Essentials} (cs : list Call) (s : State) :
  let r1 := fresh (dom (replies s)) in
  let r2 := fresh (dom (replies (upd r1 newReply s))) in
  replies s !! r1 = None /\ r1 <> r2 /\
  exists s',
    (a ← NewReply; b ← NewReply; chain cs a ;; mret (a, b)) s = Returns (r1, r2) s' /\
    replies s' !! r1 = Some (afterAll cs newReply) /\
    replies s' !! r2 = Some newReply /\
    (forall r, r <> r1 -> r <> r2 -> replies s' !! r = replies s !! r) /\
    events s' = events s.
Proof.
  intros r1 r2.
  assert (Hfresh1 : replies s !! r1 = None) by apply NewReply_is_fresh.
  assert (Hfresh2 : replies (upd r1 newReply s) !! r2 = None) by apply NewReply_is_fresh.
  assert (Hne : r1 <> r2).
  { intros Heq. rewrite <- Heq in Hfresh2. by rewrite lookup_upd in Hfresh2. }
  split; [exact Hfresh1|]. split; [exact Hne|].
  assert (Hr1 : replies (upd r2 newReply (upd r1 newReply s)) !! r1 = Some newReply).
  { rewrite lookup_upd_ne by done. apply lookup_upd. }
  eexists. split.
  { erewrite bind_returns by apply NewReply_run. fold r1.
    erewrite bind_returns by apply NewReply_run. fold r2.
    erewrite bind_returns by (apply chain_run; [exact Hr1|discriminate]).
    reflexivity. }
  split; [apply lookup_upd|]. split; [|split; [|reflexivity]].
  - rewrite lookup_upd_ne by done. apply lookup_upd.
  - intros r Hne1 Hne2. by rewrite !lookup_upd_ne by done.
Qed.

(** ** [serveStatic], case by case *)

(** Every run of [serveStatic], by what opening the path, [Stat], the kind
    of file, the route and the path of the request are. *)
Lemma serveStatic_cases `{Host} (ctx : Context) (s : State) (httpDir filePath : string) :
  getHTTPDirAndFilePath ctx = (httpDir, filePath) ->
  let p := ahttp.Path (Req ctx) in
  let trace := LogEvent LevelTrace ("Dir: " ++ httpDir ++ ", Filepath: " ++ filePath) in
  serveStatic ctx s =
    match http_Dir_Open httpDir filePath with
    | inr err =>
        if os.IsNotExist err then
          Returns (Some errFileNotFound)
            (emitted [trace; LogEvent LevelError ("file not found: " ++ p)] s)
        else if os.IsPermission err then
          Returns None
            (emitted [trace; LogEvent LevelWarn ("permission issue: " ++ p);
                      ResWriteHeader 403; ResWrite "403 Forbidden"] s)
        else
          Returns None
            (emitted [trace; ResWriteHeader 500; ResWrite "500 Internal Server Error"] s)
    | inl f =>
        match http.Stat f with
        | inr _ =>
            Returns None
              (emitted [trace; ResWriteHeader 500; ResWrite "500 Internal Server Error";
                        CloseQuietly] s)
        | inl fi =>
            match replies s !! reply ctx with
            | None => Panics nilDereference (emitted [trace; CloseQuietly] s)
            | Some x =>
                let s0 := upd (reply ctx) (set_gzip (checkGzipRequired filePath) x) s in
                if os.IsRegular (os.Mode fi) then
                  Returns None
                    (emitted [trace; WrapGzipWriter; WriteHeaders; PublishOnPreReplyEvent;
                              HttpServeContent (path.Base filePath) (os.ModTime fi);
                              PublishOnAfterReplyEvent; CloseQuietly] s0)
                else if (os.IsDir (os.Mode fi) && router.ListDir (route ctx))%bool then
                  match gostring.index p (gostring.len p - 1) with
                  | None =>
                      Panics indexOutOfRange
                        (emitted [trace; WrapGzipWriter; WriteHeaders; CloseQuietly] s0)
                  | Some c =>
                      if negb (Ascii.eqb c "/") then
                        Returns None
                          (emitted [trace; WrapGzipWriter; WriteHeaders;
                                    LogEvent LevelDebug ("redirecting to dir: " ++ p ++ "/");
                                    HttpRedirect (path.Base p ++ "/") 302; CloseQuietly] s0)
                      else
                        Returns None
                          (emitted [trace; WrapGzipWriter; WriteHeaders;
                                    PublishOnPreReplyEvent; DirectoryListing;
                                    PublishOnAfterReplyEvent; CloseQuietly] s0)
                  end
                else
                  Returns None
                    (emitted [trace; WrapGzipWriter; WriteHeaders;
                              LogEvent LevelWarn ("directory listing not allowed: " ++ p);
                              ResWriteHeader 403; ResWrite "403 Directory listing not allowed";
                              CloseQuietly] s0)
            end
        end
    end.
Proof.
  intros Hpath p trace. unfold serveStatic. rewrite Hpath. fold p.
  destruct (http_Dir_Open httpDir filePath) as [f|err].
  - rewrite bind_emit.
    destruct (http.Stat f) as [fi|err].
    + destruct (replies s !! reply ctx) as [x|] eqn:Hx.
      * destruct (os.IsRegular (os.Mode fi)).
        { erewrite defer_emit_returns;
            [|erewrite bind_assign by exact Hx; serve_steps; reflexivity].
          by rewrite <- !emitted_upd, !emitted_emitted. }
        destruct (os.IsDir (os.Mode fi) && router.ListDir (route ctx))%bool.
        { destruct (gostring.index p (gostring.len p - 1)) as [c|].
          - destruct (negb (Ascii.eqb c "/")).
            + erewrite defer_emit_returns;
                [|erewrite bind_assign by exact Hx; serve_steps; reflexivity].
              by rewrite <- !emitted_upd, !emitted_emitted.
            + erewrite defer_emit_returns;
                [|erewrite bind_assign by exact Hx; serve_steps; reflexivity].
              by rewrite <- !emitted_upd, !emitted_emitted.
          - erewrite defer_emit_panics;
              [|erewrite bind_assign by exact Hx; serve_steps; reflexivity].
            by rewrite <- !emitted_upd, !emitted_emitted. }
        erewrite defer_emit_returns;
          [|erewrite bind_assign by exact Hx; serve_steps; reflexivity].
        by rewrite <- !emitted_upd, !emitted_emitted.
      * erewrite defer_emit_panics;
          [|erewrite bind_panics by (apply assign_nil; exact Hx); reflexivity].
        by rewrite emitted_emitted.
    + erewrite defer_emit_returns; [|serve_steps; reflexivity].
      by rewrite emitted_emitted.
  - destruct (os.IsNotExist err); [by serve_steps|].
    destruct (os.IsPermission err); by serve_steps.
Qed.

Ltac not_in_list :=
  let Hin := fresh "Hin" in
  cbn; intros Hin; repeat (destruct Hin as [Hin|Hin]; [discriminate|]); destruct Hin.

(** X13. When opening the path succeeds, the file is closed exactly once
    and closing is the last thing [serveStatic] does, whether it returns or
    panics; when opening fails nothing is closed. *)
Theorem serveStatic_closes_what_it_opened `{Host} (ctx : Context) (s : State)
    (httpDir filePath : string) :
  getHTTPDirAndFilePath ctx = (httpDir, filePath) ->
  let final := finalState (serveStatic ctx s) in
  match http_Dir_Open httpDir filePath with
  | inl _ =>
      exists l, events final = (events s ++ l ++ [CloseQuietly])%list /\ ~ In CloseQuietly l
  | inr _ =>
      exists l, events final = (events s ++ l)%list /\ ~ In CloseQuietly l
  end.
Proof.
  intros Hpath final. unfold final. rewrite (serveStatic_cases ctx s _ _ Hpath).
  destruct (http_Dir_Open httpDir filePath) as [f|err].
  - destruct (http.Stat f) as [fi|?]; [destruct (replies s !! reply ctx) as [x|]|];
      repeat match goal with
             | |- context [if ?b then _ else _] => destruct b
             | |- context [match gostring.index ?p ?i with _ => _ end] =>
                 destruct (gostring.index p i)
             end;
      cbn [finalState];
      lazymatch goal with
      | |- exists l, events (emitted ?L _) = _ /\ _ => exists (removelast L)
      end;
      (split; [reflexivity|not_in_list]).
  - destruct (os.IsNotExist err); [|destruct (os.IsPermission err)]; cbn [finalState];
      lazymatch goal with
      | |- exists l, events (emitted ?L _) = _ /\ _ => exists L
      end;
      (split; [reflexivity|not_in_list]).
Qed.

Lemma serveStatic_closes_what_it_opened_witness :
  let ctx := demoContext "" "css" in
  @getHTTPDirAndFilePath demoHost ctx = ("/srv/app/static", "css") /\
  exists l,
    events (finalState (@serveStatic demoHost ctx demoState)) =
      (events demoState ++ l ++ [CloseQuietly])%list /\ ~ In CloseQuietly l.
Proof.
  intros ctx.
  assert (Hpath : @getHTTPDirAndFilePath demoHost ctx = ("/srv/app/static", "css"))
    by reflexivity.
  split; [exact Hpath|].
  exact (@serveStatic_closes_what_it_opened demoHost ctx demoState _ _ Hpath).
Defined.

(** X14. [serveStatic] returns an error exactly when opening the path fails
    with an error that [os.IsNotExist] accepts, and [errFileNotFound] is the
    only error it returns. *)
Theorem serveStatic_error_iff_not_exist `{Host} (ctx : Context) (s : State)
    (httpDir filePath : string) :
  getHTTPDirAndFilePath ctx = (httpDir, filePath) ->
  (forall e s', serveStatic ctx s = Returns (Some e) s' -> e = errFileNotFound) /\
  ((exists e s', serveStatic ctx s = Returns (Some e) s') <->
   (exists err, http_Dir_Open httpDir filePath = inr err /\ os.IsNotExist err = true)).
Proof.
  intros Hpath. rewrite (serveStatic_cases ctx s _ _ Hpath).
  destruct (http_Dir_Open httpDir filePath) as [f|err].
  - split; [intros e s' Hrun|split; [intros (e & s' & Hrun)|]];
      [| |intros (err & Herr & _); discriminate];
      exfalso; cbv zeta in Hrun;
      repeat match type of Hrun with
             | context [match ?b with _ => _ end] => destruct b
             end; discriminate.
  - destruct (os.IsNotExist err) eqn:Hnot.
    + split; [by intros e s' [= <- _]|]. split; [by eauto|by eauto].
    + split; [destruct (os.IsPermission err); discriminate|].
      split; [intros (e & s' & Hrun); destruct (os.IsPermission err); discriminate|].
      intros (err' & [= <-] & Hnot'). congruence.
Qed.

Lemma serveStatic_error_iff_not_exist_witness :
  let ctx := demoContext "/assets/app.js" "app.js" in
  @getHTTPDirAndFilePath demoHost ctx = ("/srv/app/static", "app.js") /\
  ~ (exists e s', @serveStatic demoHost ctx demoState = Returns (Some e) s').
Proof.
  intros ctx.
  assert (Hpath : @getHTTPDirAndFilePath demoHost ctx = ("/srv/app/static", "app.js"))
    by reflexivity.
  split; [exact Hpath|].
  destruct (@serveStatic_error_iff_not_exist demoHost ctx demoState _ _ Hpath) as [_ Hiff].
  intros Herr. apply Hiff in Herr as (err & Hopen & _). vm_compute in Hopen. discriminate Hopen.
Defined.

(** X15. [serveStatic] panics exactly when the file was opened and [Stat]
    succeeded and either the context has no reply, or the file is a
    directory, listing is enabled and the path of the request is empty. *)
Theorem serveStatic_panics_iff `{Host} (ctx : Context) (s : State)
    (httpDir filePath : string) :
  getHTTPDirAndFilePath ctx = (httpDir, filePath) ->
  (exists msg s', serveStatic ctx s = Panics msg s') <->
  (exists f fi,
     http_Dir_Open httpDir filePath = inl f /\ http.Stat f = inl fi /\
     (replies s !! reply ctx = None \/
      (os.IsDir (os.Mode fi) = true /\ router.ListDir (route ctx) = true /\
       ahttp.Path (Req ctx) = ""))).
Proof.
  intros Hpath. rewrite (serveStatic_cases ctx s _ _ Hpath).
  destruct (http_Dir_Open httpDir filePath) as [f|err]; last first.
  { split.
    - intros (msg & s' & Hrun). exfalso.
      destruct (os.IsNotExist err), (os.IsPermission err); discriminate.
    - intros (f & fi & Hopen & _). discriminate. }
  destruct (http.Stat f) as [fi|err] eqn:Hstat; last first.
  { split; [intros (msg & s' & Hrun); discriminate|].
    intros (f' & fi' & [= <-] & Hstat' & _). congruence. }
  destruct (replies s !! reply ctx) as [x|] eqn:Hx; last first.
  { split; [|by eauto]. intros _. exists f, fi. split; [done|]. split; [done|]. by left. }
  cbv zeta.
  destruct (os.IsRegular (os.Mode fi)) eqn:Hreg.
  { split; [intros (msg & s' & Hrun); discriminate|].
    intros (f' & fi' & [= <-] & Hstat' & [?|(Hdir & _)]); [discriminate|].
    assert (fi' = fi) as -> by congruence.
    apply IsDir_not_IsRegular in Hdir. congruence. }
  destruct (os.IsDir (os.Mode fi)) eqn:Hdir, (router.ListDir (route ctx)) eqn:Hlist;
    cbn [andb];
    try (split; [intros (msg & s' & Hrun); discriminate|];
         intros (f' & fi' & [= <-] & Hstat' & [?|(? & ? & _)]); [discriminate|];
         assert (fi' = fi) as -> by congruence; congruence).
  destruct (gostring.index (ahttp.Path (Req ctx)) (gostring.len (ahttp.Path (Req ctx)) - 1))
    as [c|] eqn:Hlast.
  - split.
    + intros (msg & s' & Hrun). destruct (negb (Ascii.eqb c "/")); discriminate.
    + intros (f' & fi' & _ & _ & [?|(_ & _ & Hp)]); [discriminate|].
      apply index_None in Hp. congruence.
  - split; [|by eauto]. intros _. exists f, fi. split; [done|]. split; [done|].
    right. split; [done|]. split; [done|]. by apply index_None.
Qed.

Lemma serveStatic_panics_iff_witness :
  let ctx := demoContext "/assets/css" "css" in
  @getHTTPDirAndFilePath demoHost ctx = ("/srv/app/static", "css") /\
  exists msg s', @serveStatic demoHost ctx emptyState = Panics msg s'.
Proof.
  intros ctx.
  assert (Hpath : @getHTTPDirAndFilePath demoHost ctx = ("/srv/app/static", "css"))
    by reflexivity.
  split; [exact Hpath|].
  apply (@serveStatic_panics_iff demoHost ctx emptyState _ _ Hpath).
  eexists _, _. split; [reflexivity|]. split; [reflexivity|]. left. reflexivity.
Defined.

(** X16. Whatever happens, [serveStatic] only adds events, and the statuses
    it writes itself are none, or one 302, or one 403, or one 500. *)
Theorem serveStatic_status_written `{Host} (ctx : Context) (s : State)
    (httpDir filePath : string) :
  getHTTPDirAndFilePath ctx = (httpDir, filePath) ->
  exists l,
    events (finalState (serveStatic ctx s)) = (events s ++ l)%list /\
    (statuses l = [] \/ statuses l = [302] \/ statuses l = [403] \/ statuses l = [500]).
Proof.
  intros Hpath. rewrite (serveStatic_cases ctx s _ _ Hpath).
  repeat match goal with
         | |- context [match ?b with _ => _ end] => destruct b
         end;
    cbv zeta; cbn [finalState];
    lazymatch goal with
    | |- exists l, events (emitted ?L _) = _ /\ _ => exists L
    end;
    (split; [reflexivity|cbn; tauto]).
Qed.

Lemma serveStatic_status_written_witness :
  let ctx := demoContext "/assets/full" "full" in
  @getHTTPDirAndFilePath demoHost ctx = ("/srv/app/static", "full") /\
  exists l,
    events (finalState (@serveStatic demoHost ctx demoState)) = (events demoState ++ l)%list /\
    (statuses l = [] \/ statuses l = [302] \/ statuses l = [403] \/ statuses l = [500]).
Proof.
  intros ctx.
  assert (Hpath : @getHTTPDirAndFilePath demoHost ctx = ("/srv/app/static", "full"))
    by reflexivity.
  split; [exact Hpath|].
  exact (@serveStatic_status_written demoHost ctx demoState _ _ Hpath).
Defined.

(** X17. In the store [serveStatic] changes one field of one reply: once
    the file is opened and [Stat] has succeeded, the [gzip] flag of the
    reply of the context is [checkGzipRequired(filePath)], whatever it was
    -- a [DisableGzip] made before is overridden -- and the other fields of
    that reply are what they were; in every other case the store is what it
    was.  No other reply is touched. *)
Theorem serveStatic_gzip_flag `{Host} (ctx : Context) (s : State)
    (httpDir filePath : string) :
  getHTTPDirAndFilePath ctx = (httpDir, filePath) ->
  let final := replies (finalState (serveStatic ctx s)) in
  (forall r, r <> reply ctx -> final !! r = replies s !! r) /\
  match http_Dir_Open httpDir filePath with
  | inl f =>
      match http.Stat f, replies s !! reply ctx with
      | inl _, Some x =>
          final !! reply ctx =
            Some {| Code := Code x; ContType := ContType x; Hdr := Hdr x; Rdr := Rdr x;
                    body := body x; cookies := cookies x; redirect := redirect x;
                    path := path x; done := done x;
                    gzip := checkGzipRequired filePath |}
      | _, _ => final = replies s
      end
  | inr _ => final = replies s
  end.
Proof.
  intros Hpath final. unfold final. rewrite (serveStatic_cases ctx s _ _ Hpath). split.
  - intros r Hr.
    repeat match goal with
           | |- context [match ?b with _ => _ end] => destruct b
           end; cbn [finalState emitted replies upd];
      first [reflexivity | by apply lookup_insert_ne].
  - repeat match goal with
           | |- context [match ?b with _ => _ end] => destruct b
           end; cbn [finalState emitted replies upd];
      first [reflexivity | by apply lookup_insert_eq].
Qed.

Lemma serveStatic_gzip_flag_witness :
  let ctx := demoContext "/assets/app.js" "app.js" in
  let s := upd 1%positive (set_gzip false newReply) emptyState in
  @getHTTPDirAndFilePath demoHost ctx = ("/srv/app/static", "app.js") /\
  gzip (set_gzip false newReply) = false /\
  replies (finalState (@serveStatic demoHost ctx s)) !! 1%positive = Some newReply /\
  gzip newReply = true.
Proof.
  intros ctx s.
  assert (Hpath : @getHTTPDirAndFilePath demoHost ctx = ("/srv/app/static", "app.js"))
    by reflexivity.
  split; [exact Hpath|]. split; [reflexivity|].
  destruct (@serveStatic_gzip_flag demoHost ctx s _ _ Hpath) as [_ Hflag].
  split; [exact Hflag|reflexivity].
Defined.

(** X18. For a regular file [serveStatic] hands the file to
    [http.ServeContent] under the last element of the file path, between
    the pre-reply and the after-reply event, calls [WriteHeader] nowhere itself,
    then closes the file and returns no error. *)
Theorem serveStatic_regular_file `{Host} (ctx : Context) (s : State)
    (httpDir filePath : string) (f : http.File) (fi : os.FileInfo) (x : Reply) :
  getHTTPDirAndFilePath ctx = (httpDir, filePath) ->
  http_Dir_Open httpDir filePath = inl f ->
  http.Stat f = inl fi ->
  os.IsRegular (os.Mode fi) = true ->
  replies s !! reply ctx = Some x ->
  let l := [LogEvent LevelTrace ("Dir: " ++ httpDir ++ ", Filepath: " ++ filePath);
            WrapGzipWriter; WriteHeaders; PublishOnPreReplyEvent;
            HttpServeContent (path.Base filePath) (os.ModTime fi);
            PublishOnAfterReplyEvent; CloseQuietly] in
  serveStatic ctx s =
    Returns None (emitted l (upd (reply ctx) (set_gzip (checkGzipRequired filePath) x) s)) /\
  statuses l = [] /\ redirects l = [] /\ ~ In DirectoryListing l.
Proof.
  intros Hpath Hopen Hstat Hreg Hx l.
  rewrite (serveStatic_cases ctx s _ _ Hpath), Hopen, Hstat, Hx, Hreg.
  repeat split. not_in_list.
Qed.

Lemma serveStatic_regular_file_witness :
  let ctx := demoContext "/assets/app.js" "app.js" in
  let fi := {| os.Name := "app.js"; os.Mode := 420; os.ModTime := 0 |} in
  let f := {| http.Stat := inl fi |} in
  @getHTTPDirAndFilePath demoHost ctx = ("/srv/app/static", "app.js") /\
  @http_Dir_Open demoHost "/srv/app/static" "app.js" = inl f /\
  os.IsRegular (os.Mode fi) = true /\
  @serveStatic demoHost ctx demoState =
    Returns None
      (emitted [LogEvent LevelTrace "Dir: /srv/app/static, Filepath: app.js";
                WrapGzipWriter; WriteHeaders; PublishOnPreReplyEvent;
                HttpServeContent "app.js" 0; PublishOnAfterReplyEvent; CloseQuietly]
         (upd 1%positive (set_gzip true newReply) demoState)).
Proof.
  intros ctx fi f.
  assert (Hpath : @getHTTPDirAndFilePath demoHost ctx = ("/srv/app/static", "app.js"))
    by reflexivity.
  assert (Hopen : @http_Dir_Open demoHost "/srv/app/static" "app.js" = inl f) by reflexivity.
  assert (Hstat : http.Stat f = inl fi) by reflexivity.
  assert (Hreg : os.IsRegular (os.Mode fi) = true) by reflexivity.
  assert (Hx : replies demoState !! reply ctx = Some newReply) by reflexivity.
  split; [exact Hpath|]. split; [exact Hopen|]. split; [exact Hreg|].
  destruct (@serveStatic_regular_file demoHost ctx demoState _ _ f fi newReply
              Hpath Hopen Hstat Hreg Hx) as [Hrun _].
  exact Hrun.
Defined.

(** X19. For a file that is not regular, and is not a directory or is on a
    route without listing, [serveStatic] answers 403 "Directory listing not
    allowed", lists and redirects nothing and returns no error; the path of
    the request is not looked at. *)
Theorem serveStatic_listing_not_allowed `{Host} (ctx : Context) (s : State)
    (httpDir filePath : string) (f : http.File) (fi : os.FileInfo) (x : Reply) :
  getHTTPDirAndFilePath ctx = (httpDir, filePath) ->
  http_Dir_Open httpDir filePath = inl f ->
  http.Stat f = inl fi ->
  os.IsRegular (os.Mode fi) = false ->
  os.IsDir (os.Mode fi) = false \/ router.ListDir (route ctx) = false ->
  replies s !! reply ctx = Some x ->
  let l := [LogEvent LevelTrace ("Dir: " ++ httpDir ++ ", Filepath: " ++ filePath);
            WrapGzipWriter; WriteHeaders;
            LogEvent LevelWarn ("directory listing not allowed: " ++ ahttp.Path (Req ctx));
            ResWriteHeader 403; ResWrite "403 Directory listing not allowed";
            CloseQuietly] in
  serveStatic ctx s =
    Returns None (emitted l (upd (reply ctx) (set_gzip (checkGzipRequired filePath) x) s)) /\
  statuses l = [403] /\ redirects l = [] /\ ~ In DirectoryListing l.
Proof.
  intros Hpath Hopen Hstat Hreg Hno Hx l.
  rewrite (serveStatic_cases ctx s _ _ Hpath), Hopen, Hstat, Hx, Hreg.
  assert (Hcond : (os.IsDir (os.Mode fi) && router.ListDir (route ctx))%bool = false).
  { destruct Hno as [-> | ->]; [reflexivity|apply andb_false_r]. }
  rewrite Hcond. repeat split. not_in_list.
Qed.

Lemma serveStatic_listing_not_allowed_witness :
  let ctx :=
    {| Req := {| ahttp.Path := ""; ahttp.Params := {[ "filepath" := "css" ]} |};
       route := {| router.IsFile := false; router.File := ""; router.Dir := "static";
                   router.ListDir := false |};
       reply := 1%positive |} in
  let fi := {| os.Name := "css"; os.Mode := Z.lor os.ModeDir 493; os.ModTime := 0 |} in
  let f := {| http.Stat := inl fi |} in
  @getHTTPDirAndFilePath demoHost ctx = ("/srv/app/static", "css") /\
  @http_Dir_Open demoHost "/srv/app/static" "css" = inl f /\
  os.IsRegular (os.Mode fi) = false /\
  router.ListDir (route ctx) = false /\
  @serveStatic demoHost ctx demoState =
    Returns None
      (emitted [LogEvent LevelTrace "Dir: /srv/app/static, Filepath: css";
                WrapGzipWriter; WriteHeaders;
                LogEvent LevelWarn "directory listing not allowed: ";
                ResWriteHeader 403; ResWrite "403 Directory listing not allowed";
                CloseQuietly]
         (upd 1%positive (set_gzip false newReply) demoState)).
Proof.
  intros ctx fi f.
  assert (Hpath : @getHTTPDirAndFilePath demoHost ctx = ("/srv/app/static", "css"))
    by reflexivity.
  assert (Hopen : @http_Dir_Open demoHost "/srv/app/static" "css" = inl f) by reflexivity.
  assert (Hstat : http.Stat f = inl fi) by reflexivity.
  assert (Hreg : os.IsRegular (os.Mode fi) = false) by reflexivity.
  assert (Hlist : router.ListDir (route ctx) = false) by reflexivity.
  assert (Hx : replies demoState !! reply ctx = Some newReply) by reflexivity.
  split; [exact Hpath|]. split; [exact Hopen|]. split; [exact Hreg|]. split; [exact Hlist|].
  destruct (@serveStatic_listing_not_allowed demoHost ctx demoState _ _ f fi newReply
              Hpath Hopen Hstat Hreg (or_intror Hlist) Hx) as [Hrun _].
  exact Hrun.
Defined.

(** X20. For a directory with listing enabled and a request path that ends
    in a slash, [serveStatic] writes the listing between the pre-reply and
    the after-reply event, with no status and no redirect of its own. *)
Theorem serveStatic_lists_directory `{Host} (ctx : Context) (s : State)
    (httpDir filePath : string) (f : http.File) (fi : os.FileInfo) (x : Reply) :
  getHTTPDirAndFilePath ctx = (httpDir, filePath) ->
  http_Dir_Open httpDir filePath = inl f ->
  http.Stat f = inl fi ->
  os.IsDir (os.Mode fi) = true ->
  router.ListDir (route ctx) = true ->
  replies s !! reply ctx = Some x ->
  lastByte (ahttp.Path (Req ctx)) = Some "/"%char ->
  let l := [LogEvent LevelTrace ("Dir: " ++ httpDir ++ ", Filepath: " ++ filePath);
            WrapGzipWriter; WriteHeaders; PublishOnPreReplyEvent; DirectoryListing;
            PublishOnAfterReplyEvent; CloseQuietly] in
  serveStatic ctx s =
    Returns None (emitted l (upd (reply ctx) (set_gzip (checkGzipRequired filePath) x) s)) /\
  statuses l = [] /\ redirects l = [].
Proof.
  intros Hpath Hopen Hstat Hdir Hlist Hx Hlast l.
  rewrite (serveStatic_cases ctx s _ _ Hpath), Hopen, Hstat, Hx.
  rewrite (IsDir_not_IsRegular _ Hdir), Hdir, Hlist, index_last, Hlast.
  by repeat split.
Qed.

Lemma serveStatic_lists_directory_witness :
  let ctx := demoContext "/assets/css/" "css" in
  let fi := {| os.Name := "css"; os.Mode := Z.lor os.ModeDir 493; os.ModTime := 0 |} in
  let f := {| http.Stat := inl fi |} in
  @getHTTPDirAndFilePath demoHost ctx = ("/srv/app/static", "css") /\
  @http_Dir_Open demoHost "/srv/app/static" "css" = inl f /\
  os.IsDir (os.Mode fi) = true /\
  lastByte (ahttp.Path (Req ctx)) = Some "/"%char /\
  @serveStatic demoHost ctx demoState =
    Returns None
      (emitted [LogEvent LevelTrace "Dir: /srv/app/static, Filepath: css";
                WrapGzipWriter; WriteHeaders; PublishOnPreReplyEvent; DirectoryListing;
                PublishOnAfterReplyEvent; CloseQuietly]
         (upd 1%positive (set_gzip false newReply) demoState)).
Proof.
  intros ctx fi f.
  assert (Hpath : @getHTTPDirAndFilePath demoHost ctx = ("/srv/app/static", "css"))
    by reflexivity.
  assert (Hopen : @http_Dir_Open demoHost "/srv/app/static" "css" = inl f) by reflexivity.
  assert (Hstat : http.Stat f = inl fi) by reflexivity.
  assert (Hdir : os.IsDir (os.Mode fi) = true) by reflexivity.
  assert (Hlist : router.ListDir (route ctx) = true) by reflexivity.
  assert (Hx : replies demoState !! reply ctx = Some newReply) by reflexivity.
  assert (Hlast : lastByte (ahttp.Path (Req ctx)) = Some "/"%char) by reflexivity.
  split; [exact Hpath|]. split; [exact Hopen|]. split; [exact Hdir|]. split; [exact Hlast|].
  destruct (@serveStatic_lists_directory demoHost ctx demoState _ _ f fi newReply
              Hpath Hopen Hstat Hdir Hlist Hx Hlast) as [Hrun _].
  exact Hrun.
Defined.

(** ** [checkGzipRequired] without an extension *)

Lemma Ext_loop_plain (p name : string) (k : nat) :
  (k <= String.length name)%nat ->
  forallb plainByte (list_ascii_of_string name) = true ->
  filepath.Ext_loop (p ++ String "/" name) (String.length p + 1 + k) = "" /\
  filepath.Ext_loop name k = "".
Proof.
  intros Hk Hplain. induction k as [|k IH].
  - split; [|reflexivity].
    rewrite Nat.add_0_r, Nat.add_1_r. cbn [filepath.Ext_loop].
    rewrite <- (Nat.add_0_r (String.length p)) at 1.
    by rewrite get_app_r.
  - destruct (IH ltac:(lia)) as [IH1 IH2].
    destruct (get_is_Some name k ltac:(lia)) as [c Hget].
    pose proof (forallb_get plainByte name k c Hplain Hget) as Hc.
    unfold plainByte in Hc. apply andb_true_iff in Hc as [Hsep Hdot].
    apply negb_true_iff in Hsep, Hdot.
    split.
    + replace (String.length p + 1 + S k)%nat with (S (String.length p + 1 + k)) by lia.
      cbn [filepath.Ext_loop].
      replace (String.length p + 1 + k)%nat with (String.length p + S k)%nat at 1 by lia.
      rewrite get_app_r. cbn [String.get]. by rewrite Hget, Hsep, Hdot.
    + cbn [filepath.Ext_loop]. by rewrite Hget, Hsep, Hdot.
Qed.

(** X21. A path whose last element has no dot has no extension and is not
    compressed, whatever dots its directories have. *)
Theorem checkGzipRequired_needs_an_extension (dir name : string) :
  forallb plainByte (list_ascii_of_string name) = true ->
  checkGzipRequired (dir ++ "/" ++ name) = false /\
  checkGzipRequired name = false /\
  filepath.Ext (dir ++ "/" ++ name) = "" /\ filepath.Ext name = "".
Proof.
  intros Hplain.
  assert (Hext : filepath.Ext (dir ++ "/" ++ name) = "" /\ filepath.Ext name = "").
  { unfold filepath.Ext. change ("/" ++ name) with (String "/" name).
    rewrite length_app. cbn [String.length].
    replace (String.length dir + S (String.length name))%nat
      with (String.length dir + 1 + String.length name)%nat by lia.
    exact (Ext_loop_plain dir name (String.length name) (Nat.le_refl _) Hplain). }
  destruct Hext as [Hext1 Hext2]. unfold checkGzipRequired. by rewrite Hext1, Hext2.
Qed.

Lemma checkGzipRequired_needs_an_extension_witness :
  forallb plainByte (list_ascii_of_string "README") = true /\
  checkGzipRequired ("/srv/app/static/vendor.css" ++ "/" ++ "README") = false.
Proof.
  assert (Hplain : forallb plainByte (list_ascii_of_string "README") = true) by reflexivity.
  split; [exact Hplain|].
  exact (proj1 (checkGzipRequired_needs_an_extension "/srv/app/static/vendor.css" "README"
                  Hplain)).
Defined.

(** ** [byName] *)

Lemma compare_refl (a : string) : String.compare a a = Eq.
Proof.
  induction a as [|c a IH]; [reflexivity|]. cbn.
  unfold Ascii.compare. by rewrite N.compare_refl.
Qed.

Lemma compare_Lt_trans (a b c : string) :
  String.compare a b = Lt -> String.compare b c = Lt -> String.compare a c = Lt.
Proof.
  revert b c. induction a as [|x a IH]; intros [|y b] [|z c]; cbn; try done.
  unfold Ascii.compare.
  destruct (N_of_ascii x ?= N_of_ascii y)%N eqn:Hxy; try done;
    destruct (N_of_ascii y ?= N_of_ascii z)%N eqn:Hyz; try done;
    intros Hab Hbc.
  - apply N.compare_eq in Hxy, Hyz. rewrite Hxy, Hyz, N.compare_refl. by apply (IH b c).
  - apply N.compare_eq in Hxy. by rewrite Hxy, Hyz.
  - apply N.compare_eq in Hyz. by rewrite <- Hyz, Hxy.
  - apply N.compare_lt_iff in Hxy, Hyz.
    assert (Hxz : (N_of_ascii x < N_of_ascii z)%N) by (by etrans).
    by apply N.compare_lt_iff in Hxz as ->.
Qed.

Lemma compare_Lt_Gt (a b : string) :
  String.compare a b = Lt <-> String.compare b a = Gt.
Proof.
  rewrite (String.compare_antisym b a). destruct (String.compare a b); cbn; split; done.
Qed.

Lemma ltb_irrefl (a : string) : String.ltb a a = false.
Proof. unfold String.ltb. by rewrite compare_refl. Qed.

Lemma ltb_trans (a b c : string) :
  String.ltb a b = true -> String.ltb b c = true -> String.ltb a c = true.
Proof.
  unfold String.ltb. intros Hab Hbc.
  rewrite (compare_Lt_trans a b c); [done| |].
  - by destruct (String.compare a b).
  - by destruct (String.compare b c).
Qed.

Lemma ltb_total (a b : string) :
  String.ltb a b = false -> String.ltb b a = false -> a = b.
Proof.
  unfold String.ltb. intros Hab Hba.
  destruct (String.compare a b) eqn:Hcmp; [by apply String.compare_eq_iff|done|].
  apply compare_Lt_Gt in Hcmp. by rewrite Hcmp in Hba.
Qed.

Lemma elem_Value (s : list os.FileInfo) (i : Z) (d : os.FileInfo) :
  byName.elem s i = Value d <-> 0 <= i /\ s !! Z.to_nat i = Some d.
Proof.
  unfold byName.elem. destruct (Z.ltb_spec i 0).
  - split; [done|]. intros [? _]. lia.
  - destruct (s !! Z.to_nat i); split; intros; try done; try (split; [lia|congruence]).
    + destruct H0 as [_ [= <-]]. done.
    + by destruct H0.
Qed.

Lemma elem_in_range (s : list os.FileInfo) (i : Z) :
  0 <= i < byName.Len s -> exists d, byName.elem s i = Value d.
Proof.
  intros Hi. unfold byName.Len in Hi.
  destruct (lookup_lt_is_Some_2 s (Z.to_nat i) ltac:(lia)) as [d Hd].
  exists d. apply elem_Value. split; [lia|done].
Qed.

Lemma elem_out_of_range (s : list os.FileInfo) (i : Z) :
  ~ (0 <= i < byName.Len s) -> byName.elem s i = Panic indexOutOfRange.
Proof.
  intros Hi. unfold byName.elem, byName.Len in *. destruct (Z.ltb_spec i 0); [done|].
  rewrite lookup_ge_None_2; [done|lia].
Qed.

(** X22. On indices in range [Less] is a strict order on names:
    irreflexive, asymmetric and transitive, and two entries neither of
    which is less than the other have the same name. *)
Theorem byName_Less_is_a_strict_order (s : list os.FileInfo) (i j k : Z) :
  0 <= i < byName.Len s -> 0 <= j < byName.Len s -> 0 <= k < byName.Len s ->
  byName.Less s i i = Value false /\
  (byName.Less s i j = Value true -> byName.Less s j i = Value false) /\
  (byName.Less s i j = Value true -> byName.Less s j k = Value true ->
   byName.Less s i k = Value true) /\
  (byName.Less s i j = Value false -> byName.Less s j i = Value false ->
   exists a b, s !! Z.to_nat i = Some a /\ s !! Z.to_nat j = Some b /\ os.Name a = os.Name b).
Proof.
  intros Hi Hj Hk.
  destruct (elem_in_range s i Hi) as [a Ha], (elem_in_range s j Hj) as [b Hb],
    (elem_in_range s k Hk) as [c Hc].
  unfold byName.Less. rewrite Ha, Hb, Hc.
  split; [by rewrite ltb_irrefl|]. split; [|split].
  - intros [= Hab]. f_equal.
    destruct (String.ltb (os.Name b) (os.Name a)) eqn:Hba; [|done].
    pose proof (ltb_trans _ _ _ Hab Hba) as Haa. by rewrite ltb_irrefl in Haa.
  - intros [= Hab] [= Hbc]. f_equal. by apply (ltb_trans _ (os.Name b)).
  - intros [= Hab] [= Hba]. exists a, b.
    apply elem_Value in Ha as [_ Ha], Hb as [_ Hb]. by auto using ltb_total.
Qed.

Lemma byName_Less_is_a_strict_order_witness :
  let s := [ {| os.Name := "b.css"; os.Mode := 420; os.ModTime := 0 |};
             {| os.Name := "a.css"; os.Mode := 420; os.ModTime := 0 |} ] in
  0 <= 1 < byName.Len s /\ 0 <= 0 < byName.Len s /\
  byName.Less s 1 0 = Value true /\ byName.Less s 0 1 = Value false.
Proof.
  intros s.
  assert (H1 : 0 <= 1 < byName.Len s) by (unfold s, byName.Len; simpl; lia).
  assert (H0 : 0 <= 0 < byName.Len s) by (unfold s, byName.Len; simpl; lia).
  split; [exact H1|]. split; [exact H0|].
  destruct (byName_Less_is_a_strict_order s 1 0 0 H1 H0 H0) as (_ & Hasym & _).
  assert (Hless : byName.Less s 1 0 = Value true) by reflexivity.
  split; [exact Hless|exact (Hasym Hless)].
Defined.

Lemma insert_cons_Permutation {A} (t : list A) (j : nat) (b x : A) :
  t !! j = Some b -> b :: <[j := x]> t ≡ₚ x :: t.
Proof.
  revert j. induction t as [|y t IH]; intros [|j] Hj; cbn in *; try done.
  - injection Hj as ->. apply Permutation_swap.
  - rewrite Permutation_swap, (IH j Hj). apply Permutation_swap.
Qed.

Lemma swap_Permutation {A} (s : list A) (i j : nat) (a b : A) :
  s !! i = Some a -> s !! j = Some b -> <[j := a]> (<[i := b]> s) ≡ₚ s.
Proof.
  revert i j. induction s as [|x s IH]; intros [|i] [|j] Hi Hj; cbn in *; try done.
  - by injection Hi as ->.
  - injection Hi as ->. by apply insert_cons_Permutation.
  - injection Hj as ->. by apply insert_cons_Permutation.
  - f_equiv. by apply IH.
Qed.

Lemma swap_lookup {A} (s : list A) (i j k : nat) (a b : A) :
  s !! i = Some a -> s !! j = Some b ->
  <[j := a]> (<[i := b]> s) !! k =
    if decide (k = j) then Some a else if decide (k = i) then Some b else s !! k.
Proof.
  intros Hi Hj.
  pose proof (lookup_lt_Some _ _ _ Hi) as Hli. pose proof (lookup_lt_Some _ _ _ Hj) as Hlj.
  destruct (decide (k = j)) as [->|Hkj].
  - rewrite list_lookup_insert_eq; [done|by rewrite length_insert].
  - rewrite list_lookup_insert_ne by done.
    destruct (decide (k = i)) as [->|Hki].
    + by rewrite list_lookup_insert_eq.
    + by rewrite list_lookup_insert_ne.
Qed.

Lemma elem_lookup (s t : list os.FileInfo) (i j : Z) :
  0 <= i -> 0 <= j -> s !! Z.to_nat i = t !! Z.to_nat j -> byName.elem s i = byName.elem t j.
Proof.
  intros Hi Hj Heq. unfold byName.elem.
  rewrite (proj2 (Z.ltb_ge i 0)), (proj2 (Z.ltb_ge j 0)) by lia. by rewrite Heq.
Qed.

(** X23. With both indices in range [Swap] exchanges the two elements and
    nothing else: the length is kept, the slice is a permutation of what it
    was, and swapping again restores it.  With an index out of range it
    panics. *)
Theorem byName_Swap_exchanges (s : list os.FileInfo) (i j : Z) :
  (0 <= i < byName.Len s /\ 0 <= j < byName.Len s ->
   exists s',
     byName.Swap s i j = Value s' /\
     byName.Len s' = byName.Len s /\
     s' ≡ₚ s /\
     byName.elem s' i = byName.elem s j /\ byName.elem s' j = byName.elem s i /\
     (forall k, k <> i -> k <> j -> byName.elem s' k = byName.elem s k) /\
     byName.Swap s' i j = Value s) /\
  (~ (0 <= i < byName.Len s /\ 0 <= j < byName.Len s) ->
   byName.Swap s i j = Panic indexOutOfRange).
Proof.
  split.
  - intros [Hi Hj].
    destruct (elem_in_range s i Hi) as [a Ha], (elem_in_range s j Hj) as [b Hb].
    pose proof Ha as Ha'. pose proof Hb as Hb'.
    apply elem_Value in Ha' as [_ Hia], Hb' as [_ Hjb].
    set (s' := <[Z.to_nat j := a]> (<[Z.to_nat i := b]> s)).
    assert (Hlookup : forall k, s' !! k =
              if decide (k = Z.to_nat j) then Some a
              else if decide (k = Z.to_nat i) then Some b else s !! k)
      by (intros k; by apply swap_lookup).
    assert (Hi' : s' !! Z.to_nat i = Some b).
    { rewrite Hlookup. destruct (decide (Z.to_nat i = Z.to_nat j)) as [Heq|_].
      - rewrite Heq in Hia. congruence.
      - by rewrite decide_True. }
    assert (Hj' : s' !! Z.to_nat j = Some a) by (by rewrite Hlookup, decide_True).
    exists s'. split; [|split; [|split; [|split; [|split; [|split]]]]].
    + unfold byName.Swap. by rewrite Ha, Hb.
    + unfold byName.Len, s'. by rewrite !length_insert.
    + by apply swap_Permutation.
    + apply elem_lookup; [lia|lia|]. by rewrite Hi', Hjb.
    + apply elem_lookup; [lia|lia|]. by rewrite Hj', Hia.
    + intros k Hki Hkj. unfold byName.elem. destruct (Z.ltb_spec k 0); [done|].
      rewrite Hlookup, !decide_False by lia. done.
    + unfold byName.Swap.
      rewrite (proj2 (elem_Value s' i b)), (proj2 (elem_Value s' j a)) by (split; [lia|done]).
      f_equal. apply list_eq. intros k.
      rewrite (swap_lookup s' _ _ k b a Hi' Hj'), Hlookup.
      destruct (decide (k = Z.to_nat j)) as [->|?]; [done|].
      destruct (decide (k = Z.to_nat i)) as [->|?]; done.
  - intros Hout. unfold byName.Swap.
    destruct (decide (0 <= i < byName.Len s)) as [Hi|Hi].
    + destruct (elem_in_range s i Hi) as [a ->].
      rewrite elem_out_of_range; [done|]. intros Hj. by apply Hout.
    + by rewrite elem_out_of_range.
Qed.

Lemma byName_Swap_exchanges_witness :
  let a := {| os.Name := "a.css"; os.Mode := 420; os.ModTime := 0 |} in
  let b := {| os.Name := "b.css"; os.Mode := 420; os.ModTime := 0 |} in
  (0 <= 0 < byName.Len [b; a] /\ 0 <= 1 < byName.Len [b; a]) /\
  (exists s', byName.Swap [b; a] 0 1 = Value s' /\ byName.Swap s' 0 1 = Value [b; a]) /\
  (~ (0 <= 0 < byName.Len [b; a] /\ 0 <= 2 < byName.Len [b; a])) /\
  byName.Swap [b; a] 0 2 = Panic indexOutOfRange.
Proof.
  intros a b.
  assert (Hin : 0 <= 0 < byName.Len [b; a] /\ 0 <= 1 < byName.Len [b; a])
    by (unfold byName.Len; simpl; lia).
  assert (Hout : ~ (0 <= 0 < byName.Len [b; a] /\ 0 <= 2 < byName.Len [b; a]))
    by (unfold byName.Len; simpl; lia).
  destruct (byName_Swap_exchanges [b; a] 0 1) as [Hswap _].
  destruct (Hswap Hin) as (s' & Hrun & _ & _ & _ & _ & _ & Hback).
  destruct (byName_Swap_exchanges [b; a] 0 2) as [_ Hpanic].
  split; [exact Hin|]. split; [by exists s'|]. split; [exact Hout|exact (Hpanic Hout)].
Defined.

(** ** [directoryList] *)

Lemma ltb_false_trans (a b c : string) :
  String.ltb b a = false -> String.ltb c b = false -> String.ltb c a = false.
Proof.
  intros Hba Hcb. destruct (String.ltb c a) eqn:Hca; [|done].
  destruct (String.ltb a b) eqn:Hab.
  - by rewrite (ltb_trans c a b Hca Hab) in Hcb.
  - rewrite (ltb_total a b Hab Hba) in Hca. congruence.
Qed.

(** A slice that [sort.IsSorted] accepts is in name order at any two
    indices. *)
Lemma IsSorted_all_pairs (s : list os.FileInfo) :
  byName.IsSorted s ->
  forall (i j : nat) a b, (i < j)%nat -> s !! i = Some a -> s !! j = Some b ->
    String.ltb (os.Name b) (os.Name a) = false.
Proof.
  intros Hsorted i j. revert i.
  induction j as [|j IH]; intros i a b Hij Hi Hj; [lia|].
  destruct (lookup_lt_is_Some_2 s j) as [c Hc].
  { apply lookup_lt_Some in Hj. lia. }
  assert (Hadj : String.ltb (os.Name b) (os.Name c) = false).
  { pose proof (lookup_lt_Some _ _ _ Hj) as Hlen.
    specialize (Hsorted (Z.of_nat (S j))). unfold byName.Len, byName.Less in Hsorted.
    rewrite (proj2 (elem_Value s (Z.of_nat (S j)) b)) in Hsorted
      by (split; [lia|by rewrite Nat2Z.id]).
    rewrite (proj2 (elem_Value s (Z.of_nat (S j) - 1) c)) in Hsorted.
    - by injection (Hsorted ltac:(lia)).
    - split; [lia|]. by replace (Z.to_nat (Z.of_nat (S j) - 1)) with j by lia. }
  destruct (decide (i = j)) as [->|Hne].
  - assert (c = a) as -> by congruence. exact Hadj.
  - apply (ltb_false_trans _ (os.Name c)); [|exact Hadj].
    apply (IH i a c); [lia|done|done].
Qed.

Lemma statuses_map_listingRow `{Rendering} (l : list os.FileInfo) :
  statuses (map listingRow l) = [].
Proof. by induction l. Qed.

(** X24. When reading the directory fails [directoryList] writes status 500
    and an error text.  Otherwise -- [sort.Sort] permuting the entries into
    an order [sort.IsSorted] accepts -- it sets the content type of the
    response to HTML, calls [WriteHeader] nowhere, and writes the six lines of the
    head, one row for each entry, the rows in ascending order of the names,
    and the three lines of the foot. *)
Theorem directoryList_rows `{Rendering}
    (h : http.Header) (reqPath : string) (dirs : list os.FileInfo) (err : error) :
  isTable h ->
  sort_Sort dirs ≡ₚ dirs ->
  byName.IsSorted (sort_Sort dirs) ->
  directoryList h reqPath (inr err) =
    Value (h, [ResWriteHeader 500; ResWrite "Error reading directory"]) /\
  exists h' written,
    directoryList h reqPath (inl dirs) = Value (h', written) /\
    written = (listingHead reqPath ++ map listingRow (sort_Sort dirs) ++ listingFoot)%list /\
    http.Header_Get h' "Content-Type" = "text/html; charset=utf-8" /\
    (forall k, k <> "Content-Type" -> http.entries h' !! k = http.entries h !! k) /\
    statuses written = [] /\
    length written = (9 + length dirs)%nat /\
    map listingRow (sort_Sort dirs) ≡ₚ map listingRow dirs /\
    (forall (i j : nat) a b, (i < j)%nat ->
       sort_Sort dirs !! i = Some a -> sort_Sort dirs !! j = Some b ->
       String.ltb (os.Name b) (os.Name a) = false).
Proof.
  intros [m ->]%isTable_inv Hperm Hsorted. split; [reflexivity|].
  assert (Hkey : textproto.CanonicalMIMEHeaderKey ahttp.HeaderContentType = "Content-Type")
    by reflexivity.
  eexists _, _. split; [reflexivity|]. split; [reflexivity|].
  split.
  { unfold http.Header_Get, http.values. cbn [http.entries].
    change (textproto.CanonicalMIMEHeaderKey "Content-Type")
      with (textproto.CanonicalMIMEHeaderKey ahttp.HeaderContentType).
    by rewrite lookup_insert_eq. }
  split.
  { intros k Hk. cbn [http.entries]. rewrite Hkey. by rewrite lookup_insert_ne. }
  split.
  { rewrite !statuses_app, statuses_map_listingRow. reflexivity. }
  split.
  { rewrite !List.length_app, List.length_map, (Permutation_length Hperm). cbn. lia. }
  split; [by rewrite Hperm|]. by apply IsSorted_all_pairs.
Qed.

Lemma directoryList_rows_witness :
  let css := {| os.Name := "css"; os.Mode := Z.lor os.ModeDir 493; os.ModTime := 0 |} in
  let app := {| os.Name := "app.js"; os.Mode := 420; os.ModTime := 0 |} in
  isTable http.empty /\
  @sort_Sort demoRendering [css; app] ≡ₚ [css; app] /\
  byName.IsSorted (@sort_Sort demoRendering [css; app]) /\
  exists h',
    @directoryList demoRendering http.empty "/assets/" (inl [css; app]) =
      Value (h', (listingHead "/assets/"
                  ++ [@listingRow demoRendering app; @listingRow demoRendering css]
                  ++ listingFoot)%list).
Proof.
  intros css app.
  assert (Ht : isTable http.empty) by discriminate.
  assert (Hperm : @sort_Sort demoRendering [css; app] ≡ₚ [css; app])
    by (simpl; apply Permutation_swap).
  assert (Hsorted : byName.IsSorted (@sort_Sort demoRendering [css; app])).
  { intros i Hi. unfold byName.Len in Hi. simpl in Hi.
    assert (i = 1) as -> by lia. reflexivity. }
  split; [exact Ht|]. split; [exact Hperm|]. split; [exact Hsorted|].
  destruct (@directoryList_rows demoRendering http.empty "/assets/" [css; app]
              (errorsNew "unused") Ht Hperm Hsorted) as (_ & h' & written & Hrun & Hwritten & _).
  exists h'. rewrite Hrun, Hwritten. reflexivity.
Defined.
